(** * Ryki trading system: a shallow embedding of the risk, analysis and
    execution core, and the properties its specification states about it.

    Conventions of the embedding.

    - Python [Decimal] values (prices, quantities, balances, percentages)
      are rationals [Q]: sums, differences, products and comparisons of
      decimals are exact in Python as long as the result fits the 28
      digits of the default context, which amounts of 18 digits with 8
      decimal places do, and a quotient is taken exactly here.  Equality
      of computed decimals is therefore [Qeq] ([==]); a field that is
      copied is equal by [=].
      Where the source depends on the representation of a decimal (its
      exponent, [quantize]) the value is a coefficient and an exponent,
      see [Module DecimalRepr].
    - Python [float] values of the analyzers (z-scores, scores) are
      rationals as well; every threshold they are compared with is a
      short decimal literal.  The price ratio and the EMA of the 3-D
      analyzer, whose labels turn on the last place of a quotient, are
      computed with the rounding of [Module Float].
    - A call that can raise returns an [outcome]; [try ... except] is a
      match on it.
    - Rows of the relational store are records, tables are finite maps
      from the primary key. *)

From stdpp Require Import gmap strings list sorting.
From Stdlib Require Import ZArith QArith Qabs Qminmax Qround Qpower Lqa Lia.

Local Open Scope Q_scope.

(** ** Decimal comparisons as the source writes them *)

(** [x <= y] *)
Definition Qleb (x y : Q) : bool := Qle_bool x y.

(** [x < y] *)
Definition Qltb (x y : Q) : bool := negb (Qle_bool y x).

(** [x >= y] *)
Definition Qgeb (x y : Q) : bool := Qle_bool y x.

(** [x > y] *)
Definition Qgtb (x y : Q) : bool := negb (Qle_bool x y).

(** [x == 0], also the truth value of a decimal: [bool(Decimal('0'))] is
    [False]. *)
Definition Qzerob (x : Q) : bool := Qeq_bool x 0.

(** [x or y] on an optional decimal: [None] and zero are both falsy. *)
Definition decimal_or (x : option Q) (y : Q) : Q :=
  match x with
  | Some v => if Qzerob v then y else v
  | None => y
  end.

(** ** Calls that may raise *)

Inductive outcome (A : Type) : Type :=
| Returns (a : A)
| Raises (exc : string).

Arguments Returns {A} a.
Arguments Raises {A} exc.

(** Sequencing stops at the first exception ([x ← c; k] below). *)
#[global] Instance outcome_bind : MBind outcome :=
  fun A B k c =>
    match c with
    | Returns a => k a
    | Raises e => Raises e
    end.

#[global] Instance outcome_ret : MRet outcome := fun A a => Returns a.

(** [a / b] on decimals: a zero divisor raises. *)
Definition decimal_div (a b : Q) : outcome Q :=
  if Qzerob b then Raises "ArithmeticError" else Returns (a / b).

(** ** Columns of the relational store

    A write raises when a value does not fit its column.  Amounts fit
    theirs (the convention above); the columns that bind are the
    percentages and the bounded texts. *)

(** [DecimalField(max_digits=8, decimal_places=6)], the percentage
    columns: the value is stored rounded to six places and must then be
    below 100 in absolute value. *)
Definition fits_percentage (v : Q) : bool := Qltb (Qabs v) 99.9999995.

(** [CharField(max_length=n)]. *)
Definition fits_text (max_length : nat) (text : string) : bool :=
  (String.length text <=? max_length)%nat.

(** ** trading/models.py *)

Inductive Side : Set := BUY | SELL.

Definition Side_eqb (a b : Side) : bool :=
  match a, b with
  | BUY, BUY | SELL, SELL => true
  | _, _ => false
  end.

Module Trade.

Inductive Status : Set := PENDING | PARTIALLY_FILLED | FILLED | CANCELLED | REJECTED.

(** [binance_order_id] holds [str(order['orderId'])], the decimal writing
    of the exchange's integer id: it is kept as that integer.  The column
    is declared [unique]. *)
Record t : Type := mk {
  binance_order_id : Z;
  symbol : string;
  side : Side;
  order_type : string;
  requested_quantity : Q;
  filled_quantity : Q;
  requested_price : option Q;
  average_price : option Q;
  status : Status;
  macro_context : string
}.

(** The bounded texts of a trade fit their columns: [symbol] and
    [order_type] are [CharField(max_length=20)], [macro_context] is
    [CharField(max_length=200)]. *)
Definition storable (row : t) : bool :=
  fits_text 20 (symbol row) && fits_text 20 (order_type row)
  && fits_text 200 (macro_context row).

End Trade.

Module Position.

Inductive Status : Set := OPEN | CLOSED.

Definition Status_eqb (a b : Status) : bool :=
  match a, b with
  | OPEN, OPEN | CLOSED, CLOSED => true
  | _, _ => false
  end.

(** A row of the positions table.  Foreign keys are the primary keys of
    the trades they point to; timestamps are instants of an abstract
    clock. *)
Record t : Type := mk {
  entry_trade : Z;
  exit_trade : option Z;
  symbol : string;
  side : Side;
  quantity : Q;
  entry_price : Q;
  current_price : option Q;
  unrealized_pnl : Q;
  unrealized_pnl_pct : Q;
  initial_stop : Q;
  current_stop : Q;
  trailing_activated : bool;
  trailing_distance : option Q;
  highest_price : option Q;
  lowest_price : option Q;
  take_profit : option Q;
  status : Status;
  close_reason : string;
  opened_at : Z;
  closed_at : option Z
}.

(** Attribute assignments [self.f = v]. *)

Definition set_pnl (p : t) (price pnl pct : Q) : t :=
  mk (entry_trade p) (exit_trade p) (symbol p) (side p) (quantity p)
     (entry_price p) (Some price) pnl pct (initial_stop p) (current_stop p)
     (trailing_activated p) (trailing_distance p) (highest_price p)
     (lowest_price p) (take_profit p) (status p) (close_reason p)
     (opened_at p) (closed_at p).

Definition set_trailing (p : t) (activated : bool) (distance highest lowest : option Q) : t :=
  mk (entry_trade p) (exit_trade p) (symbol p) (side p) (quantity p)
     (entry_price p) (current_price p) (unrealized_pnl p)
     (unrealized_pnl_pct p) (initial_stop p) (current_stop p)
     activated distance highest lowest (take_profit p) (status p)
     (close_reason p) (opened_at p) (closed_at p).

Definition set_highest_price (p : t) (v : Q) : t :=
  set_trailing p (trailing_activated p) (trailing_distance p) (Some v) (lowest_price p).

Definition set_lowest_price (p : t) (v : Q) : t :=
  set_trailing p (trailing_activated p) (trailing_distance p) (highest_price p) (Some v).

Definition set_current_stop (p : t) (v : Q) : t :=
  mk (entry_trade p) (exit_trade p) (symbol p) (side p) (quantity p)
     (entry_price p) (current_price p) (unrealized_pnl p)
     (unrealized_pnl_pct p) (initial_stop p) v
     (trailing_activated p) (trailing_distance p) (highest_price p)
     (lowest_price p) (take_profit p) (status p) (close_reason p)
     (opened_at p) (closed_at p).

Definition set_closed (p : t) (exit : Z) (reason : string) (now : Z) : t :=
  mk (entry_trade p) (Some exit) (symbol p) (side p) (quantity p)
     (entry_price p) (current_price p) (unrealized_pnl p)
     (unrealized_pnl_pct p) (initial_stop p) (current_stop p)
     (trailing_activated p) (trailing_distance p) (highest_price p)
     (lowest_price p) (take_profit p) CLOSED reason
     (opened_at p) (Some now).

(** [Position.update_unrealized_pnl]: the position as its
    [save(update_fields=...)] leaves it; the division raises on a zero
    divisor, the write when the percentage does not fit its column. *)
Definition update_unrealized_pnl (self : t) (current_price : Q) : outcome t :=
  let pnl :=
    match side self with
    | BUY => (current_price - entry_price self) * quantity self
    | SELL => (entry_price self - current_price) * quantity self
    end in
  ratio ← decimal_div pnl (entry_price self * quantity self);
  let self := set_pnl self current_price pnl (ratio * 100) in
  if fits_percentage (unrealized_pnl_pct self) then Returns self
  else Raises "DataError".

(** The activation step of [Position.update_trailing_stop]. *)
Definition activate (self : t) (current_price : Q) : t :=
  set_trailing self true
    (Some (Qabs (current_price - current_stop self)))
    (match side self with BUY => Some current_price | SELL => None end)
    (match side self with SELL => Some current_price | BUY => None end).

(** [new_stop = current_price - self.trailing_distance] and its mirror:
    arithmetic on an unset distance raises. *)
Definition the_distance (self : t) : outcome Q :=
  match trailing_distance self with
  | Some d => Returns d
  | None => Raises "TypeError"
  end.

(** [Position.update_trailing_stop]. *)
Definition update_trailing_stop (self : t) (current_price trailing_trigger_pct : Q) : outcome t :=
  let profit_pct := unrealized_pnl_pct self in
  let self :=
    if negb (trailing_activated self) && Qgeb profit_pct (trailing_trigger_pct * 100)
    then activate self current_price
    else self in
  if trailing_activated self then
    match side self with
    | BUY =>
        if Qgtb current_price (decimal_or (highest_price self) 0) then
          let self := set_highest_price self current_price in
          d ← the_distance self;
          let new_stop := current_price - d in
          if Qgtb new_stop (current_stop self)
          then Returns (set_current_stop self new_stop)
          else Returns self
        else Returns self
    | SELL =>
        if match lowest_price self with
           | None => true
           | Some l => Qltb current_price l
           end
        then
          let self := set_lowest_price self current_price in
          d ← the_distance self;
          let new_stop := current_price + d in
          if Qltb new_stop (current_stop self)
          then Returns (set_current_stop self new_stop)
          else Returns self
        else Returns self
    end
  else Returns self.

End Position.

Module RiskState.

Inductive SystemStatus : Set := ACTIVE | PAUSED | EMERGENCY_STOP.

(** One row per calendar day; [date] is the day number. *)
Record t : Type := mk {
  date : Z;
  starting_balance : Q;
  current_balance : Q;
  highest_balance : Q;
  daily_pnl : Q;
  daily_pnl_pct : Q;
  drawdown : Q;
  drawdown_pct : Q;
  max_drawdown_pct : Q;
  total_trades : Z;
  winning_trades : Z;
  losing_trades : Z;
  system_status : SystemStatus;
  pause_reason : string;
  paused_at : option Z
}.

(** The assignments of [RiskState.update_balance], which its [save]
    then writes. *)
Definition update_balance_fields (self : t) (new_balance : Q) : t :=
  let current_balance' := new_balance in
  let highest_balance' :=
    if Qgtb new_balance (highest_balance self) then new_balance
    else highest_balance self in
  let daily_pnl' := new_balance - starting_balance self in
  let daily_pnl_pct' :=
    if Qgtb (starting_balance self) 0
    then daily_pnl' / starting_balance self * 100
    else daily_pnl_pct self in
  let drawdown' := highest_balance' - new_balance in
  let drawdown_pct' :=
    if Qgtb highest_balance' 0
    then drawdown' / highest_balance' * 100
    else drawdown_pct self in
  let max_drawdown_pct' :=
    if Qgtb drawdown_pct' (max_drawdown_pct self) then drawdown_pct'
    else max_drawdown_pct self in
  mk (date self) (starting_balance self) current_balance' highest_balance'
     daily_pnl' daily_pnl_pct' drawdown' drawdown_pct' max_drawdown_pct'
     (total_trades self) (winning_trades self) (losing_trades self)
     (system_status self) (pause_reason self) (paused_at self).

(** The assignments of [RiskState.trigger_circuit_breaker]. *)
Definition trigger_circuit_breaker_fields (self : t) (reason : string) (now : Z) : t :=
  mk (date self) (starting_balance self) (current_balance self)
     (highest_balance self) (daily_pnl self) (daily_pnl_pct self)
     (drawdown self) (drawdown_pct self) (max_drawdown_pct self)
     (total_trades self) (winning_trades self) (losing_trades self)
     PAUSED reason (Some now).

(** The row [get_or_create] inserts: the three balances from the
    [defaults], every other column at its declared default. *)
Definition created (today : Z) (starting_balance : option Q) : t :=
  mk today
     (decimal_or starting_balance 0) (decimal_or starting_balance 0)
     (decimal_or starting_balance 0)
     0 0 0 0 0 0%Z 0%Z 0%Z ACTIVE "" None.

(** The risk-state table of the relational store, with the day it is
    queried on and whether the store answers at all. *)
Record table : Type := mk_table {
  available : bool;
  today : Z;
  rows : gmap Z t
}.

(** The table with [row] written over the row of its date. *)
Definition write (db : table) (row : t) : table :=
  mk_table (available db) (today db) (<[date row := row]> (rows db)).

(** The row fits its columns: the three percentages and the reason of
    the pause, a [CharField(max_length=200)]. *)
Definition storable (row : t) : bool :=
  fits_percentage (daily_pnl_pct row)
  && fits_percentage (drawdown_pct row)
  && fits_percentage (max_drawdown_pct row)
  && fits_text 200 (pause_reason row).

(** [self.save()] of a risk state: an unreachable store raises, and so
    does a row that does not fit its columns; the table is then as it
    was. *)
Definition save (db : table) (row : t) : outcome table :=
  if negb (available db) then Raises "OperationalError"
  else if storable row then Returns (write db row)
  else Raises "DataError".

(** [RiskState.update_balance]: the object as the assignments leave it,
    and the table as the [save] that ends the method leaves it, or the
    exception of that [save]. *)
Definition update_balance (db : table) (self : t) (new_balance : Q)
    : t * outcome table :=
  let self := update_balance_fields self new_balance in
  (self, save db self).

(** [RiskState.trigger_circuit_breaker], in the same way. *)
Definition trigger_circuit_breaker (db : table) (self : t) (reason : string) (now : Z)
    : t * outcome table :=
  let self := trigger_circuit_breaker_fields self reason now in
  (self, save db self).

(** [RiskState.get_or_create_today]: today's row, inserted first when it
    is not there (a row of defaults, which fits its columns); an
    unreachable store raises. *)
Definition get_or_create_today (db : table) (starting_balance : option Q) : outcome (t * table) :=
  if available db then
    match rows db !! today db with
    | Some row => Returns (row, db)
    | None =>
        let row := created (today db) starting_balance in
        Returns (row, write db row)
    end
  else Raises "OperationalError".

End RiskState.

(** ** trading/services/redis_cache.py *)

(** An order book as both the cache and the exchange wrapper hand it
    out: two ladders of (price, quantity) levels, best level first. *)
Record OrderBook : Type := mk_book {
  bids : list (Q * Q);
  asks : list (Q * Q)
}.

Module RedisCache.

(** The JSON object stored under [system:status] is a map from field
    names to strings, read with [dict.get]; its integer [timestamp], which
    the code below never reads, is left out. *)
Record t : Type := mk {
  (** the [n]-th [GET system:status] of this run, decoded: a stored
      object, nothing, or an exception of the connection or the decoder *)
  client_get_status : nat -> outcome (option (gmap string string));
  (** [get_order_book symbol], already decoded *)
  get_order_book : string -> outcome (option OrderBook)
}.

(** [RedisCache.get_system_status], at read number [n]. *)
Definition get_system_status (self : t) (n : nat) : outcome (gmap string string) :=
  data ← client_get_status self n;
  match data with
  | Some parsed => Returns parsed
  | None => Returns (<["status" := "UNKNOWN"]> (<["reason" := ""]> ∅))
  end.

(** [RedisCache.is_trading_active], at read number [n]. *)
Definition is_trading_active (self : t) (n : nat) : outcome bool :=
  status ← get_system_status self n;
  Returns (bool_decide (status !! "status" = Some "ACTIVE")).

End RedisCache.

(** ** trading/services/binance_client.py *)

Module DecimalRepr.

(** A finite [Decimal] as Python holds it: [coefficient * 10 ^ exponent],
    the sign carried by the coefficient. *)
Record t : Type := mk {
  coefficient : Z;
  exponent : Z
}.

Definition value (d : t) : Q :=
  if (0 <=? exponent d)%Z
  then inject_Z (coefficient d * 10 ^ exponent d)
  else inject_Z (coefficient d) / inject_Z (10 ^ (- exponent d)).

(** Truth value of a decimal. *)
Definition truthy (d : t) : bool := negb (coefficient d =? 0)%Z.

(** [c / m] rounded to the nearest integer, ties to the even one
    ([ROUND_HALF_EVEN], the rounding of the default context). *)
Definition round_half_even (c m : Z) : Z :=
  let q := (c / m)%Z in
  let r := (c mod m)%Z in
  if (2 * r <? m)%Z then q
  else if (m <? 2 * r)%Z then (q + 1)%Z
  else if Z.even q then q else (q + 1)%Z.

(** Precision of the default context. *)
Definition prec : Z := 28.

(** [d.quantize(Decimal(10) ** e)]: the value of [d] at exponent [e],
    rounded half-even; [InvalidOperation] when the coefficient would need
    more than [prec] digits. *)
Definition quantize (d : t) (e : Z) : outcome t :=
  let c :=
    if (e <=? exponent d)%Z
    then (coefficient d * 10 ^ (exponent d - e))%Z
    else round_half_even (coefficient d) (10 ^ (e - exponent d)) in
  if (Z.abs c <? 10 ^ prec)%Z then Returns (mk c e)
  else Raises "InvalidOperation".

End DecimalRepr.

Module BinanceClient.

(** The filters [get_symbol_info] extracts; a filter the exchange does
    not list leaves its entries [None]. *)
Record symbol_info : Type := mk_info {
  min_qty : option DecimalRepr.t;
  step_size : option DecimalRepr.t;
  tick_size : option DecimalRepr.t;
  min_notional : option DecimalRepr.t
}.

(** What the exchange answers to the wrapper's requests. *)
Record t : Type := mk {
  get_symbol_info : string -> outcome symbol_info;
  get_account_balance : string -> outcome Q;
  get_order_book_depth : string -> Z -> outcome OrderBook
}.

(** [BinanceClient.format_quantity]. *)
Definition format_quantity (self : t) (symbol : string) (quantity : DecimalRepr.t) : outcome DecimalRepr.t :=
  info ← get_symbol_info self symbol;
  match step_size info with
  | Some step =>
      if DecimalRepr.truthy step then
        let precision := Z.abs (DecimalRepr.exponent step) in
        DecimalRepr.quantize quantity (- precision)
      else Returns quantity
  | None => Returns quantity
  end.

End BinanceClient.

(** ** trading/services/vpa_analyzer.py *)

Inductive TrendDirection : Set := TREND_BULLISH | TREND_BEARISH | TREND_NEUTRAL.

Definition TrendDirection_eqb (a b : TrendDirection) : bool :=
  match a, b with
  | TREND_BULLISH, TREND_BULLISH
  | TREND_BEARISH, TREND_BEARISH
  | TREND_NEUTRAL, TREND_NEUTRAL => true
  | _, _ => false
  end.

Module VPAAnalyzer.

Inductive VPAPattern : Set :=
| CLIMAX_HIGH | CLIMAX_LOW | NO_DEMAND | NO_SUPPLY | STOPPING_VOLUME
| TEST | UPTHRUST | SPRING | EFFORT_VS_RESULT | NEUTRAL.

Definition VPAPattern_eqb (a b : VPAPattern) : bool :=
  match a, b with
  | CLIMAX_HIGH, CLIMAX_HIGH | CLIMAX_LOW, CLIMAX_LOW
  | NO_DEMAND, NO_DEMAND | NO_SUPPLY, NO_SUPPLY
  | STOPPING_VOLUME, STOPPING_VOLUME | TEST, TEST
  | UPTHRUST, UPTHRUST | SPRING, SPRING
  | EFFORT_VS_RESULT, EFFORT_VS_RESULT | NEUTRAL, NEUTRAL => true
  | _, _ => false
  end.

(** [pattern in patterns] *)
Definition pattern_in (p : VPAPattern) (l : list VPAPattern) : bool :=
  existsb (VPAPattern_eqb p) l.

Record VPASignal : Type := mk_signal {
  pattern : VPAPattern;
  direction : TrendDirection;
  strength : Q;
  volume_anomaly : Q;
  spread_ratio : Q;
  close_position : Q;
  is_valid_signal : bool
}.

Definition ULTRA_HIGH_VOLUME : Q := 2.5.
Definition HIGH_VOLUME : Q := 1.5.
Definition LOW_VOLUME : Q := -0.5.
Definition ULTRA_LOW_VOLUME : Q := -1.5.
Definition WIDE_SPREAD : Q := 1.5.
Definition NARROW_SPREAD : Q := 0.5.
Definition UPPER_THIRD : Q := 0.67.
Definition LOWER_THIRD : Q := 0.33.

(** The climax branch of [_identify_pattern]: entered on ultra high
    volume with a wide spread, it returns only when bar and trend agree. *)
Definition climax (is_bullish : bool) (trend : TrendDirection) : option VPAPattern :=
  if is_bullish && TrendDirection_eqb trend TREND_BULLISH then Some CLIMAX_HIGH
  else if negb is_bullish && TrendDirection_eqb trend TREND_BEARISH then Some CLIMAX_LOW
  else None.

(** [VPAAnalyzer._identify_pattern]. *)
Definition _identify_pattern (volume_anomaly spread_ratio close_position : Q)
    (is_bullish : bool) (trend : TrendDirection) : VPAPattern :=
  match
    if Qgeb volume_anomaly ULTRA_HIGH_VOLUME && Qgeb spread_ratio WIDE_SPREAD
    then climax is_bullish trend else None
  with
  | Some p => p
  | None =>
  if Qgeb volume_anomaly HIGH_VOLUME && Qleb spread_ratio NARROW_SPREAD
  then STOPPING_VOLUME
  else if Qgeb volume_anomaly HIGH_VOLUME && Qltb spread_ratio 0.75
  then EFFORT_VS_RESULT
  else if Qleb volume_anomaly LOW_VOLUME && is_bullish
     && Qgeb close_position UPPER_THIRD
  then NO_DEMAND
  else if Qleb volume_anomaly LOW_VOLUME && negb is_bullish
     && Qleb close_position LOWER_THIRD
  then NO_SUPPLY
  else if Qleb volume_anomaly ULTRA_LOW_VOLUME
  then TEST
  else if Qgeb spread_ratio WIDE_SPREAD && is_bullish
     && Qleb close_position LOWER_THIRD && Qgeb volume_anomaly 0
  then UPTHRUST
  else if Qgeb spread_ratio WIDE_SPREAD && negb is_bullish
     && Qgeb close_position UPPER_THIRD && Qgeb volume_anomaly 0
  then SPRING
  else NEUTRAL
  end.

Definition pattern_weights (p : VPAPattern) : Q :=
  match p with
  | CLIMAX_HIGH | CLIMAX_LOW => 0.9
  | STOPPING_VOLUME => 0.8
  | UPTHRUST | SPRING => 0.85
  | NO_DEMAND | NO_SUPPLY => 0.7
  | TEST => 0.6
  | EFFORT_VS_RESULT => 0.65
  | NEUTRAL => 0
  end.

Definition fmin (a b : Q) : Q := if Qltb b a then b else a.
Definition fmax (a b : Q) : Q := if Qgtb b a then b else a.

(** [VPAAnalyzer._calculate_strength]. *)
Definition _calculate_strength (pattern : VPAPattern) (volume_anomaly spread_ratio : Q) : Q :=
  if VPAPattern_eqb pattern NEUTRAL then 0
  else
    let base_strength := pattern_weights pattern in
    let volume_factor := fmin (Qabs volume_anomaly / 3) 1 in
    let strength := base_strength * (0.7 + 0.3 * volume_factor) in
    fmin (fmax strength 0) 1.

(** [VPAAnalyzer._get_signal_direction]. *)
Definition _get_signal_direction (pattern : VPAPattern) (trend : TrendDirection) : TrendDirection :=
  let bullish_patterns := [CLIMAX_LOW; NO_SUPPLY; SPRING] in
  let bearish_patterns := [CLIMAX_HIGH; NO_DEMAND; UPTHRUST] in
  if VPAPattern_eqb pattern STOPPING_VOLUME then
    if TrendDirection_eqb trend TREND_BULLISH then TREND_BEARISH else TREND_BULLISH
  else if VPAPattern_eqb pattern TEST then trend
  else if pattern_in pattern bullish_patterns then TREND_BULLISH
  else if pattern_in pattern bearish_patterns then TREND_BEARISH
  else TREND_NEUTRAL.

(** [VPAAnalyzer._is_valid_signal], statement by statement. *)
Definition _is_valid_signal (pattern : VPAPattern) (strength : Q) (trend : TrendDirection) : bool :=
  if VPAPattern_eqb pattern NEUTRAL then false
  else if Qltb strength 0.5 then false
  else
    let reversal_patterns :=
      [CLIMAX_HIGH; CLIMAX_LOW; UPTHRUST; SPRING; STOPPING_VOLUME] in
    if pattern_in pattern reversal_patterns then true
    else if VPAPattern_eqb pattern NO_DEMAND
            && negb (TrendDirection_eqb trend TREND_BULLISH) then true
    else if VPAPattern_eqb pattern NO_SUPPLY
            && negb (TrendDirection_eqb trend TREND_BEARISH) then true
    else true.

(** The statistics [analyze] draws from the candles with numpy before it
    classifies the current bar: the volume z-score, the spread ratio, the
    close position, the colour of the bar and the short-term trend. *)
Record bar_metrics : Type := mk_metrics {
  m_volume_anomaly : Q;
  m_spread_ratio : Q;
  m_close_position : Q;
  m_is_bullish : bool;
  m_trend : TrendDirection
}.

(** [VPAAnalyzer.analyze] from the point where the statistics of the bar
    are known; [candles] is the number of candles it was given. *)
Definition analyze (lookback_period candles : nat) (m : bar_metrics) : VPASignal :=
  if (candles <? lookback_period)%nat then
    mk_signal NEUTRAL TREND_NEUTRAL 0 0 1 0.5 false
  else
    let pattern :=
      _identify_pattern (m_volume_anomaly m) (m_spread_ratio m)
        (m_close_position m) (m_is_bullish m) (m_trend m) in
    let strength := _calculate_strength pattern (m_volume_anomaly m) (m_spread_ratio m) in
    let direction := _get_signal_direction pattern (m_trend m) in
    let is_valid := _is_valid_signal pattern strength (m_trend m) in
    mk_signal pattern direction strength (m_volume_anomaly m)
      (m_spread_ratio m) (m_close_position m) is_valid.

End VPAAnalyzer.

(** ** Binary floating point

    Python's [float] and numpy's [float64].  A float is the rational it
    denotes, and an operation returns its exact result rounded to a
    float: [round] is that rounding.  [np.mean] adds the elements in an
    order of its own and is kept as one operation. *)

Module Float.

Record arithmetic : Type := mk {
  round : Q -> Q;
  mean : list Q -> Q
}.

(** [float(d)] of a decimal, and a literal of the source. *)
Definition of_decimal (fl : arithmetic) (d : Q) : Q := round fl d.

(** [a + b], [a - b], [a * b] and [a / b] on floats. *)
Definition add (fl : arithmetic) (a b : Q) : Q := round fl (a + b).

Definition sub (fl : arithmetic) (a b : Q) : Q := round fl (a - b).

Definition mul (fl : arithmetic) (a b : Q) : Q := round fl (a * b).

Definition div (fl : arithmetic) (a b : Q) : Q := round fl (a / b).

(** Every rounding is within the relative error [eps]. *)
Definition accurate (fl : arithmetic) (eps : Q) : Prop :=
  forall x, Qabs (round fl x - x) <= eps * Qabs x.

(** Arithmetic without rounding. *)
Definition exact_mean (l : list Q) : Q :=
  fold_right Qplus 0 l / inject_Z (Z.of_nat (length l)).

Definition exact : arithmetic := mk (fun x => x) exact_mean.

(** The nearest integer, a tie going to the even one. *)
Definition nearest_even (x : Q) : Z :=
  let f := Qfloor x in
  let r := x - inject_Z f in
  if Qltb r (1 # 2) then f
  else if Qltb (1 # 2) r then (f + 1)%Z
  else if Z.even f then f else (f + 1)%Z.

(** The binary exponent of a non-zero [x]: [2 ^ exponent x <= |x|] and
    [|x| < 2 ^ (exponent x + 1)]. *)
Definition exponent (x : Q) : Z :=
  let n := Z.abs (Qnum x) in
  let k := (Z.log2 n - Z.log2 (Zpos (Qden x)))%Z in
  if Qleb (2 ^ k) (n # Qden x) then k else (k - 1)%Z.

(** Rounding to 53 significant bits, to nearest with ties to even: the
    rounding of IEEE 754 binary64 away from overflow and underflow. *)
Definition round53 (x : Q) : Q :=
  if Qzerob x then 0
  else
    let e := (exponent x - 52)%Z in
    Qred (inject_Z (nearest_even (x / 2 ^ e)) * 2 ^ e).

(** The mean that adds from left to right. *)
Definition sequential_mean (l : list Q) : Q :=
  round53 (fold_left (fun s x => round53 (s + x)) l 0
           / inject_Z (Z.of_nat (length l))).

Definition binary64 : arithmetic := mk round53 sequential_mean.

(** The relative error of that rounding, [2 ^ -53]. *)
Definition unit_roundoff : Q := 1 # 9007199254740992.

End Float.

(** ** trading/services/three_d_analyzer.py *)

Inductive Impact : Set := LOW | MEDIUM | HIGH.

(** A row of the economic-event table: instants and durations count
    microseconds, the resolution of [datetime] and [timedelta]. *)
Record EconomicEvent : Type := mk_event {
  event_type : string;
  release_time : Z;
  impact : Impact;
  deviation_from_forecast : option Q
}.

Module ThreeDAnalyzer.

Inductive DimensionAlignment : Set := BULLISH | BEARISH | NEUTRAL | CONFLICTING.

Definition DimensionAlignment_eqb (a b : DimensionAlignment) : bool :=
  match a, b with
  | BULLISH, BULLISH | BEARISH, BEARISH
  | NEUTRAL, NEUTRAL | CONFLICTING, CONFLICTING => true
  | _, _ => false
  end.

Record RelationalAnalysis : Type := mk_relational {
  btc_eth_correlation : Q;
  crypto_health : DimensionAlignment;
  usd_impact : DimensionAlignment;
  risk_sentiment : string
}.

Record FundamentalAnalysis : Type := mk_fundamental {
  upcoming_events : list EconomicEvent;
  recent_events : list EconomicEvent;
  event_impact : DimensionAlignment;
  time_to_next_event : option Z;
  post_event_window : bool
}.

Record TechnicalAnalysis : Type := mk_technical {
  timeframe_trends : gmap string DimensionAlignment;
  trend_alignment : Q;
  primary_trend : DimensionAlignment;
  ema_positions : gmap string Q
}.

Record ThreeDSignal : Type := mk_signal {
  relational : RelationalAnalysis;
  fundamental : FundamentalAnalysis;
  technical : TechnicalAnalysis;
  confluence : DimensionAlignment;
  confluence_score : Q;
  dimensions_aligned : Z;
  is_valid_signal : bool
}.

Definition PRE_EVENT_AVOID_MINUTES : Q := 30.
Definition POST_EVENT_TRADE_MINUTES : Q := 60.

Definition hours (n : Z) : Z := (n * 3600 * 1000000)%Z.

(** [timedelta.total_seconds()] *)
Definition total_seconds (d : Z) : Q := inject_Z d / 1000000.

(** [sum(1 for d in ds if d == a)] *)
Definition count_of (a : DimensionAlignment) (ds : list DimensionAlignment) : Z :=
  Z.of_nat (length (filter (fun d => DimensionAlignment_eqb d a = true) ds)).

(** [ThreeDAnalyzer._analyze_relational]: the two prices are decimals,
    converted to floats; the ratio and the two literals it is compared
    with are floats. *)
Definition _analyze_relational (fl : Float.arithmetic)
    (related_prices : option (gmap string Q)) : RelationalAnalysis :=
  match related_prices with
  | None => mk_relational 0 NEUTRAL NEUTRAL "NEUTRAL"
  | Some prices =>
      if bool_decide (prices = ∅) then mk_relational 0 NEUTRAL NEUTRAL "NEUTRAL"
      else
        match prices !! "BTCUSDT", prices !! "ETHUSDT" with
        | Some btc_price, Some eth_price =>
            let btc_price := Float.of_decimal fl btc_price in
            let eth_price := Float.of_decimal fl eth_price in
            let eth_btc_ratio :=
              if Qgtb btc_price 0 then Float.div fl eth_price btc_price else 0 in
            if Qgtb eth_btc_ratio (Float.of_decimal fl 0.06)
            then mk_relational 0.85 BULLISH NEUTRAL "RISK_ON"
            else if Qltb eth_btc_ratio (Float.of_decimal fl 0.04)
            then mk_relational 0.85 BEARISH NEUTRAL "RISK_OFF"
            else mk_relational 0.85 NEUTRAL NEUTRAL "NEUTRAL"
        | _, _ => mk_relational 0 NEUTRAL NEUTRAL "NEUTRAL"
        end
  end.

Definition impact_in_high_medium (e : EconomicEvent) : bool :=
  match impact e with
  | HIGH | MEDIUM => true
  | LOW => false
  end.

(** [order_by('release_time')] and [order_by('-release_time')]. *)
Definition by_release_time (a b : EconomicEvent) : Prop :=
  (release_time a <= release_time b)%Z.

Definition by_release_time_desc (a b : EconomicEvent) : Prop :=
  (release_time b <= release_time a)%Z.

#[global] Instance by_release_time_dec : RelDecision by_release_time :=
  fun a b => Z_le_dec (release_time a) (release_time b).

#[global] Instance by_release_time_desc_dec : RelDecision by_release_time_desc :=
  fun a b => Z_le_dec (release_time b) (release_time a).

(** The two queries of [_analyze_fundamental] on the event table. *)
Definition upcoming_query (events : list EconomicEvent) (now : Z) : list EconomicEvent :=
  take 5
    (merge_sort by_release_time
       (filter (fun e => (now < release_time e)%Z
                         /\ (release_time e < now + hours 24)%Z
                         /\ impact_in_high_medium e = true) events)).

Definition recent_query (events : list EconomicEvent) (now : Z) : list EconomicEvent :=
  take 5
    (merge_sort by_release_time_desc
       (filter (fun e => (now - hours 2 < release_time e)%Z
                         /\ (release_time e < now)%Z
                         /\ impact_in_high_medium e = true) events)).

(** The direction read from the deviation of the latest release. *)
Definition impact_of_deviation (deviation : option Q) : DimensionAlignment :=
  match deviation with
  | Some d =>
      if Qzerob d then NEUTRAL
      else if Qgtb d 0.5 then BULLISH
      else if Qltb d (-0.5) then BEARISH
      else NEUTRAL
  | None => NEUTRAL
  end.

(** [ThreeDAnalyzer._analyze_fundamental], on the event table at [now]. *)
Definition _analyze_fundamental (events : list EconomicEvent) (now : Z) : FundamentalAnalysis :=
  let upcoming_list := upcoming_query events now in
  let recent_list := recent_query events now in
  let time_to_next :=
    match upcoming_list with
    | next :: _ => Some (release_time next - now)%Z
    | [] => None
    end in
  match recent_list with
  | last :: _ =>
      let time_since_event := (now - release_time last)%Z in
      if Qltb (total_seconds time_since_event) (POST_EVENT_TRADE_MINUTES * 60)
      then mk_fundamental upcoming_list recent_list
             (impact_of_deviation (deviation_from_forecast last)) time_to_next true
      else mk_fundamental upcoming_list recent_list NEUTRAL time_to_next false
  | [] => mk_fundamental upcoming_list recent_list NEUTRAL time_to_next false
  end.

(** [ThreeDAnalyzer._calculate_ema], on a list of floats. *)
Definition _calculate_ema (fl : Float.arithmetic) (prices : list Q) (period : nat) : Q :=
  if (length prices <? period)%nat then
    match prices with [] => 0 | _ => Float.mean fl prices end
  else
    let multiplier := Float.div fl 2 (inject_Z (Z.of_nat period) + 1) in
    fold_left
      (fun ema price => Float.add fl (Float.mul fl (Float.sub fl price ema) multiplier) ema)
      (drop period prices) (Float.mean fl (take period prices)).

(** [ThreeDAnalyzer._calculate_trend_alignment]. *)
Definition _calculate_trend_alignment (timeframe_trends : gmap string DimensionAlignment)
    : Q * DimensionAlignment :=
  if bool_decide (timeframe_trends = ∅) then (0, NEUTRAL)
  else
    let values := (map_to_list timeframe_trends).*2 in
    let bullish_count := count_of BULLISH values in
    let bearish_count := count_of BEARISH values in
    let total := Z.of_nat (size timeframe_trends) in
    if (bearish_count <? bullish_count)%Z then
      (inject_Z bullish_count / inject_Z total, BULLISH)
    else if (bullish_count <? bearish_count)%Z then
      (inject_Z bearish_count / inject_Z total, BEARISH)
    else (0, NEUTRAL).

(** The trend of one timeframe in [_analyze_technical], from the closes
    of its klines, which are converted to floats; the position relative
    to the EMA comes with it.  [threshold] is the float
    [settings.EMA_DEVIATION_THRESHOLD]. *)
Definition timeframe_trend (fl : Float.arithmetic) (ema_period : nat) (threshold : Q)
    (klines : list Q) : DimensionAlignment * Q :=
  if (length klines <? ema_period)%nat then (NEUTRAL, 0)
  else
    let closes := Float.of_decimal fl <$> klines in
    let ema := _calculate_ema fl closes ema_period in
    let current_price := List.last closes 0 in
    let ema_deviation :=
      if Qgtb ema 0 then Float.div fl (Float.sub fl current_price ema) ema else 0 in
    if Qgtb ema_deviation threshold then (BULLISH, ema_deviation)
    else if Qltb ema_deviation (- threshold) then (BEARISH, ema_deviation)
    else (NEUTRAL, ema_deviation).

(** [ThreeDAnalyzer._analyze_technical]; each timeframe maps to the list
    of the closes of its klines. *)
Definition _analyze_technical (fl : Float.arithmetic) (ema_period : nat) (threshold : Q)
    (klines_by_timeframe : gmap string (list Q)) : TechnicalAnalysis :=
  let per_tf := timeframe_trend fl ema_period threshold <$> klines_by_timeframe in
  let timeframe_trends := fst <$> per_tf in
  let ema_positions := snd <$> per_tf in
  let '(trend_alignment, primary_trend) := _calculate_trend_alignment timeframe_trends in
  mk_technical timeframe_trends trend_alignment primary_trend ema_positions.

(** The list [dimensions] of [_calculate_confluence]. *)
Definition dimensions_of (relational : RelationalAnalysis)
    (fundamental : FundamentalAnalysis) (technical : TechnicalAnalysis)
    : list DimensionAlignment :=
  (if negb (DimensionAlignment_eqb (crypto_health relational) NEUTRAL)
   then [crypto_health relational] else [])
  ++ (if post_event_window fundamental
         && negb (DimensionAlignment_eqb (event_impact fundamental) NEUTRAL)
      then [event_impact fundamental] else [])
  ++ (if negb (DimensionAlignment_eqb (primary_trend technical) NEUTRAL)
      then [primary_trend technical] else []).

(** [ThreeDAnalyzer._calculate_confluence]. *)
Definition _calculate_confluence (relational : RelationalAnalysis)
    (fundamental : FundamentalAnalysis) (technical : TechnicalAnalysis)
    : DimensionAlignment * Q * Z :=
  let dimensions := dimensions_of relational fundamental technical in
  match dimensions with
  | [] => (NEUTRAL, 0, 0%Z)
  | _ =>
      let bullish_count := count_of BULLISH dimensions in
      let bearish_count := count_of BEARISH dimensions in
      let '(confluence, dimensions_aligned) :=
        if (2 <=? bullish_count)%Z then (BULLISH, bullish_count)
        else if (2 <=? bearish_count)%Z then (BEARISH, bearish_count)
        else if (bullish_count =? 1)%Z && (bearish_count =? 1)%Z then (CONFLICTING, 0%Z)
        else if (bullish_count =? 1)%Z then (BULLISH, 1%Z)
        else if (bearish_count =? 1)%Z then (BEARISH, 1%Z)
        else (NEUTRAL, 0%Z) in
      let max_possible := Z.of_nat (length dimensions) in
      let confluence_score :=
        if (0 <? max_possible)%Z
        then inject_Z dimensions_aligned / inject_Z max_possible else 0 in
      let confluence_score :=
        if Qgeb (trend_alignment technical) 0.75
        then VPAAnalyzer.fmin (confluence_score * 1.2) 1
        else confluence_score in
      (confluence, confluence_score, dimensions_aligned)
  end.

(** [ThreeDAnalyzer._is_valid_signal].  A [timedelta] is falsy exactly
    when it is zero. *)
Definition _is_valid_signal (confluence : DimensionAlignment) (confluence_score : Q)
    (dimensions_aligned : Z) (fundamental : FundamentalAnalysis) : bool :=
  if DimensionAlignment_eqb confluence CONFLICTING then false
  else if DimensionAlignment_eqb confluence NEUTRAL then false
  else if (dimensions_aligned <? 2)%Z then false
  else if
    match time_to_next_event fundamental with
    | Some d =>
        negb (d =? 0)%Z
        && Qltb (total_seconds d / 60) PRE_EVENT_AVOID_MINUTES
    | None => false
    end
  then false
  else if Qltb confluence_score 0.6 then false
  else true.

(** [ThreeDAnalyzer.analyze], on the event table as it stands at [now]. *)
Definition analyze (fl : Float.arithmetic) (ema_period : nat) (threshold : Q)
    (events : list EconomicEvent) (now : Z)
    (klines_by_timeframe : gmap string (list Q))
    (related_prices : option (gmap string Q)) : ThreeDSignal :=
  let relational := _analyze_relational fl related_prices in
  let fundamental := _analyze_fundamental events now in
  let technical := _analyze_technical fl ema_period threshold klines_by_timeframe in
  let '(confluence, confluence_score, dimensions_aligned) :=
    _calculate_confluence relational fundamental technical in
  let is_valid :=
    _is_valid_signal confluence confluence_score dimensions_aligned fundamental in
  mk_signal relational fundamental technical confluence confluence_score
    dimensions_aligned is_valid.

End ThreeDAnalyzer.

(** ** trading/services/risk_manager.py *)

Module RiskManager.

Record t : Type := mk {
  binance_client : option BinanceClient.t;
  redis_cache : option RedisCache.t;
  account_risk_pct : Q;
  max_slippage_pct : Q;
  trailing_trigger_pct : Q;
  daily_drawdown_limit : Q
}.

(** The [reason] strings of [check_slippage], with the numbers they
    print. *)
Inductive SlippageReason : Type :=
| NoOrderBookData
| EmptyOrderBook
| InsufficientLiquidity (remaining : Q)
| SlippageAcceptable
| SlippageExceedsMax (slippage_pct max_pct : Q)
| SlippageError (exc : string).

Record SlippageCheck : Type := mk_check {
  estimated_slippage_pct : Q;
  is_acceptable : bool;
  sufficient_liquidity : bool;
  estimated_avg_price : Q;
  reason : SlippageReason
}.

(** [min(a, b)] of Python: the first of the smallest. *)
Definition decimal_min (a b : Q) : Q := if Qltb b a then b else a.

(** The loop of [check_slippage] over the levels, from the top: the state
    is [(remaining_qty, total_cost)], and [break] leaves it as it is. *)
Fixpoint walk (levels : list (Q * Q)) (remaining_qty total_cost : Q) : Q * Q :=
  match levels with
  | [] => (remaining_qty, total_cost)
  | (price, qty) :: levels =>
      if Qleb remaining_qty 0 then (remaining_qty, total_cost)
      else
        let fill_qty := decimal_min remaining_qty qty in
        walk levels (remaining_qty - fill_qty) (total_cost + fill_qty * price)
  end.

(** The order book [check_slippage] works on: the one it is given, else
    the cached one, else the exchange's. *)
Definition obtain_order_book (self : t) (symbol : string) (order_book : option OrderBook)
    : outcome (option OrderBook) :=
  match order_book with
  | Some book => Returns (Some book)
  | None =>
      cached ←
        match redis_cache self with
        | Some cache => RedisCache.get_order_book cache symbol
        | None => Returns None
        end;
      match cached, binance_client self with
      | None, Some client =>
          depth ← BinanceClient.get_order_book_depth client symbol 100%Z;
          Returns (Some depth)
      | _, _ => Returns cached
      end
  end.

(** The body of the [try] of [check_slippage]. *)
Definition check_slippage_try (self : t) (symbol : string) (side : Side)
    (quantity : Q) (order_book : option OrderBook) : outcome SlippageCheck :=
  order_book ← obtain_order_book self symbol order_book;
  match order_book with
  | None => Returns (mk_check 999 false false 0 NoOrderBookData)
  | Some book =>
      let levels := match side with BUY => asks book | SELL => bids book end in
      match levels with
      | [] => Returns (mk_check 999 false false 0 EmptyOrderBook)
      | (best_price, _) :: _ =>
          let '(remaining_qty, total_cost) := walk levels quantity 0 in
          if Qgtb remaining_qty 0 then
            Returns (mk_check 100 false false 0 (InsufficientLiquidity remaining_qty))
          else
            avg_price ← decimal_div total_cost quantity;
            let slippage := Qabs (avg_price - best_price) in
            ratio ← decimal_div slippage best_price;
            let slippage_pct := ratio * 100 in
            let is_acceptable := Qleb slippage_pct (max_slippage_pct self * 100) in
            Returns (mk_check slippage_pct is_acceptable true avg_price
                       (if is_acceptable then SlippageAcceptable
                        else SlippageExceedsMax slippage_pct (max_slippage_pct self * 100)))
      end
  end.

(** [RiskManager.check_slippage]. *)
Definition check_slippage (self : t) (symbol : string) (side : Side)
    (quantity : Q) (order_book : option OrderBook) : SlippageCheck :=
  match check_slippage_try self symbol side quantity order_book with
  | Returns result => result
  | Raises e => mk_check 999 false false 0 (SlippageError e)
  end.

(** [RiskManager._check_stop_hit]. *)
Definition _check_stop_hit (position : Position.t) (current_price : Q) : bool :=
  match Position.side position with
  | BUY => Qleb current_price (Position.current_stop position)
  | SELL => Qgeb current_price (Position.current_stop position)
  end.

(** [Meta.ordering = ['-opened_at']] on the rows of the positions table. *)
Definition newest_first (a b : Z * Position.t) : Prop :=
  (Position.opened_at b.2 <= Position.opened_at a.2)%Z.

#[global] Instance newest_first_dec : RelDecision newest_first :=
  fun a b => Z_le_dec (Position.opened_at b.2) (Position.opened_at a.2).

(** [Position.objects.filter(status=OPEN)]. *)
Definition open_positions (db : gmap Z Position.t) : list (Z * Position.t) :=
  merge_sort newest_first
    (filter (fun row => Position.Status_eqb (Position.status row.2) Position.OPEN = true)
       (map_to_list db)).

(** The loop of [update_trailing_stops]; every [save] writes the row
    back, and an exception leaves the loop with what was saved so far. *)
Fixpoint update_each (self : t) (current_prices : gmap string Q)
    (positions : list (Z * Position.t)) (db : gmap Z Position.t) (updated_count : Z)
    : outcome Z * gmap Z Position.t :=
  match positions with
  | [] => (Returns updated_count, db)
  | (id, position) :: positions =>
      match current_prices !! Position.symbol position with
      | None => update_each self current_prices positions db updated_count
      | Some current_price =>
          match Position.update_unrealized_pnl position current_price with
          | Raises e => (Raises e, db)
          | Returns position =>
              let db := <[id := position]> db in
              match Position.update_trailing_stop position current_price
                      (trailing_trigger_pct self) with
              | Raises e => (Raises e, db)
              | Returns position =>
                  let db := <[id := position]> db in
                  let stop_hit := _check_stop_hit position current_price in
                  update_each self current_prices positions db (updated_count + 1)%Z
              end
          end
      end
  end.

(** [RiskManager.update_trailing_stops]. *)
Definition update_trailing_stops (self : t) (db : gmap Z Position.t)
    (current_prices : gmap string Q) : Z * gmap Z Position.t :=
  match update_each self current_prices (open_positions db) db 0%Z with
  | (Returns updated_count, db) => (updated_count, db)
  | (Raises _, db) => (0%Z, db)
  end.

(** The [reason] strings of [check_circuit_breaker]. *)
Inductive BreakerReason : Type :=
| AlreadyPaused (pause_reason : string)
| UnableToCheckBalance
| DrawdownExceeded (drawdown_pct limit_pct : Q)
| NoReason
| BreakerError (exc : string).

(** The balance [check_circuit_breaker] works with: the one it is given,
    else the exchange's. *)
Definition obtain_balance (self : t) (current_balance : option Q) : outcome (option Q) :=
  match current_balance, binance_client self with
  | None, Some client =>
      balance ← BinanceClient.get_account_balance client "USDT";
      Returns (Some balance)
  | _, _ => Returns current_balance
  end.

(** [RiskManager.check_circuit_breaker], with the risk-state table it
    reads and writes; the exception of a step, the [save] of
    [update_balance] included, is caught and answered with [False]. *)
Definition check_circuit_breaker (self : t) (db : RiskState.table)
    (current_balance : option Q) : (bool * BreakerReason) * RiskState.table :=
  match RiskState.get_or_create_today db None with
  | Raises e => ((false, BreakerError e), db)
  | Returns (risk_state, db) =>
      match RiskState.system_status risk_state with
      | RiskState.PAUSED =>
          ((true, AlreadyPaused (RiskState.pause_reason risk_state)), db)
      | _ =>
          match obtain_balance self current_balance with
          | Raises e => ((false, BreakerError e), db)
          | Returns None => ((false, UnableToCheckBalance), db)
          | Returns (Some current_balance) =>
              match RiskState.update_balance db risk_state current_balance with
              | (_, Raises e) => ((false, BreakerError e), db)
              | (risk_state, Returns db) =>
                  if Qgeb (RiskState.drawdown_pct risk_state)
                       (daily_drawdown_limit self * 100)
                  then ((true, DrawdownExceeded (RiskState.drawdown_pct risk_state)
                                 (daily_drawdown_limit self * 100)), db)
                  else ((false, NoReason), db)
              end
          end
      end
  end.

(** The body of the [try] of [is_trading_allowed]: the cache is read
    once by [is_trading_active] and once more for the reason. *)
Definition is_trading_allowed_try (self : t) (db : RiskState.table)
    : outcome ((bool * string) * RiskState.table) :=
  paused_by_cache ←
    match redis_cache self with
    | Some cache =>
        active ← RedisCache.is_trading_active cache 0;
        if negb active then
          status ← RedisCache.get_system_status cache 1;
          Returns (Some (default "System paused" (status !! "reason")))
        else Returns None
    | None => Returns None
    end;
  match paused_by_cache with
  | Some reason => Returns ((false, reason), db)
  | None =>
      '(risk_state, db) ← RiskState.get_or_create_today db None;
      match RiskState.system_status risk_state with
      | RiskState.PAUSED => Returns ((false, RiskState.pause_reason risk_state), db)
      | RiskState.EMERGENCY_STOP => Returns ((false, "Emergency stop active"), db)
      | RiskState.ACTIVE => Returns ((true, ""), db)
      end
  end.

(** [RiskManager.is_trading_allowed]. *)
Definition is_trading_allowed (self : t) (db : RiskState.table)
    : (bool * string) * RiskState.table :=
  match is_trading_allowed_try self db with
  | Returns result => result
  | Raises _ => ((true, ""), db)
  end.

End RiskManager.

(** ** trading/tasks.py *)

Module Tasks.

(** A market order as [place_market_order] sends it. *)
Record MarketOrder : Type := mk_order {
  order_symbol : string;
  order_side : Side;
  order_quantity : Q
}.

(** The exchange seen from [place_order]: what it answers to the [n]-th
    [create_order] request (an order id, or an API exception), how many
    requests it has had, and the orders it has accepted, oldest first. *)
Record Exchange : Type := mk_exchange {
  create_order : nat -> outcome Z;
  requests : nat;
  accepted : list MarketOrder
}.

(** [BinanceClient.place_market_order]: an exception of the API is
    logged and raised again. *)
Definition place_market_order (ex : Exchange) (symbol : string) (side : Side)
    (quantity : Q) : outcome Z * Exchange :=
  match create_order ex (requests ex) with
  | Returns order_id =>
      (Returns order_id,
       mk_exchange (create_order ex) (S (requests ex))
         (accepted ex ++ [mk_order symbol side quantity]))
  | Raises e =>
      (Raises e, mk_exchange (create_order ex) (S (requests ex)) (accepted ex))
  end.

(** What a run of [close_position] reads and writes: the two tables, the
    sequence of the trades' primary key, the exchange, the queue of
    [monitor_order] tasks, the messages sent to the dashboard and the
    clock. *)
Record World : Type := mk_world {
  positions : gmap Z Position.t;
  trades : gmap Z Trade.t;
  next_trade_id : Z;
  exchange : Exchange;
  monitor_queue : list Z;
  broadcasts : list (string * Z * string);
  now : Z
}.

(** [Trade.objects.create]: the row gets the next primary key; a text
    longer than its column raises, and a taken key or a
    [binance_order_id] already in the table breaks a uniqueness
    constraint. *)
Definition create_trade (w : World) (row : Trade.t) : outcome (Z * World) :=
  let id := next_trade_id w in
  if negb (Trade.storable row) then Raises "DataError"
  else if bool_decide (is_Some (trades w !! id))
     || existsb (fun t => (Trade.binance_order_id t =? Trade.binance_order_id row)%Z)
          (map_to_list (trades w)).*2
  then Raises "IntegrityError"
  else
    Returns (id, mk_world (positions w) (<[id := row]> (trades w)) (id + 1)%Z
                   (exchange w) (monitor_queue w) (broadcasts w) (now w)).

Inductive CloseResult : Type :=
| Success (position_id : Z) (reason : string) (exit_order_id : Z)
| AlreadyClosed
| CloseError (message : string).

(** [close_position].  The position is read from the table, so what it
    holds fits its columns; its [save] raises when the new [close_reason]
    is longer than the 50 characters of its column, the order then being
    placed and the trade recorded. *)
Definition close_position (w : World) (position_id : Z) (reason : string)
    : CloseResult * World :=
  match positions w !! position_id with
  | None => (CloseError "Position not found", w)
  | Some position =>
      if negb (Position.Status_eqb (Position.status position) Position.OPEN)
      then (AlreadyClosed, w)
      else
        let exit_side :=
          match Position.side position with BUY => SELL | SELL => BUY end in
        match place_market_order (exchange w) (Position.symbol position)
                exit_side (Position.quantity position) with
        | (Raises e, ex) =>
            (CloseError e,
             mk_world (positions w) (trades w) (next_trade_id w) ex
               (monitor_queue w) (broadcasts w) (now w))
        | (Returns order_id, ex) =>
            let w := mk_world (positions w) (trades w) (next_trade_id w) ex
                       (monitor_queue w) (broadcasts w) (now w) in
            match create_trade w
                    (Trade.mk order_id (Position.symbol position) exit_side
                       "MARKET" (Position.quantity position) 0 None None
                       Trade.PENDING ("Position close: " +:+ reason)) with
            | Raises e => (CloseError e, w)
            | Returns (exit_trade, w) =>
                let position := Position.set_closed position exit_trade reason (now w) in
                if negb (fits_text 50 (Position.close_reason position))
                then (CloseError "DataError", w)
                else
                (Success position_id reason order_id,
                 mk_world (<[position_id := position]> (positions w)) (trades w)
                   (next_trade_id w) (exchange w)
                   (monitor_queue w ++ [exit_trade])
                   (broadcasts w ++ [("position_update", position_id, "CLOSED")])
                   (now w))
            end
        end
  end.

(** Time passing between two tasks. *)
Definition at_time (w : World) (t : Z) : World :=
  mk_world (positions w) (trades w) (next_trade_id w) (exchange w)
    (monitor_queue w) (broadcasts w) t.

End Tasks.

(** ** Predicates of the specification *)

(** The invariant of a trailing long: the stop stays at least the
    trailing distance below the highest price seen. *)
Definition long_invariant (p : Position.t) : Prop :=
  exists h d,
    Position.highest_price p = Some h
    /\ Position.trailing_distance p = Some d
    /\ Position.current_stop p <= h - d.

(** What a call of [update_trailing_stop] on a long finds: a trailing
    position under its invariant, or one whose profit reaches the trigger
    at a price not below its stop. *)
Definition trailing_precondition (p : Position.t) (price trigger : Q) : Prop :=
  if Position.trailing_activated p then long_invariant p
  else trigger * 100 <= Position.unrealized_pnl_pct p
       /\ Position.current_stop p <= price.

(** What the specification asks of a risk state. *)
Definition balance_invariant (rs : RiskState.t) : Prop :=
  RiskState.current_balance rs <= RiskState.highest_balance rs
  /\ 0 <= RiskState.drawdown_pct rs
  /\ RiskState.drawdown_pct rs <= 100.

(** The states a risk-state object goes through under successive
    [update_balance] calls, one per balance: the assignments of each
    call, which are made whether or not the [save] that ends it
    succeeds. *)
Fixpoint states_after (rs : RiskState.t) (balances : list Q) : list RiskState.t :=
  match balances with
  | [] => []
  | b :: balances =>
      let rs := RiskState.update_balance_fields rs b in
      rs :: states_after rs balances
  end.

(** The side of the book an order of side [side] consumes. *)
Definition ladder (side : Side) (book : OrderBook) : list (Q * Q) :=
  match side with BUY => asks book | SELL => bids book end.



(** A step of the trading-allowed check raises: the read of the cached
    status, the second read that fetches the reason of an inactive
    status, or, the cache absent or active, the lookup of today's risk
    state. *)
Inductive step_raises (self : RiskManager.t) (db : RiskState.table) : Prop :=
| status_read_raises (cache : RedisCache.t) (e : string) :
    RiskManager.redis_cache self = Some cache ->
    RedisCache.client_get_status cache 0 = Raises e ->
    step_raises self db
| reason_read_raises (cache : RedisCache.t) (e : string) :
    RiskManager.redis_cache self = Some cache ->
    RedisCache.is_trading_active cache 0 = Returns false ->
    RedisCache.client_get_status cache 1 = Raises e ->
    step_raises self db
| risk_state_lookup_raises :
    (RiskManager.redis_cache self = None
     \/ exists cache,
          RiskManager.redis_cache self = Some cache
          /\ RedisCache.is_trading_active cache 0 = Returns true) ->
    RiskState.available db = false ->
    step_raises self db.

(** The exit order and the exit trade of a position. *)
Definition exit_side (p : Position.t) : Side :=
  match Position.side p with BUY => SELL | SELL => BUY end.

Definition exit_order (p : Position.t) : Tasks.MarketOrder :=
  Tasks.mk_order (Position.symbol p) (exit_side p) (Position.quantity p).

Definition exit_trade_row (p : Position.t) (order_id : Z) (reason : string) : Trade.t :=
  Trade.mk order_id (Position.symbol p) (exit_side p) "MARKET"
    (Position.quantity p) 0 None None Trade.PENDING ("Position close: " +:+ reason).

(** What the specification asks of two [close_position] calls in
    sequence, the second at time [later]: over the two calls one more
    order accepted by the exchange and one more trade; after the first the
    position CLOSED with its reason and closing time; the second placing
    no order and leaving the positions as they were. *)
Definition closed_once (w : Tasks.World) (position_id : Z) (reason reason' : string)
    (later : Z) : Prop :=
  let first := Tasks.close_position w position_id reason in
  let second := Tasks.close_position (Tasks.at_time first.2 later) position_id reason' in
  length (Tasks.accepted (Tasks.exchange second.2))
  = S (length (Tasks.accepted (Tasks.exchange w)))
  /\ size (Tasks.trades second.2) = S (size (Tasks.trades w))
  /\ (exists closed,
        Tasks.positions first.2 !! position_id = Some closed
        /\ Position.status closed = Position.CLOSED
        /\ Position.close_reason closed = reason
        /\ Position.closed_at closed = Some (Tasks.now w))
  /\ Tasks.accepted (Tasks.exchange second.2) = Tasks.accepted (Tasks.exchange first.2)
  /\ Tasks.positions second.2 = Tasks.positions first.2.

(** The trades table takes a new row for the order [order_id]. *)
Definition accepts_trade (w : Tasks.World) (order_id : Z) : Prop :=
  Tasks.trades w !! Tasks.next_trade_id w = None
  /\ Forall (fun t => Trade.binance_order_id t <> order_id)
       (map_to_list (Tasks.trades w)).*2.

(** ** Scenarios of the specification *)

(** A long of one unit entered at 100 with its initial stop at 98, as the
    monitor sees it once the price has reached [price]. *)
Definition long_at (price : Q) : Position.t :=
  Position.mk 1 None "BTCUSDT" BUY 1 100 (Some price)
    ((price - 100) * 1) ((price - 100) * 1 / (100 * 1) * 100)
    98 98 false None None None None Position.OPEN "" 0 None.

(** The risk manager under the default settings, given its balances and
    order books by its callers. *)
Definition default_manager : RiskManager.t :=
  RiskManager.mk None None 0.015 0.002 0.02 0.05.

(** A day that started at 10 000 and has peaked at 10 500. *)
Definition peaked_day : RiskState.t :=
  RiskState.mk 0 10000 10500 10500 500 5 0 0 0 0%Z 0%Z 0%Z RiskState.ACTIVE "" None.

Definition peaked_table : RiskState.table :=
  RiskState.mk_table true 0 (<[0%Z := peaked_day]> ∅).


(** Four timeframes, two bullish and two bearish. *)
Definition tied_trends : gmap string ThreeDAnalyzer.DimensionAlignment :=
  <["1m" := ThreeDAnalyzer.BULLISH]>
    (<["5m" := ThreeDAnalyzer.BULLISH]>
       (<["15m" := ThreeDAnalyzer.BEARISH]>
          (<["1h" := ThreeDAnalyzer.BEARISH]> ∅))).

(** Twenty minutes, and a HIGH-impact CPI release twenty minutes after
    [now]. *)
Definition minutes (n : Z) : Z := (n * 60 * 1000000)%Z.

Definition cpi_in_20_minutes (now : Z) : EconomicEvent :=
  mk_event "CPI" (now + minutes 20) HIGH None.

(** A market in which the relational and the technical dimension are both
    bullish: ETH/BTC at 0.07, and a one-minute series that closes 2% above
    twenty flat bars. *)
Definition risk_on_prices : gmap string Q :=
  <["BTCUSDT" := 50000]> (<["ETHUSDT" := 3500]> ∅).

Definition rising_klines : gmap string (list Q) :=
  <["1m" := replicate 20 100 ++ [102]]> ∅.

(** A market on the two thresholds: ETH at exactly 0.06 BTC, and a
    one-minute series whose last close is exactly 0.5% above its EMA. *)
Definition threshold_prices : gmap string Q :=
  <["BTCUSDT" := 20000.01]> (<["ETHUSDT" := 1200.0006]> ∅).

Definition threshold_closes : list Q := replicate 20 12.66 ++ [12.73].

Definition threshold_klines : gmap string (list Q) :=
  <["1m" := threshold_closes]> ∅.

(** A quiet up bar in an uptrend: volume one deviation below its mean, an
    average spread, a close at 80% of the range. *)
Definition quiet_up_bar : VPAAnalyzer.bar_metrics :=
  VPAAnalyzer.mk_metrics (-1) 1 0.8 true TREND_BULLISH.

(** An exchange on which the lot size of every symbol has a step of
    0.001. *)
Definition milli_step_client : BinanceClient.t :=
  BinanceClient.mk
    (fun _ => Returns (BinanceClient.mk_info None (Some (DecimalRepr.mk 1 (-3))) None None))
    (fun _ => Returns 0)
    (fun _ _ => Returns (mk_book [] [])).

(** A cache that cannot be reached. *)
Definition unreachable_cache : RedisCache.t :=
  RedisCache.mk (fun _ => Raises "ConnectionError") (fun _ => Raises "ConnectionError").

(** One open long of 0.5 BTC, no trade on record yet for its exit, and an
    exchange that accepts the next order as number 7001. *)
Definition open_long : Position.t :=
  Position.mk 1 None "BTCUSDT" BUY 0.5 100 (Some 97) (-1.5) (-3)
    98 98 false None None None None Position.OPEN "" 0 None.

Definition one_position_world : Tasks.World :=
  Tasks.mk_world (<[1%Z := open_long]> ∅) ∅ 2
    (Tasks.mk_exchange (fun _ => Returns 7001%Z) 0 []) [] [] 1000.

(** The same long with an exchange that refuses the first order and
    accepts the next as number 7001. *)
Definition refusing_once_world : Tasks.World :=
  Tasks.mk_world (<[1%Z := open_long]> ∅) ∅ 2
    (Tasks.mk_exchange
       (fun n => match n with O => Raises "APIError" | S _ => Returns 7001%Z end) 0 [])
    [] [] 1000.

(** The same long beside a filled trade on ETHUSDT whose order that
    pair numbered 7001; the exchange numbers the next orders on BTCUSDT
    7001 and 7002. *)
Definition eth_trade : Trade.t :=
  Trade.mk 7001 "ETHUSDT" BUY "MARKET" 2 2 None (Some 1800) Trade.FILLED "".

Definition clashing_world : Tasks.World :=
  Tasks.mk_world (<[1%Z := open_long]> ∅) (<[1%Z := eth_trade]> ∅) 2
    (Tasks.mk_exchange (fun n => Returns (7001 + Z.of_nat n)%Z) 0 [])
    [] [] 1000.

(** The positions table holding the scenario's long alone, and the pass
    of the monitor over it at a given price. *)
Definition long_table : gmap Z Position.t := <[1%Z := long_at 100]> ∅.

Definition monitor_at (price : Q) (db : gmap Z Position.t) : gmap Z Position.t :=
  (RiskManager.update_trailing_stops default_manager db (<["BTCUSDT" := price]> ∅)).2.

(** ** Further predicates and code *)

(** The invariant of a trailing short, the mirror of [long_invariant]. *)
Definition short_invariant (p : Position.t) : Prop :=
  exists l d,
    Position.lowest_price p = Some l
    /\ Position.trailing_distance p = Some d
    /\ l + d <= Position.current_stop p.

Definition short_precondition (p : Position.t) (price trigger : Q) : Prop :=
  if Position.trailing_activated p then short_invariant p
  else trigger * 100 <= Position.unrealized_pnl_pct p
       /\ price <= Position.current_stop p.

(** A short of one unit entered at 100 with its initial stop at 102, as
    the monitor sees it once the price has reached [price]. *)
Definition short_at (price : Q) : Position.t :=
  Position.mk 1 None "BTCUSDT" SELL 1 100 (Some price)
    ((100 - price) * 1) ((100 - price) * 1 / (100 * 1) * 100)
    102 102 false None None None None Position.OPEN "" 0 None.

(** What the trailing update and the PnL update leave alone in a row. *)
Definition same_holding (p p' : Position.t) : Prop :=
  Position.entry_trade p' = Position.entry_trade p
  /\ Position.exit_trade p' = Position.exit_trade p
  /\ Position.symbol p' = Position.symbol p
  /\ Position.side p' = Position.side p
  /\ Position.quantity p' = Position.quantity p
  /\ Position.entry_price p' = Position.entry_price p
  /\ Position.initial_stop p' = Position.initial_stop p
  /\ Position.take_profit p' = Position.take_profit p
  /\ Position.status p' = Position.status p
  /\ Position.close_reason p' = Position.close_reason p
  /\ Position.opened_at p' = Position.opened_at p
  /\ Position.closed_at p' = Position.closed_at p.

(** The stop of [p'] is not looser than the stop of [p]. *)
Definition stop_not_looser (p p' : Position.t) : Prop :=
  match Position.side p with
  | BUY => Position.current_stop p <= Position.current_stop p'
  | SELL => Position.current_stop p' <= Position.current_stop p
  end.


(** [RiskManager.trigger_circuit_breaker].  The two writes the records
    above do not carry are arguments: [cancel_all_orders] of the exchange
    wrapper (used when the manager has a client) and [set_system_status]
    of the cache (used when it has a cache).  The result is the value
    returned, the risk-state table, and the symbols whose orders were
    cancelled. *)
Definition returned {A : Type} (c : outcome A) : bool :=
  match c with
  | Returns _ => true
  | Raises _ => false
  end.

Definition cancel_each (cancel_all_orders : string -> outcome (list Z))
    (trading_pairs : list string) : list string :=
  filter (fun symbol => returned (cancel_all_orders symbol) = true) trading_pairs.

Definition trigger_circuit_breaker (self : RiskManager.t)
    (cancel_all_orders : string -> outcome (list Z))
    (set_system_status : string -> string -> outcome unit)
    (trading_pairs : list string)
    (db : RiskState.table) (reason : string) (now : Z)
    : bool * RiskState.table * list string :=
  match RiskState.get_or_create_today db None with
  | Raises _ => (false, db, [])
  | Returns (risk_state, db) =>
      match RiskState.trigger_circuit_breaker db risk_state reason now with
      | (_, Raises _) => (false, db, [])
      | (_, Returns db) =>
          let cancelled :=
            match RiskManager.binance_client self with
            | Some _ => cancel_each cancel_all_orders trading_pairs
            | None => []
            end in
          match RiskManager.redis_cache self with
          | Some _ =>
              match set_system_status "PAUSED" reason with
              | Returns _ => (true, db, cancelled)
              | Raises _ => (false, db, cancelled)
              end
          | None => (true, db, cancelled)
          end
      end
  end.

(** The [reason] string of [check_circuit_breaker]; [drawdown_message]
    stands for the f-string that prints the two percentages. *)
Definition breaker_reason_text (drawdown_message : Q -> Q -> string)
    (reason : RiskManager.BreakerReason) : string :=
  match reason with
  | RiskManager.AlreadyPaused pause_reason => "System already paused: " +:+ pause_reason
  | RiskManager.UnableToCheckBalance => "Unable to check balance"
  | RiskManager.DrawdownExceeded pct limit => drawdown_message pct limit
  | RiskManager.NoReason => ""
  | RiskManager.BreakerError e => "Error: " +:+ e
  end.

(** The task [check_circuit_breaker] of trading/tasks.py: check, and
    trigger with the reason of the check. *)
Definition check_circuit_breaker_task (self : RiskManager.t)
    (cancel_all_orders : string -> outcome (list Z))
    (set_system_status : string -> string -> outcome unit)
    (trading_pairs : list string) (drawdown_message : Q -> Q -> string)
    (db : RiskState.table) (now : Z)
    : option string * RiskState.table * list string :=
  match RiskManager.check_circuit_breaker self db None with
  | ((true, reason), db) =>
      let reason := breaker_reason_text drawdown_message reason in
      let '(_, db, cancelled) :=
        trigger_circuit_breaker self cancel_all_orders set_system_status
          trading_pairs db reason now in
      (Some reason, db, cancelled)
  | ((false, _), db) => (None, db, [])
  end.

(** A day paused at instant 500 for a drawdown. *)
Definition paused_day : RiskState.t :=
  RiskState.mk 0 10000 9400 10000 (-600) (-6) 600 6 6 0%Z 0%Z 0%Z
    RiskState.PAUSED "Daily drawdown 6.00% exceeded limit 5.00%" (Some 500%Z).

Definition paused_table : RiskState.table :=
  RiskState.mk_table true 0 (<[0%Z := paused_day]> ∅).

(** The reason of a pause after [n] further runs of the periodic task,
    each of which prefixes it. *)
Definition retriggered (n : nat) (reason : string) : string :=
  Nat.iter n (String.append "System already paused: ") reason.

(** The risk-state table after the periodic task has run at each of
    [times] in turn. *)
Fixpoint task_runs (self : RiskManager.t)
    (cancel_all_orders : string -> outcome (list Z))
    (set_system_status : string -> string -> outcome unit)
    (trading_pairs : list string) (drawdown_message : Q -> Q -> string)
    (db : RiskState.table) (times : list Z) : RiskState.table :=
  match times with
  | [] => db
  | now :: times =>
      task_runs self cancel_all_orders set_system_status trading_pairs drawdown_message
        (check_circuit_breaker_task self cancel_all_orders set_system_status
           trading_pairs drawdown_message db now).1.2
        times
  end.

(** The paused day six runs later, the last at instant 860: its reason
    has 179 characters. *)
Definition repaused_day : RiskState.t :=
  RiskState.trigger_circuit_breaker_fields paused_day
    (retriggered 6 (RiskState.pause_reason paused_day)) 860.

Definition repaused_table : RiskState.table :=
  RiskState.mk_table true 0 (<[0%Z := repaused_day]> ∅).

(** A cache that is reachable and holds nothing. *)
Definition empty_cache : RedisCache.t :=
  RedisCache.mk (fun _ => Returns None) (fun _ => Returns None).

(** An exchange that fails to cancel the orders of ETHUSDT alone, a
    cache that takes every write, and a manager with an exchange client
    and no cache. *)
Definition cancel_but_eth (symbol : string) : outcome (list Z) :=
  if String.eqb symbol "ETHUSDT" then Raises "APIError" else Returns [].

Definition cancel_all (symbol : string) : outcome (list Z) := Returns [].

Definition cache_write (status reason : string) : outcome unit := Returns tt.

Definition manager_with_client : RiskManager.t :=
  RiskManager.mk (Some milli_step_client) None 0.015 0.002 0.02 0.05.


(** How many of the three dimensions point in [direction]; the
    fundamental one counts only inside a post-event window. *)
Definition agreeing (direction : ThreeDAnalyzer.DimensionAlignment)
    (relational : ThreeDAnalyzer.RelationalAnalysis)
    (fundamental : ThreeDAnalyzer.FundamentalAnalysis)
    (technical : ThreeDAnalyzer.TechnicalAnalysis) : Z :=
  (if ThreeDAnalyzer.DimensionAlignment_eqb
        (ThreeDAnalyzer.crypto_health relational) direction then 1 else 0)
  + (if ThreeDAnalyzer.post_event_window fundamental
        && ThreeDAnalyzer.DimensionAlignment_eqb
             (ThreeDAnalyzer.event_impact fundamental) direction then 1 else 0)
  + (if ThreeDAnalyzer.DimensionAlignment_eqb
          (ThreeDAnalyzer.primary_trend technical) direction then 1 else 0).

(** No event is within the pre-event window, as [_is_valid_signal] tests
    it. *)
Definition clear_of_events (fundamental : ThreeDAnalyzer.FundamentalAnalysis) : bool :=
  match ThreeDAnalyzer.time_to_next_event fundamental with
  | Some d =>
      negb (negb (d =? 0)%Z
            && Qltb (ThreeDAnalyzer.total_seconds d / 60)
                 ThreeDAnalyzer.PRE_EVENT_AVOID_MINUTES)
  | None => true
  end.

(** An event counts for the fundamental analysis at [now] when it is of
    HIGH or MEDIUM impact and is released within the next 24 hours. *)
Definition is_upcoming (now : Z) (e : EconomicEvent) : Prop :=
  (now < release_time e)%Z
  /\ (release_time e < now + ThreeDAnalyzer.hours 24)%Z
  /\ ThreeDAnalyzer.impact_in_high_medium e = true.

(** An event opens the post-event window at [now] when it is of HIGH or
    MEDIUM impact and was released within the last 60 minutes. *)
Definition is_fresh (now : Z) (e : EconomicEvent) : Prop :=
  (now - ThreeDAnalyzer.hours 1 < release_time e)%Z
  /\ (release_time e < now)%Z
  /\ ThreeDAnalyzer.impact_in_high_medium e = true.


(** ** Entries, sizing and exits *)

(** [RiskManager.get_stop_loss_price]. *)
Definition get_stop_loss_price (entry_price : Q) (side : Side) (atr : option Q)
    (risk_multiple : Q) : Q :=
  let stop_distance :=
    match atr with
    | Some a =>
        if negb (Qzerob a) && Qgtb a 0 then a * risk_multiple
        else entry_price * 0.01
    | None => entry_price * 0.01
    end in
  match side with
  | BUY => entry_price - stop_distance
  | SELL => entry_price + stop_distance
  end.

(** [trade.average_price or trade.requested_price]. *)
Definition price_of_trade (trade : Trade.t) : option Q :=
  match Trade.average_price trade with
  | Some price => if Qzerob price then Trade.requested_price trade else Some price
  | None => Trade.requested_price trade
  end.

(** [create_position_from_trade]: the row it creates for the trade of
    primary key [trade_id] at [now].  [services] is the construction of
    the risk manager with its two clients, which may raise; a trade with
    no price at all raises in [get_stop_loss_price]. *)
Definition create_position_from_trade (services : outcome RiskManager.t)
    (trade_id : Z) (trade : Trade.t) (now : Z) : outcome Position.t :=
  rm ← services;
  match price_of_trade trade with
  | None => Raises "TypeError"
  | Some entry_price =>
      let stop_loss := get_stop_loss_price entry_price (Trade.side trade) None 2 in
      Returns (Position.mk trade_id None (Trade.symbol trade) (Trade.side trade)
                 (Trade.filled_quantity trade) entry_price None 0 0
                 stop_loss stop_loss false None None None None
                 Position.OPEN "" now None)
  end.

(** The test of [monitor_positions] on one open position whose symbol has
    a price: the reason to close it, if any. *)
Definition close_reason_at (position : Position.t) (current_price : Q) : option string :=
  match Position.side position with
  | BUY =>
      if Qleb current_price (Position.current_stop position) then Some "STOP_LOSS"
      else
        match Position.take_profit position with
        | Some take_profit =>
            if negb (Qzerob take_profit) && Qgeb current_price take_profit
            then Some "TAKE_PROFIT" else None
        | None => None
        end
  | SELL =>
      if Qgeb current_price (Position.current_stop position) then Some "STOP_LOSS"
      else
        match Position.take_profit position with
        | Some take_profit =>
            if negb (Qzerob take_profit) && Qleb current_price take_profit
            then Some "TAKE_PROFIT" else None
        | None => None
        end
  end.

(** The loop of [monitor_positions] that fills [positions_to_close]. *)
Fixpoint positions_to_close (current_prices : gmap string Q)
    (positions : list (Z * Position.t)) : list (Z * string) :=
  match positions with
  | [] => []
  | (id, position) :: positions =>
      match current_prices !! Position.symbol position with
      | None => positions_to_close current_prices positions
      | Some current_price =>
          match close_reason_at position current_price with
          | Some reason => (id, reason) :: positions_to_close current_prices positions
          | None => positions_to_close current_prices positions
          end
      end
  end.

Record MonitorResult : Type := mk_monitor {
  positions_monitored : Z;
  trailing_stops_updated : Z;
  positions_to_close_count : Z
}.

(** [monitor_positions], from the prices it has gathered: the counts it
    returns, the positions table it leaves and the [close_position]
    tasks it queues, in order. *)
Definition monitor_positions (rm : RiskManager.t) (db : gmap Z Position.t)
    (current_prices : gmap string Q)
    : MonitorResult * gmap Z Position.t * list (Z * string) :=
  let '(updated, db) := RiskManager.update_trailing_stops rm db current_prices in
  let positions := RiskManager.open_positions db in
  let to_close := positions_to_close current_prices positions in
  (mk_monitor (Z.of_nat (length positions)) updated (Z.of_nat (length to_close)),
   db, to_close).

(** The [reason] strings of [calculate_position_size], with the numbers
    they print. *)
Inductive PositionSizeReason : Type :=
| NoBinanceClient
| InsufficientBalance
| InvalidStopDistance
| BelowMinNotional (position_value min_notional : Q)
| BelowMinQty (quantity min_qty : Q)
| PositionSizeValid
| PositionSizeError (exc : string).

Module PositionSizeResult.

Record t : Type := mk {
  quantity : Q;
  risk_amount : Q;
  stop_distance : Q;
  position_value : Q;
  risk_pct : Q;
  is_valid : bool;
  reason : PositionSizeReason
}.

End PositionSizeResult.

(** The body of the [try] of [calculate_position_size].  [divide a b] is
    the [Decimal] that [a / b] yields in the arithmetic context, which
    [format_quantity] then quantizes; comparing with a filter the
    exchange does not list compares with [None], which raises. *)
Definition calculate_position_size_try (self : RiskManager.t)
    (divide : Q -> Q -> DecimalRepr.t) (symbol : string)
    (entry_price stop_price : Q) (account_balance : option Q)
    : outcome PositionSizeResult.t :=
  let risk_pct := RiskManager.account_risk_pct self in
  balance ←
    match account_balance, RiskManager.binance_client self with
    | Some balance, _ => Returns (Some balance)
    | None, None => Returns None
    | None, Some client =>
        balance ← BinanceClient.get_account_balance client "USDT";
        Returns (Some balance)
    end;
  match balance with
  | None => Returns (PositionSizeResult.mk 0 0 0 0 risk_pct false NoBinanceClient)
  | Some account_balance =>
      if Qleb account_balance 0
      then Returns (PositionSizeResult.mk 0 0 0 0 risk_pct false InsufficientBalance)
      else
        let risk_amount := account_balance * risk_pct in
        let stop_distance := Qabs (entry_price - stop_price) in
        if Qleb stop_distance 0
        then Returns (PositionSizeResult.mk 0 risk_amount 0 0 risk_pct false
                        InvalidStopDistance)
        else
          let quantity := divide risk_amount stop_distance in
          match RiskManager.binance_client self with
          | None =>
              let quantity := DecimalRepr.value quantity in
              Returns (PositionSizeResult.mk quantity risk_amount stop_distance
                         (quantity * entry_price) risk_pct true PositionSizeValid)
          | Some client =>
              quantity ← BinanceClient.format_quantity client symbol quantity;
              let quantity := DecimalRepr.value quantity in
              let position_value := quantity * entry_price in
              symbol_info ← BinanceClient.get_symbol_info client symbol;
              match BinanceClient.min_notional symbol_info with
              | None => Raises "TypeError"
              | Some min_notional =>
                  let min_notional := DecimalRepr.value min_notional in
                  if Qltb position_value min_notional
                  then Returns (PositionSizeResult.mk quantity risk_amount stop_distance
                                  position_value risk_pct false
                                  (BelowMinNotional position_value min_notional))
                  else
                    match BinanceClient.min_qty symbol_info with
                    | None => Raises "TypeError"
                    | Some min_qty =>
                        let min_qty := DecimalRepr.value min_qty in
                        if Qltb quantity min_qty
                        then Returns (PositionSizeResult.mk quantity risk_amount
                                        stop_distance position_value risk_pct false
                                        (BelowMinQty quantity min_qty))
                        else Returns (PositionSizeResult.mk quantity risk_amount
                                        stop_distance position_value risk_pct true
                                        PositionSizeValid)
                    end
              end
          end
  end.

(** [RiskManager.calculate_position_size]. *)
Definition calculate_position_size (self : RiskManager.t)
    (divide : Q -> Q -> DecimalRepr.t) (symbol : string)
    (entry_price stop_price : Q) (account_balance : option Q) : PositionSizeResult.t :=
  match calculate_position_size_try self divide symbol entry_price stop_price
          account_balance with
  | Returns result => result
  | Raises e =>
      PositionSizeResult.mk 0 0 0 0 (RiskManager.account_risk_pct self) false
        (PositionSizeError e)
  end.

(** An exchange that lists every filter (lot step and minimum 0.001,
    tick 0.01, minimum notional 10), reports a free balance of 10 000
    and shows a deep book around 100; a division whose quotients are
    whole in this scenario. *)
Definition listed_client : BinanceClient.t :=
  BinanceClient.mk
    (fun _ => Returns (BinanceClient.mk_info
                         (Some (DecimalRepr.mk 1 (-3))) (Some (DecimalRepr.mk 1 (-3)))
                         (Some (DecimalRepr.mk 1 (-2))) (Some (DecimalRepr.mk 10 0))))
    (fun _ => Returns 10000)
    (fun _ _ => Returns (mk_book [(99.9, 1000)] [(100, 1000)])).

Definition listed_manager : RiskManager.t :=
  RiskManager.mk (Some listed_client) None 0.015 0.002 0.02 0.05.

Definition whole_quotient (a b : Q) : DecimalRepr.t :=
  DecimalRepr.mk (Qnum (a / b) / Zpos (Qden (a / b)))%Z 0.

(** ** trading/services/strategy_coordinator.py *)

Module StrategyCoordinator.

Inductive SignalAction : Set :=
| SIGNAL_BUY | SIGNAL_SELL | HOLD | CLOSE_LONG | CLOSE_SHORT.

(** The [rejection_reason] strings, with what they print. *)
Inductive Rejection : Type :=
| NotRejected
| VPANotValid (pattern : VPAAnalyzer.VPAPattern)
| ThreeDNotValid (confluence : ThreeDAnalyzer.DimensionAlignment)
| EMABelowThreshold (ema_deviation : Q)
| DirectionMismatch
| PositionSizingFailed (reason : PositionSizeReason)
| SlippageTooHigh (reason : RiskManager.SlippageReason).

(** [TradeSignal]; [vpa_description], the text of the VPA signal (of the
    exit reason on an exit signal, where [macro_context] holds it too),
    is left out. *)
Record TradeSignal : Type := mk_trade_signal {
  symbol : string;
  action : SignalAction;
  entry_price : Q;
  stop_loss : Q;
  take_profit : option Q;
  quantity : Q;
  confidence : Q;
  vpa_pattern : string;
  three_d_confluence : string;
  ema_deviation : Q;
  macro_context : string;
  is_valid : bool;
  rejection_reason : Rejection
}.

Record t : Type := mk {
  risk_manager : RiskManager.t;
  ema_period : nat;
  ema_deviation_threshold : Q
}.

(** The [value] of the enumerations. *)
Definition pattern_value (pattern : VPAAnalyzer.VPAPattern) : string :=
  match pattern with
  | VPAAnalyzer.CLIMAX_HIGH => "CLIMAX_HIGH"
  | VPAAnalyzer.CLIMAX_LOW => "CLIMAX_LOW"
  | VPAAnalyzer.NO_DEMAND => "NO_DEMAND"
  | VPAAnalyzer.NO_SUPPLY => "NO_SUPPLY"
  | VPAAnalyzer.STOPPING_VOLUME => "STOPPING_VOLUME"
  | VPAAnalyzer.TEST => "TEST"
  | VPAAnalyzer.UPTHRUST => "UPTHRUST"
  | VPAAnalyzer.SPRING => "SPRING"
  | VPAAnalyzer.EFFORT_VS_RESULT => "EFFORT_VS_RESULT"
  | VPAAnalyzer.NEUTRAL => "NEUTRAL"
  end.

Definition alignment_value (alignment : ThreeDAnalyzer.DimensionAlignment) : string :=
  match alignment with
  | ThreeDAnalyzer.BULLISH => "BULLISH"
  | ThreeDAnalyzer.BEARISH => "BEARISH"
  | ThreeDAnalyzer.NEUTRAL => "NEUTRAL"
  | ThreeDAnalyzer.CONFLICTING => "CONFLICTING"
  end.

(** [StrategyCoordinator._calculate_confidence]. *)
Definition _calculate_confidence (vpa_signal : VPAAnalyzer.VPASignal)
    (three_d_signal : ThreeDAnalyzer.ThreeDSignal) : Q :=
  let vpa_weight := 0.4 in
  let td_weight := 0.6 in
  let confidence :=
    VPAAnalyzer.strength vpa_signal * vpa_weight
    + ThreeDAnalyzer.confluence_score three_d_signal * td_weight in
  VPAAnalyzer.fmin (VPAAnalyzer.fmax confidence 0) 1.

(** [StrategyCoordinator._build_macro_context]. *)
Definition _build_macro_context (three_d_signal : ThreeDAnalyzer.ThreeDSignal) : string :=
  let fundamental := ThreeDAnalyzer.fundamental three_d_signal in
  let parts :=
    (if ThreeDAnalyzer.post_event_window fundamental then
       match ThreeDAnalyzer.recent_events fundamental with
       | event :: _ => ["Post-" +:+ event_type event +:+ " Volatility"]
       | [] => []
       end
     else [])
    ++ ["3D: " +:+ alignment_value (ThreeDAnalyzer.confluence three_d_signal);
        "Crypto: " +:+ alignment_value
                         (ThreeDAnalyzer.crypto_health
                            (ThreeDAnalyzer.relational three_d_signal))] in
  match parts with
  | [] => "Normal Market Conditions"
  | _ => String.concat " | " parts
  end.

(** [StrategyCoordinator._generate_signal].  [atr] is what
    [_calculate_atr] returns for the symbol and [divide] the division of
    the arithmetic context, as in [calculate_position_size]. *)
Definition _generate_signal (self : t) (divide : Q -> Q -> DecimalRepr.t)
    (atr : option Q) (symbol : string) (current_price : Q)
    (vpa_signal : VPAAnalyzer.VPASignal) (three_d_signal : ThreeDAnalyzer.ThreeDSignal)
    (ema_deviation : Q) : TradeSignal :=
  let '(action, is_valid, rejection_reason) :=
    if negb (VPAAnalyzer.is_valid_signal vpa_signal)
    then (HOLD, false, VPANotValid (VPAAnalyzer.pattern vpa_signal))
    else if negb (ThreeDAnalyzer.is_valid_signal three_d_signal)
    then (HOLD, false, ThreeDNotValid (ThreeDAnalyzer.confluence three_d_signal))
    else if Qltb (Qabs ema_deviation) (ema_deviation_threshold self)
    then (HOLD, false, EMABelowThreshold ema_deviation)
    else
      let vpa_direction := VPAAnalyzer.direction vpa_signal in
      let td_direction := ThreeDAnalyzer.confluence three_d_signal in
      let bullish_vpa := TrendDirection_eqb vpa_direction TREND_BULLISH in
      let bullish_td :=
        ThreeDAnalyzer.DimensionAlignment_eqb td_direction ThreeDAnalyzer.BULLISH in
      let bearish_vpa := TrendDirection_eqb vpa_direction TREND_BEARISH in
      let bearish_td :=
        ThreeDAnalyzer.DimensionAlignment_eqb td_direction ThreeDAnalyzer.BEARISH in
      if bullish_vpa && bullish_td && Qltb ema_deviation 0
      then (SIGNAL_BUY, true, NotRejected)
      else if bearish_vpa && bearish_td && Qgtb ema_deviation 0
      then (SIGNAL_SELL, true, NotRejected)
      else (HOLD, false, DirectionMismatch) in
  let stop_loss :=
    get_stop_loss_price current_price
      (match action with SIGNAL_SELL => SELL | _ => BUY end) atr 2 in
  let '(quantity, is_valid, rejection_reason) :=
    if is_valid then
      let position_result :=
        calculate_position_size (risk_manager self) divide symbol current_price
          stop_loss None in
      if negb (PositionSizeResult.is_valid position_result)
      then (0, false, PositionSizingFailed (PositionSizeResult.reason position_result))
      else
        let quantity := PositionSizeResult.quantity position_result in
        let slippage_check :=
          RiskManager.check_slippage (risk_manager self) symbol
            (match action with SIGNAL_BUY => BUY | _ => SELL end) quantity None in
        if negb (RiskManager.is_acceptable slippage_check)
        then (quantity, false, SlippageTooHigh (RiskManager.reason slippage_check))
        else (quantity, true, rejection_reason)
    else (0, false, rejection_reason) in
  let take_profit :=
    if is_valid && negb (Qzerob stop_loss) then
      let risk_distance := Qabs (current_price - stop_loss) in
      match action with
      | SIGNAL_BUY => Some (current_price + risk_distance * 2)
      | _ => Some (current_price - risk_distance * 2)
      end
    else None in
  mk_trade_signal symbol action current_price stop_loss take_profit quantity
    (_calculate_confidence vpa_signal three_d_signal)
    (pattern_value (VPAAnalyzer.pattern vpa_signal))
    (alignment_value (ThreeDAnalyzer.confluence three_d_signal))
    ema_deviation (_build_macro_context three_d_signal)
    is_valid rejection_reason.

(** [StrategyCoordinator._create_exit_signal]. *)
Definition _create_exit_signal (symbol : string) (position : Position.t)
    (current_price : Q) (action : SignalAction) (reason : string) : TradeSignal :=
  mk_trade_signal symbol action current_price 0 None (Position.quantity position) 1
    "EXIT" "N/A" 0 reason true NotRejected.

(** [StrategyCoordinator._evaluate_exit]; [current_price] is what
    [_get_current_price] returns for the symbol. *)
Definition _evaluate_exit (symbol : string) (position : Position.t)
    (current_price : option Q) : outcome (option TradeSignal) :=
  match current_price with
  | None => Returns None
  | Some current_price =>
      if Qzerob current_price then Returns None
      else
        position ← Position.update_unrealized_pnl position current_price;
        match Position.side position with
        | BUY =>
            if Qleb current_price (Position.current_stop position)
            then Returns (Some (_create_exit_signal symbol position current_price
                                  CLOSE_LONG "Stop loss triggered"))
            else if match Position.take_profit position with
                    | Some take_profit =>
                        negb (Qzerob take_profit) && Qgeb current_price take_profit
                    | None => false
                    end
            then Returns (Some (_create_exit_signal symbol position current_price
                                  CLOSE_LONG "Take profit reached"))
            else Returns None
        | SELL =>
            if Qgeb current_price (Position.current_stop position)
            then Returns (Some (_create_exit_signal symbol position current_price
                                  CLOSE_SHORT "Stop loss triggered"))
            else if match Position.take_profit position with
                    | Some take_profit =>
                        negb (Qzerob take_profit) && Qleb current_price take_profit
                    | None => false
                    end
            then Returns (Some (_create_exit_signal symbol position current_price
                                  CLOSE_SHORT "Take profit reached"))
            else Returns None
        end
  end.

End StrategyCoordinator.

(** A coordinator under the default settings on the exchange of
    [listed_client], a VPA signal and a 3-D signal that both point up,
    and the side an entry action trades. *)
Definition listed_coordinator : StrategyCoordinator.t :=
  StrategyCoordinator.mk listed_manager 20 0.005.

Definition spring_signal : VPAAnalyzer.VPASignal :=
  VPAAnalyzer.mk_signal VPAAnalyzer.SPRING TREND_BULLISH 0.8 2 1 0.8 true.

Definition bullish_confluence : ThreeDAnalyzer.ThreeDSignal :=
  ThreeDAnalyzer.mk_signal
    (ThreeDAnalyzer.mk_relational 0.85 ThreeDAnalyzer.BULLISH ThreeDAnalyzer.NEUTRAL
       "RISK_ON")
    (ThreeDAnalyzer.mk_fundamental [] [] ThreeDAnalyzer.NEUTRAL None false)
    (ThreeDAnalyzer.mk_technical ∅ 1 ThreeDAnalyzer.BULLISH ∅)
    ThreeDAnalyzer.BULLISH 1 2 true.

Definition entry_side (action : StrategyCoordinator.SignalAction) : Side :=
  match action with
  | StrategyCoordinator.SIGNAL_SELL => SELL
  | _ => BUY
  end.

(** ** Slippage estimate of the exchange wrapper, candles *)

Record SlippageEstimate : Type := mk_estimate {
  avg_price : Q;
  slippage : Q;
  slippage_pct : Q;
  sufficient_liquidity : bool
}.

(** [BinanceClient.calculate_slippage_estimate]; its loop over the levels
    is the loop of [check_slippage].  Indexing an empty ladder raises. *)
Definition calculate_slippage_estimate (self : BinanceClient.t) (symbol : string)
    (side : Side) (quantity : Q) : outcome SlippageEstimate :=
  order_book ← BinanceClient.get_order_book_depth self symbol 100%Z;
  let levels := match side with BUY => asks order_book | SELL => bids order_book end in
  let '(remaining_qty, total_cost) := RiskManager.walk levels quantity 0 in
  if Qgtb remaining_qty 0 then Returns (mk_estimate 0 0 100 false)
  else
    avg_price ← decimal_div total_cost quantity;
    match levels with
    | [] => Raises "IndexError"
    | (best_price, _) :: _ =>
        let slippage := Qabs (avg_price - best_price) in
        ratio ← decimal_div slippage best_price;
        Returns (mk_estimate avg_price slippage (ratio * 100) true)
    end.

Module MarketData.

(** A candle of the market-data table; the derived columns are empty
    until [save] fills them. *)
Record t : Type := mk {
  open_price : Q;
  high_price : Q;
  low_price : Q;
  close_price : Q;
  volume : Q;
  spread : option Q;
  body : option Q;
  upper_wick : option Q;
  lower_wick : option Q;
  close_position : option Q
}.

(** [MarketData.save]: the candle as it is handed to the table. *)
Definition save (self : t) : t :=
  let spread := high_price self - low_price self in
  let body := Qabs (open_price self - close_price self) in
  let '(upper_wick, lower_wick) :=
    if Qgeb (close_price self) (open_price self)
    then (high_price self - close_price self, open_price self - low_price self)
    else (high_price self - open_price self, close_price self - low_price self) in
  let close_position :=
    if Qgtb spread 0 then (close_price self - low_price self) / spread else 0.5 in
  mk (open_price self) (high_price self) (low_price self) (close_price self)
    (volume self) (Some spread) (Some body) (Some upper_wick) (Some lower_wick)
    (Some close_position).

End MarketData.

(** A long of one unit entered at 100 with its stop at 98 and a
    take-profit at 150. *)
Definition long_with_target : Position.t :=
  Position.mk 1 None "BTCUSDT" BUY 1 100 None 0 0
    98 98 false None None None (Some 150) Position.OPEN "" 0 None.


(** ** The kline history of the cache *)

(** The elements of a Redis list from index [start] to index [stop],
    both included, as [LRANGE] returns them and [LTRIM] keeps them: a
    negative index counts from the end of the list. *)
Definition redis_range {A : Type} (l : list A) (start stop : Z) : list A :=
  let len := Z.of_nat (length l) in
  let start := if (start <? 0)%Z then (len + start)%Z else start in
  let stop := if (stop <? 0)%Z then (len + stop)%Z else stop in
  let start := if (start <? 0)%Z then 0%Z else start in
  if (stop <? start)%Z || (len <=? start)%Z then []
  else
    let stop := if (len <=? stop)%Z then (len - 1)%Z else stop in
    take (Z.to_nat (stop - start + 1)) (drop (Z.to_nat start) l).

Section KlineHistory.

(** Klines and their JSON text: [json.dumps] with the [DecimalEncoder]
    and [json.loads] with the [decimal_decoder] hook. *)
Variable Kline : Type.
Variable dumps : Kline -> string.
Variable loads : string -> Kline.

Definition history_key (symbol interval : string) : string :=
  "klines:" +:+ symbol +:+ ":" +:+ interval.

(** [RedisCache.append_kline_to_history] on the lists of the server:
    [LPUSH], then [LTRIM key 0 (max_length - 1)]. *)
Definition append_kline_to_history (lists : gmap string (list string))
    (symbol interval : string) (kline : Kline) (max_length : Z)
    : gmap string (list string) :=
  let key := history_key symbol interval in
  let pushed := dumps kline :: default [] (lists !! key) in
  <[key := redis_range pushed 0 (max_length - 1)]> lists.

(** [RedisCache.get_kline_history]: [LRANGE key 0 (count - 1)], each
    item decoded. *)
Definition get_kline_history (lists : gmap string (list string))
    (symbol interval : string) (count : Z) : list Kline :=
  let key := history_key symbol interval in
  loads <$> redis_range (default [] (lists !! key)) 0 (count - 1).

End KlineHistory.

(** [BinanceClient.format_price]. *)
Definition format_price (self : BinanceClient.t) (symbol : string)
    (price : DecimalRepr.t) : outcome DecimalRepr.t :=
  info ← BinanceClient.get_symbol_info self symbol;
  match BinanceClient.tick_size info with
  | Some tick =>
      if DecimalRepr.truthy tick then
        let precision := Z.abs (DecimalRepr.exponent tick) in
        DecimalRepr.quantize price (- precision)
      else Returns price
  | None => Returns price
  end.

(** The unit in the last place that a step or tick stands for in
    [format_quantity] and [format_price]: [10 ** -abs(exponent)]. *)
Definition last_place (step : DecimalRepr.t) : DecimalRepr.t :=
  DecimalRepr.mk 1 (- Z.abs (DecimalRepr.exponent step)).

(** * Properties *)

(** ** Comparisons *)

Lemma Qleb_iff (x y : Q) : Qleb x y = true <-> x <= y.
Proof. unfold Qleb. apply Qle_bool_iff. Qed.

Lemma Qleb_false (x y : Q) : Qleb x y = false <-> y < x.
Proof.
  unfold Qleb. split.
  - intros H. apply Qnot_le_lt. intros Hle. apply Qle_bool_iff in Hle. congruence.
  - intros H. destruct (Qle_bool x y) eqn:E; [|reflexivity].
    apply Qle_bool_iff in E. lra.
Qed.

Lemma Qgeb_iff (x y : Q) : Qgeb x y = true <-> y <= x.
Proof. apply Qleb_iff. Qed.

Lemma Qgeb_false (x y : Q) : Qgeb x y = false <-> x < y.
Proof. apply Qleb_false. Qed.

Lemma Qltb_iff (x y : Q) : Qltb x y = true <-> x < y.
Proof. unfold Qltb. rewrite negb_true_iff. apply (Qleb_false y x). Qed.

Lemma Qltb_false (x y : Q) : Qltb x y = false <-> y <= x.
Proof. unfold Qltb. rewrite negb_false_iff. apply (Qleb_iff y x). Qed.

Lemma Qgtb_iff (x y : Q) : Qgtb x y = true <-> y < x.
Proof. apply Qltb_iff. Qed.

Lemma Qgtb_false (x y : Q) : Qgtb x y = false <-> x <= y.
Proof. apply Qltb_false. Qed.

Lemma Qzerob_iff (x : Q) : Qzerob x = true <-> x == 0.
Proof. unfold Qzerob. apply Qeq_bool_iff. Qed.

Lemma Qzerob_false (x : Q) : Qzerob x = false <-> ~ x == 0.
Proof.
  rewrite <- Qzerob_iff. destruct (Qzerob x); split; intros; congruence.
Qed.

(** Turn the boolean comparisons of the hypotheses into inequalities. *)
Ltac reflect_cmp :=
  repeat match goal with
  | H : Qleb _ _ = true |- _ => apply Qleb_iff in H
  | H : Qleb _ _ = false |- _ => apply Qleb_false in H
  | H : Qgeb _ _ = true |- _ => apply Qgeb_iff in H
  | H : Qgeb _ _ = false |- _ => apply Qgeb_false in H
  | H : Qltb _ _ = true |- _ => apply Qltb_iff in H
  | H : Qltb _ _ = false |- _ => apply Qltb_false in H
  | H : Qgtb _ _ = true |- _ => apply Qgtb_iff in H
  | H : Qgtb _ _ = false |- _ => apply Qgtb_false in H
  | H : Qzerob _ = true |- _ => apply Qzerob_iff in H
  | H : Qzerob _ = false |- _ => apply Qzerob_false in H
  end.

Lemma decimal_or_value (h : Q) : decimal_or (Some h) 0 == h.
Proof.
  unfold decimal_or. destruct (Qzerob h) eqn:E; reflect_cmp; lra.
Qed.

(** ** Trailing stop of a long position *)

(** Reduce the projections of rebuilt rows, and nothing else. *)
Ltac position_simpl :=
  cbn [Position.entry_trade Position.exit_trade Position.symbol Position.side
       Position.quantity Position.entry_price Position.current_price
       Position.unrealized_pnl Position.unrealized_pnl_pct Position.initial_stop
       Position.current_stop Position.trailing_activated
       Position.trailing_distance Position.highest_price Position.lowest_price
       Position.take_profit Position.status Position.close_reason
       Position.opened_at Position.closed_at
       Position.set_pnl Position.set_trailing Position.set_highest_price
       Position.set_lowest_price Position.set_current_stop Position.set_closed
       Position.activate Position.the_distance
       negb andb mbind outcome_bind] in *.

Lemma update_trailing_stop_trailing (p : Position.t) (price trig : Q) :
  Position.side p = BUY ->
  Position.trailing_activated p = true ->
  long_invariant p ->
  exists p',
    Position.update_trailing_stop p price trig = Returns p'
    /\ Position.side p' = BUY
    /\ Position.trailing_activated p' = true
    /\ Position.current_stop p <= Position.current_stop p'
    /\ long_invariant p'.
Proof.
  intros Hside Hact (h & d & Hh & Hd & Hinv).
  unfold Position.update_trailing_stop.
  rewrite Hact. position_simpl. rewrite Hact, Hside, Hh.
  pose proof (decimal_or_value h) as Hor.
  destruct (Qgtb price (decimal_or (Some h) 0)) eqn:Hgt; reflect_cmp.
  - unfold Position.the_distance. position_simpl. rewrite Hd. position_simpl.
    destruct (Qgtb (price - d) (Position.current_stop p)) eqn:Hnew; reflect_cmp.
    + eexists. split; [reflexivity|]. position_simpl.
      split; [assumption|]. split; [assumption|]. split; [lra|].
      exists price, d. position_simpl. repeat split; try assumption; lra.
    + eexists. split; [reflexivity|]. position_simpl.
      split; [assumption|]. split; [assumption|]. split; [lra|].
      exists price, d. position_simpl. repeat split; try assumption; lra.
  - exists p. repeat split; try assumption; try lra.
    exists h, d. repeat split; assumption.
Qed.

Lemma update_trailing_stop_activation (p : Position.t) (price trig : Q) :
  Position.side p = BUY ->
  Position.trailing_activated p = false ->
  trig * 100 <= Position.unrealized_pnl_pct p ->
  Position.current_stop p <= price ->
  exists p',
    Position.update_trailing_stop p price trig = Returns p'
    /\ Position.side p' = BUY
    /\ Position.trailing_activated p' = true
    /\ Position.trailing_distance p' = Some (Qabs (price - Position.current_stop p))
    /\ Position.highest_price p' = Some price
    /\ Position.current_stop p' = Position.current_stop p
    /\ long_invariant p'.
Proof.
  intros Hside Hact Hprofit Hstop.
  unfold Position.update_trailing_stop.
  rewrite Hact. position_simpl.
  apply Qgeb_iff in Hprofit. rewrite Hprofit.
  position_simpl. rewrite Hside.
  pose proof (decimal_or_value price) as Hor.
  destruct (Qgtb price (decimal_or (Some price) 0)) eqn:Hgt; reflect_cmp; [lra|].
  eexists. split; [reflexivity|]. position_simpl. rewrite Hside.
  do 5 (split; [first [assumption | reflexivity]|]).
  exists price, (Qabs (price - Position.current_stop p)). position_simpl.
  rewrite Hside. repeat split. rewrite Qabs_pos by lra. lra.
Qed.

(** At the call site of [update_trailing_stops] the profit is the one of
    the price the stop is updated with: a long whose stop is not above its
    entry activates at a price that is not below its stop. *)
Lemma activation_price_above_stop (p p1 : Position.t) (price trig : Q) :
  Position.side p = BUY ->
  0 < Position.entry_price p ->
  0 < Position.quantity p ->
  Position.current_stop p <= Position.entry_price p ->
  0 <= trig ->
  Position.update_unrealized_pnl p price = Returns p1 ->
  trig * 100 <= Position.unrealized_pnl_pct p1 ->
  Position.side p1 = BUY
  /\ Position.trailing_activated p1 = Position.trailing_activated p
  /\ Position.current_stop p1 = Position.current_stop p
  /\ Position.current_stop p1 <= price.
Proof.
  intros Hside He Hq Hstop Htrig Hupd Hprofit.
  unfold Position.update_unrealized_pnl, decimal_div in Hupd.
  rewrite Hside in Hupd.
  destruct (Qzerob (Position.entry_price p * Position.quantity p)) eqn:Hz;
    position_simpl; [discriminate|].
  destruct (fits_percentage _); [|discriminate].
  injection Hupd as <-. position_simpl.
  repeat split; try assumption.
  set (a := (price - Position.entry_price p) * Position.quantity p) in *.
  set (b := Position.entry_price p * Position.quantity p) in *.
  assert (Hb : 0 < b) by (subst b; nra).
  assert (Hd : 0 <= a / b) by lra.
  assert (Ha : a == a / b * b) by (field; lra).
  assert (0 <= a). { rewrite Ha. apply Qmult_le_0_compat; lra. }
  subst a. nra.
Qed.

(** C1.  On a long position that trails under its invariant
    ([current_stop <= highest_price - trailing_distance]), or whose profit
    reaches the trigger at a price not below its stop, a call of
    [update_trailing_stop] at any price returns a trailing position whose
    stop has not gone down and which satisfies the invariant; when the call
    is the activating one it sets the distance to [|price - stop|] and the
    highest price to the price, and leaves the stop where it was. *)
Theorem update_trailing_stop_long_invariant (p : Position.t) (price trig : Q)
    (Hside : Position.side p = BUY)
    (Hpre : trailing_precondition p price trig) :
  exists p',
    Position.update_trailing_stop p price trig = Returns p'
    /\ Position.trailing_activated p' = true
    /\ Position.current_stop p <= Position.current_stop p'
    /\ long_invariant p'
    /\ (Position.trailing_activated p = false ->
        Position.trailing_distance p' = Some (Qabs (price - Position.current_stop p))
        /\ Position.highest_price p' = Some price
        /\ Position.current_stop p' = Position.current_stop p).
Proof.
  unfold trailing_precondition in Hpre.
  destruct (Position.trailing_activated p) eqn:Hact.
  - destruct (update_trailing_stop_trailing p price trig Hside Hact Hpre)
      as (p' & Hrun & _ & Hact' & Hmono & Hinv).
    exists p'. repeat split; try assumption; discriminate.
  - destruct Hpre as [Hprofit Hstop].
    destruct (update_trailing_stop_activation p price trig Hside Hact Hprofit Hstop)
      as (p' & Hrun & _ & Hact' & Hd & Hh & Hsame & Hinv).
    exists p'. repeat split; try assumption. rewrite Hsame. lra.
Qed.

(** The activation of the long of the specification's scenario, at 102
    with a trigger of 2%. *)
Lemma update_trailing_stop_long_invariant_witness :
  exists p',
    Position.update_trailing_stop (long_at 102) 102 0.02 = Returns p'
    /\ Position.trailing_activated p' = true
    /\ Position.current_stop (long_at 102) <= Position.current_stop p'
    /\ long_invariant p'
    /\ (Position.trailing_activated (long_at 102) = false ->
        Position.trailing_distance p'
        = Some (Qabs (102 - Position.current_stop (long_at 102)))
        /\ Position.highest_price p' = Some 102
        /\ Position.current_stop p' = Position.current_stop (long_at 102)).
Proof.
  apply (update_trailing_stop_long_invariant (long_at 102) 102 0.02).
  - reflexivity.
  - split; vm_compute; discriminate.
Defined.

(** The trailing scenario of the specification, run through
    [update_trailing_stops]: activation at 102 with the stop left at 98, a
    stop of 106 under a high of 110, nothing moving at 107, and the stop
    hit at 105. *)
Lemma trailing_scenario :
  exists p1 p2 p3 p4,
    monitor_at 102 long_table !! 1%Z = Some p1
    /\ monitor_at 110 (monitor_at 102 long_table) !! 1%Z = Some p2
    /\ monitor_at 107 (monitor_at 110 (monitor_at 102 long_table)) !! 1%Z = Some p3
    /\ monitor_at 105 (monitor_at 107 (monitor_at 110 (monitor_at 102 long_table))) !! 1%Z
       = Some p4
    /\ Position.trailing_activated p1 = true
    /\ Position.current_stop p1 == 98
    /\ Position.current_stop p2 == 106
    /\ Position.current_stop p3 == 106
    /\ Position.current_stop p4 == 106
    /\ RiskManager._check_stop_hit p3 107 = false
    /\ RiskManager._check_stop_hit p4 105 = true
    /\ Position.status p4 = Position.OPEN.
Proof.
  do 4 eexists.
  split; [vm_compute; reflexivity|].
  split; [vm_compute; reflexivity|].
  split; [vm_compute; reflexivity|].
  split; [vm_compute; reflexivity|].
  repeat split; vm_compute; reflexivity.
Qed.

(** ** Daily risk state *)

Ltac risk_simpl :=
  cbn [RiskState.date RiskState.starting_balance RiskState.current_balance
       RiskState.highest_balance RiskState.daily_pnl RiskState.daily_pnl_pct
       RiskState.drawdown RiskState.drawdown_pct RiskState.max_drawdown_pct
       RiskState.total_trades RiskState.winning_trades RiskState.losing_trades
       RiskState.system_status RiskState.pause_reason RiskState.paused_at
       RiskState.update_balance_fields RiskState.created] in *.

Lemma drawdown_ratio_bounds (h b : Q) :
  0 < h -> 0 <= b -> b <= h ->
  0 <= (h - b) / h * 100 /\ (h - b) / h * 100 <= 100.
Proof.
  intros Hh Hb Hbh.
  assert (H0 : 0 <= (h - b) / h) by (apply Qle_shift_div_l; lra).
  assert (H1 : (h - b) / h <= 1) by (apply Qle_shift_div_r; lra).
  lra.
Qed.

Lemma update_balance_high_water (rs : RiskState.t) (b : Q) :
  RiskState.current_balance (RiskState.update_balance_fields rs b)
  <= RiskState.highest_balance (RiskState.update_balance_fields rs b).
Proof.
  risk_simpl.
  destruct (Qgtb b (RiskState.highest_balance rs)) eqn:E; reflect_cmp; lra.
Qed.

Lemma update_balance_invariant (rs : RiskState.t) (b : Q) :
  0 <= b ->
  0 <= RiskState.drawdown_pct rs <= 100 ->
  balance_invariant (RiskState.update_balance_fields rs b).
Proof.
  intros Hb [Hlo Hhi]. split; [apply update_balance_high_water|].
  risk_simpl.
  destruct (Qgtb b (RiskState.highest_balance rs)) eqn:E;
    match goal with |- context [Qgtb ?h 0] => destruct (Qgtb h 0) eqn:E0 end;
    reflect_cmp; try (split; assumption);
    apply drawdown_ratio_bounds; lra.
Qed.

Lemma states_after_invariant (balances : list Q) :
  forall rs,
    0 <= RiskState.drawdown_pct rs <= 100 ->
    Forall (fun b => 0 <= b) balances ->
    Forall balance_invariant (states_after rs balances).
Proof.
  induction balances as [|b balances IH]; intros rs Hrs Hbs; cbn [states_after].
  - constructor.
  - inversion Hbs as [|? ? Hb Hrest]; subst.
    pose proof (update_balance_invariant rs b Hb Hrs) as Hinv.
    constructor; [exact Hinv|].
    apply IH; [|exact Hrest].
    destruct Hinv as (_ & Hlo & Hhi). split; assumption.
Qed.

(** C8.  From the row that [get_or_create_today] inserts, whatever the
    starting balance it is given, every state reached by [update_balance]
    calls with balances as the exchange reports them (non-negative) has
    [current_balance <= highest_balance] and a [drawdown_pct] between 0
    and 100; so has the inserted row. *)
Theorem risk_state_invariant (today : Z) (starting_balance : option Q)
    (balances : list Q) (Hbalances : Forall (fun b => 0 <= b) balances) :
  Forall balance_invariant
    (RiskState.created today starting_balance
     :: states_after (RiskState.created today starting_balance) balances).
Proof.
  assert (Hpct : 0 <= RiskState.drawdown_pct (RiskState.created today starting_balance) <= 100)
    by (risk_simpl; split; lra).
  constructor.
  - split; [risk_simpl; lra | exact Hpct].
  - apply states_after_invariant; assumption.
Qed.

(** The day of the specification's scenario: created at 10 000, then
    10 500, then 9 960. *)
Lemma risk_state_invariant_witness :
  Forall balance_invariant
    (RiskState.created 0 (Some 10000)
     :: states_after (RiskState.created 0 (Some 10000)) [10500; 9960]).
Proof.
  apply (risk_state_invariant 0 (Some 10000) [10500; 9960]).
  repeat constructor; vm_compute; discriminate.
Defined.

(** ** Circuit breaker *)

Lemma get_or_create_today_available (db db' : RiskState.table)
    (starting_balance : option Q) (risk_state : RiskState.t) :
  RiskState.get_or_create_today db starting_balance = Returns (risk_state, db') ->
  RiskState.available db' = true.
Proof.
  unfold RiskState.get_or_create_today.
  destruct (RiskState.available db) eqn:Hav; [|discriminate].
  destruct (RiskState.rows db !! RiskState.today db); intros [= _ <-]; exact Hav.
Qed.

(** [update_balance] on a table the store has just answered from. *)
Lemma update_balance_saves (db : RiskState.table) (rs : RiskState.t) (b : Q) :
  RiskState.available db = true ->
  RiskState.update_balance db rs b
  = (RiskState.update_balance_fields rs b,
     if RiskState.storable (RiskState.update_balance_fields rs b)
     then Returns (RiskState.write db (RiskState.update_balance_fields rs b))
     else Raises "DataError").
Proof.
  intros Hav. unfold RiskState.update_balance, RiskState.save. rewrite Hav. reflexivity.
Qed.

(** C2.  What [check_circuit_breaker] answers.  [should_trigger] is
    [True] exactly when today's risk state is already paused, or a
    balance is at hand, the state updated with it fits its columns, and
    that state has [drawdown_pct >= daily_drawdown_limit * 100].  With a
    high-water mark of 10 500 and a balance of 9 960 the drawdown is 36/7
    per cent, between 5.14 and 5.15, and the breaker triggers under the
    default limit.  With the same high-water mark and a balance of 0 the
    drawdown is 100 per cent, which the column of [drawdown_pct] cannot
    hold: the [save] of [update_balance] raises, the exception is caught,
    and the answer is [False] with the row left as it was. *)
Theorem check_circuit_breaker_misses_overflow :
  (forall (self : RiskManager.t) (db : RiskState.table) (current_balance : option Q),
     (RiskManager.check_circuit_breaker self db current_balance).1.1 = true
     <-> exists risk_state db',
           RiskState.get_or_create_today db None = Returns (risk_state, db')
           /\ (RiskState.system_status risk_state = RiskState.PAUSED
               \/ exists balance,
                    RiskManager.obtain_balance self current_balance = Returns (Some balance)
                    /\ RiskState.storable (RiskState.update_balance_fields risk_state balance)
                       = true
                    /\ RiskManager.daily_drawdown_limit self * 100
                       <= RiskState.drawdown_pct
                            (RiskState.update_balance_fields risk_state balance)))
  /\ RiskState.drawdown_pct (RiskState.update_balance_fields peaked_day 9960) == 36 # 7
  /\ 5.14 <= RiskState.drawdown_pct (RiskState.update_balance_fields peaked_day 9960)
  /\ RiskState.drawdown_pct (RiskState.update_balance_fields peaked_day 9960) <= 5.15
  /\ (RiskManager.check_circuit_breaker default_manager peaked_table (Some 9960)).1.1 = true
  /\ RiskState.drawdown_pct (RiskState.update_balance_fields peaked_day 0) == 100
  /\ RiskManager.daily_drawdown_limit default_manager * 100
     <= RiskState.drawdown_pct (RiskState.update_balance_fields peaked_day 0)
  /\ RiskManager.check_circuit_breaker default_manager peaked_table (Some 0)
     = ((false, RiskManager.BreakerError "DataError"), peaked_table).
Proof.
  split; [|repeat split; vm_compute; congruence].
  intros self db current_balance. unfold RiskManager.check_circuit_breaker.
  destruct (RiskState.get_or_create_today db None) as [[risk_state db']|e] eqn:Hget.
  - pose proof (get_or_create_today_available _ _ _ _ Hget) as Hav.
    destruct (RiskState.system_status risk_state) eqn:Hstatus.
    1,3: destruct (RiskManager.obtain_balance self current_balance)
           as [[balance|]|e] eqn:Hbal; cbn [fst].
    1,4: rewrite (update_balance_saves db' risk_state balance Hav);
         destruct (RiskState.storable _) eqn:Hfit; cbn [fst];
         [destruct (Qgeb _ _) eqn:Hdd; cbn [fst]; reflect_cmp|].
    all: split; intros H; try discriminate H; try reflexivity.
    all: try (exists risk_state, db'; split; [reflexivity|]; first
                [ left; assumption
                | right; exists balance; split; [reflexivity | split; assumption] ]).
    all: destruct H as (rs & db0 & Heq & [Hp | (b & Hb & Hst & Hle)]);
         injection Heq as <- <-; try congruence.
    all: injection Hb as <-; first [lra | congruence].
  - cbn [fst]. split; [discriminate|].
    intros (rs & db0 & Heq & _). discriminate Heq.
Qed.

(** ** Slippage admission *)






(** ** Trend alignment across timeframes *)

(** C7 (as the code has it).  [_calculate_trend_alignment] returns
    [max(bullish_count, bearish_count) / total] with the majority
    direction when the two counts differ, and an alignment of 0 with
    NEUTRAL when they are equal; with two bullish and two bearish
    timeframes the alignment is 0 and the primary trend NEUTRAL. *)
Theorem trend_alignment_majority :
  (forall timeframe_trends : gmap string ThreeDAnalyzer.DimensionAlignment,
     let values := (map_to_list timeframe_trends).*2 in
     let bullish_count := ThreeDAnalyzer.count_of ThreeDAnalyzer.BULLISH values in
     let bearish_count := ThreeDAnalyzer.count_of ThreeDAnalyzer.BEARISH values in
     let result := ThreeDAnalyzer._calculate_trend_alignment timeframe_trends in
     if (bullish_count =? bearish_count)%Z
     then result = (0, ThreeDAnalyzer.NEUTRAL)
     else result.1 == inject_Z (Z.max bullish_count bearish_count)
                      / inject_Z (Z.of_nat (size timeframe_trends))
          /\ result.2 = (if (bearish_count <? bullish_count)%Z
                         then ThreeDAnalyzer.BULLISH else ThreeDAnalyzer.BEARISH))
  /\ ThreeDAnalyzer._calculate_trend_alignment tied_trends = (0, ThreeDAnalyzer.NEUTRAL).
Proof.
  split; [|vm_compute; reflexivity].
  intros timeframe_trends values bullish_count bearish_count result.
  subst result. unfold ThreeDAnalyzer._calculate_trend_alignment.
  fold values. fold bullish_count. fold bearish_count.
  destruct (bool_decide (timeframe_trends = ∅)) eqn:Hempty.
  - apply bool_decide_eq_true in Hempty. subst timeframe_trends.
    subst bullish_count bearish_count values.
    rewrite map_to_list_empty. reflexivity.
  - destruct (bullish_count =? bearish_count)%Z eqn:Heq.
    + apply Z.eqb_eq in Heq. rewrite Heq, Z.ltb_irrefl. reflexivity.
    + apply Z.eqb_neq in Heq.
      destruct (bearish_count <? bullish_count)%Z eqn:Hlt.
      * apply Z.ltb_lt in Hlt. cbn [fst snd]. rewrite Z.max_l by lia.
        split; reflexivity.
      * apply Z.ltb_ge in Hlt.
        assert (Hlt' : (bullish_count <? bearish_count)%Z = true) by (apply Z.ltb_lt; lia).
        rewrite Hlt'. cbn [fst snd]. rewrite Z.max_r by lia. split; reflexivity.
Qed.

(** C7 as the specification states it fails on a tie: with two bullish
    and two bearish timeframes out of four the alignment is not
    [max(2, 2) / 4 = 0.5]. *)
Lemma trend_alignment_tie_counterexample :
  tied_trends <> ∅
  /\ ThreeDAnalyzer.count_of ThreeDAnalyzer.BULLISH (map_to_list tied_trends).*2 = 2%Z
  /\ ThreeDAnalyzer.count_of ThreeDAnalyzer.BEARISH (map_to_list tied_trends).*2 = 2%Z
  /\ size tied_trends = 4%nat
  /\ ~ (ThreeDAnalyzer._calculate_trend_alignment tied_trends).1
        == inject_Z (Z.max 2 2) / inject_Z 4
  /\ ~ (ThreeDAnalyzer._calculate_trend_alignment tied_trends).1 == 0.5.
Proof.
  split.
  { intros H. apply (f_equal (fun m => m !! "1m")) in H. vm_compute in H. discriminate H. }
  repeat split; vm_compute; congruence.
Qed.

(** ** Validity of a 3-D signal *)

(** The next event of the fundamental analysis is one that has not been
    released yet. *)
Lemma upcoming_query_future (events : list EconomicEvent) (now : Z)
    (next : EconomicEvent) (others : list EconomicEvent) :
  ThreeDAnalyzer.upcoming_query events now = next :: others ->
  (now < release_time next)%Z.
Proof.
  unfold ThreeDAnalyzer.upcoming_query. intros Htake.
  match type of Htake with take 5 ?l = _ => remember l as sorted eqn:Hsorted end.
  assert (Hin : next ∈ sorted).
  { destruct sorted as [|first sorted]; [discriminate Htake|].
    cbn in Htake. injection Htake as -> _. apply list_elem_of_here. }
  rewrite Hsorted, merge_sort_Permutation in Hin.
  apply list_elem_of_filter in Hin. tauto.
Qed.

Lemma time_to_next_event_positive (events : list EconomicEvent) (now d : Z) :
  ThreeDAnalyzer.time_to_next_event (ThreeDAnalyzer._analyze_fundamental events now) = Some d ->
  (0 < d)%Z.
Proof.
  unfold ThreeDAnalyzer._analyze_fundamental.
  destruct (ThreeDAnalyzer.upcoming_query events now) as [|next others] eqn:Hup.
  - destruct (ThreeDAnalyzer.recent_query events now) as [|last0 rest];
      [|destruct (Qltb _ _)]; cbn; discriminate.
  - apply upcoming_query_future in Hup.
    destruct (ThreeDAnalyzer.recent_query events now) as [|last0 rest];
      [|destruct (Qltb _ _)]; cbn; intros [= <-]; lia.
Qed.

(** [_is_valid_signal], the zero [timedelta] apart. *)
Lemma is_valid_signal_iff (confluence : ThreeDAnalyzer.DimensionAlignment)
    (confluence_score : Q) (dimensions_aligned : Z)
    (fundamental : ThreeDAnalyzer.FundamentalAnalysis) :
  ThreeDAnalyzer.time_to_next_event fundamental <> Some 0%Z ->
  ThreeDAnalyzer._is_valid_signal confluence confluence_score dimensions_aligned fundamental = true
  <-> (confluence = ThreeDAnalyzer.BULLISH \/ confluence = ThreeDAnalyzer.BEARISH)
      /\ (2 <= dimensions_aligned)%Z
      /\ (ThreeDAnalyzer.time_to_next_event fundamental = None
          \/ exists d, ThreeDAnalyzer.time_to_next_event fundamental = Some d
                       /\ 30 <= ThreeDAnalyzer.total_seconds d / 60)
      /\ 0.6 <= confluence_score.
Proof.
  intros Hnz. unfold ThreeDAnalyzer._is_valid_signal, ThreeDAnalyzer.PRE_EVENT_AVOID_MINUTES.
  destruct (dimensions_aligned <? 2)%Z eqn:Hdims;
    [apply Z.ltb_lt in Hdims | apply Z.ltb_ge in Hdims].
  { destruct confluence; cbn; split; try discriminate; intros (_ & H & _); lia. }
  destruct (Qltb confluence_score 0.6) eqn:Hscore; reflect_cmp.
  { destruct confluence; cbn;
      destruct (ThreeDAnalyzer.time_to_next_event fundamental) as [d|];
      try destruct (negb (d =? 0)%Z && Qltb (ThreeDAnalyzer.total_seconds d / 60) 30);
      split; try discriminate; intros (_ & _ & _ & H); lra. }
  destruct (ThreeDAnalyzer.time_to_next_event fundamental) as [d|] eqn:Hnext.
  - assert (Hd : (d =? 0)%Z = false) by (apply Z.eqb_neq; congruence).
    rewrite Hd. cbn [negb andb].
    destruct (Qltb (ThreeDAnalyzer.total_seconds d / 60) 30) eqn:Hmin; reflect_cmp;
      destruct confluence; cbn; split; try discriminate; try reflexivity.
    all: try (intros (_ & _ & [H | (d' & [= <-] & H)] & _); [discriminate H | lra]).
    all: try (intros ([H | H] & _); discriminate H).
    all: intros _; repeat split; eauto.
  - destruct confluence; cbn; split; try discriminate; try reflexivity.
    all: try (intros ([H | H] & _); discriminate H).
    all: intros _; repeat split; eauto.
Qed.

Lemma analyze_fields (fl : Float.arithmetic) (ema_period : nat) (threshold : Q)
    (events : list EconomicEvent) (now : Z)
    (klines : gmap string (list Q)) (prices : option (gmap string Q)) :
  let signal := ThreeDAnalyzer.analyze fl ema_period threshold events now klines prices in
  ThreeDAnalyzer.fundamental signal = ThreeDAnalyzer._analyze_fundamental events now
  /\ ThreeDAnalyzer.is_valid_signal signal
     = ThreeDAnalyzer._is_valid_signal (ThreeDAnalyzer.confluence signal)
         (ThreeDAnalyzer.confluence_score signal)
         (ThreeDAnalyzer.dimensions_aligned signal)
         (ThreeDAnalyzer.fundamental signal).
Proof.
  unfold ThreeDAnalyzer.analyze.
  destruct (ThreeDAnalyzer._calculate_confluence _ _ _) as [[c sc] n].
  split; reflexivity.
Qed.

(** C6.  The signal [analyze] returns is valid exactly when its
    confluence is BULLISH or BEARISH, at least two dimensions are aligned,
    no event is upcoming or the next one is at least 30 minutes away, and
    the confluence score is at least 0.6.  A market in which two
    dimensions are bullish gives a valid signal on an empty calendar and
    an invalid one once a HIGH-impact CPI release is 20 minutes away,
    without rounding as with the rounding of binary64; with that release
    on the calendar no signal is valid. *)
Theorem three_d_signal_validity :
  (forall (fl : Float.arithmetic) (ema_period : nat) (threshold : Q)
          (events : list EconomicEvent) (now : Z)
          (klines : gmap string (list Q)) (prices : option (gmap string Q)),
     let signal := ThreeDAnalyzer.analyze fl ema_period threshold events now klines prices in
     ThreeDAnalyzer.is_valid_signal signal = true
     <-> (ThreeDAnalyzer.confluence signal = ThreeDAnalyzer.BULLISH
          \/ ThreeDAnalyzer.confluence signal = ThreeDAnalyzer.BEARISH)
         /\ (2 <= ThreeDAnalyzer.dimensions_aligned signal)%Z
         /\ (ThreeDAnalyzer.time_to_next_event (ThreeDAnalyzer.fundamental signal) = None
             \/ exists d,
                  ThreeDAnalyzer.time_to_next_event (ThreeDAnalyzer.fundamental signal) = Some d
                  /\ 30 <= ThreeDAnalyzer.total_seconds d / 60)
         /\ 0.6 <= ThreeDAnalyzer.confluence_score signal)
  /\ ThreeDAnalyzer.is_valid_signal
       (ThreeDAnalyzer.analyze Float.exact 20 0.005 [] 0 rising_klines (Some risk_on_prices)) = true
  /\ ThreeDAnalyzer.is_valid_signal
       (ThreeDAnalyzer.analyze Float.exact 20 0.005 [cpi_in_20_minutes 0] 0 rising_klines
          (Some risk_on_prices)) = false
  /\ ThreeDAnalyzer.is_valid_signal
       (ThreeDAnalyzer.analyze Float.binary64 20 (Float.of_decimal Float.binary64 0.005)
          [] 0 rising_klines (Some risk_on_prices)) = true
  /\ ThreeDAnalyzer.is_valid_signal
       (ThreeDAnalyzer.analyze Float.binary64 20 (Float.of_decimal Float.binary64 0.005)
          [cpi_in_20_minutes 0] 0 rising_klines (Some risk_on_prices)) = false
  /\ (forall (fl : Float.arithmetic) (ema_period : nat) (threshold : Q) (now : Z)
             (klines : gmap string (list Q)) (prices : option (gmap string Q)),
        ThreeDAnalyzer.is_valid_signal
          (ThreeDAnalyzer.analyze fl ema_period threshold [cpi_in_20_minutes now] now
             klines prices) = false).
Proof.
  split; [|do 4 (split; [vm_compute; reflexivity|])].
  - intros fl ema_period threshold events now klines prices signal.
    destruct (analyze_fields fl ema_period threshold events now klines prices) as [Hf Hv].
    fold signal in Hf, Hv. rewrite Hv. apply is_valid_signal_iff.
    rewrite Hf. intros H0. apply time_to_next_event_positive in H0. lia.
  - intros fl ema_period threshold now klines prices.
    destruct (analyze_fields fl ema_period threshold [cpi_in_20_minutes now] now klines prices)
      as [Hf Hv].
    rewrite Hv, Hf.
    assert (Hnext : ThreeDAnalyzer.time_to_next_event
                      (ThreeDAnalyzer._analyze_fundamental [cpi_in_20_minutes now] now)
                    = Some (minutes 20)).
    { assert (Hup : ThreeDAnalyzer.upcoming_query [cpi_in_20_minutes now] now
                    = [cpi_in_20_minutes now]).
      { unfold ThreeDAnalyzer.upcoming_query.
        rewrite filter_cons_True, filter_nil; [reflexivity|].
        unfold cpi_in_20_minutes, minutes, ThreeDAnalyzer.hours.
        cbn [release_time impact ThreeDAnalyzer.impact_in_high_medium].
        repeat split; lia. }
      assert (Hrec : ThreeDAnalyzer.recent_query [cpi_in_20_minutes now] now = []).
      { unfold ThreeDAnalyzer.recent_query.
        rewrite filter_cons_False, filter_nil; [reflexivity|].
        unfold cpi_in_20_minutes, minutes, ThreeDAnalyzer.hours.
        cbn [release_time impact ThreeDAnalyzer.impact_in_high_medium]. lia. }
      unfold ThreeDAnalyzer._analyze_fundamental. rewrite Hup, Hrec.
      cbn [ThreeDAnalyzer.time_to_next_event cpi_in_20_minutes release_time].
      f_equal. lia. }
    unfold ThreeDAnalyzer._is_valid_signal. rewrite Hnext.
    destruct (ThreeDAnalyzer.DimensionAlignment_eqb _ ThreeDAnalyzer.CONFLICTING); [reflexivity|].
    destruct (ThreeDAnalyzer.DimensionAlignment_eqb _ ThreeDAnalyzer.NEUTRAL); [reflexivity|].
    destruct (_ <? 2)%Z; reflexivity.
Qed.

(** ** Validity of a VPA signal *)

(** What [_is_valid_signal] computes: the trend is not looked at. *)
Lemma vpa_is_valid_signal_iff (pattern : VPAAnalyzer.VPAPattern) (strength : Q)
    (trend : TrendDirection) :
  VPAAnalyzer._is_valid_signal pattern strength trend = true
  <-> pattern <> VPAAnalyzer.NEUTRAL /\ 0.5 <= strength.
Proof.
  unfold VPAAnalyzer._is_valid_signal.
  destruct (Qltb strength 0.5) eqn:Hs; reflect_cmp;
    destruct pattern, trend; cbn; split; try discriminate; try reflexivity;
    try (intros [_ H]; lra); try (intros [H _]; congruence);
    intros _; split; (discriminate || assumption).
Qed.

(** C3 at its failing input.  A NO_DEMAND bar in a bullish trend: the
    analyzer classifies the quiet up bar as NO_DEMAND with strength 0.56
    and reports it as a valid signal, where the specification (and the
    comments of [_is_valid_signal]) want it rejected. *)
Theorem no_demand_in_uptrend_is_valid :
  let signal := VPAAnalyzer.analyze 20 21 quiet_up_bar in
  VPAAnalyzer.pattern signal = VPAAnalyzer.NO_DEMAND
  /\ VPAAnalyzer.strength signal == 0.56
  /\ 0.5 <= VPAAnalyzer.strength signal
  /\ VPAAnalyzer.is_valid_signal signal = true
  /\ VPAAnalyzer._is_valid_signal VPAAnalyzer.NO_DEMAND 0.56 TREND_BULLISH = true.
Proof. repeat split; vm_compute; congruence. Qed.

(** ** Quantity formatting *)

(** Past the half of a step, [round_half_even] goes up: the rounded
    coefficient stands for more than the quantity. *)
Lemma round_half_even_above (c m : Z) :
  (0 < m)%Z -> (m < 2 * (c mod m))%Z ->
  (c < DecimalRepr.round_half_even c m * m)%Z.
Proof.
  intros Hm Hhalf. unfold DecimalRepr.round_half_even.
  pose proof (Z.div_mod c m ltac:(lia)) as Hdiv.
  pose proof (Z.mod_pos_bound c m Hm) as Hmod.
  destruct (2 * (c mod m) <? m)%Z eqn:E1; [apply Z.ltb_lt in E1; lia|].
  destruct (m <? 2 * (c mod m))%Z eqn:E2; [|apply Z.ltb_ge in E2; lia].
  nia.
Qed.

(** C4 at its failing input.  With a step of 0.001, [format_quantity]
    turns 0.0016 into 0.002 and 21.4286 into 21.429: it rounds to the
    nearest multiple of the step, and the result exceeds the quantity. *)
Theorem format_quantity_rounds_to_nearest :
  BinanceClient.format_quantity milli_step_client "BTCUSDT" (DecimalRepr.mk 16 (-4))
  = Returns (DecimalRepr.mk 2 (-3))
  /\ DecimalRepr.value (DecimalRepr.mk 16 (-4)) < DecimalRepr.value (DecimalRepr.mk 2 (-3))
  /\ BinanceClient.format_quantity milli_step_client "BTCUSDT" (DecimalRepr.mk 214286 (-4))
     = Returns (DecimalRepr.mk 21429 (-3))
  /\ DecimalRepr.value (DecimalRepr.mk 214286 (-4))
     < DecimalRepr.value (DecimalRepr.mk 21429 (-3)).
Proof. repeat split; vm_compute; reflexivity. Qed.

(** ** Trading-allowed check *)

(** The executions of the [try] block that raise are those in which one
    of its steps does. *)
Lemma is_trading_allowed_try_raises (self : RiskManager.t) (db : RiskState.table) :
  (exists e, RiskManager.is_trading_allowed_try self db = Raises e)
  <-> step_raises self db.
Proof.
  unfold RiskManager.is_trading_allowed_try. split.
  - intros [e He].
    assert (Hdb : forall r,
      (r ≫= (fun '(risk_state, db0) =>
         match RiskState.system_status risk_state with
         | RiskState.ACTIVE => Returns (true, "", db0)
         | RiskState.PAUSED => Returns (false, RiskState.pause_reason risk_state, db0)
         | RiskState.EMERGENCY_STOP => Returns (false, "Emergency stop active", db0)
         end)) = Raises e ->
      r = RiskState.get_or_create_today db None ->
      RiskState.available db = false).
    { intros r Hr ->. unfold RiskState.get_or_create_today in Hr.
      destruct (RiskState.available db); [|reflexivity].
      destruct (RiskState.rows db !! RiskState.today db) as [row|];
        cbn [mbind outcome_bind] in Hr;
        match type of Hr with
        | context [RiskState.system_status ?x] => destruct (RiskState.system_status x)
        end; discriminate Hr. }
    destruct (RiskManager.redis_cache self) as [cache|] eqn:Hcache.
    + destruct (RedisCache.is_trading_active cache 0) as [[|]|e0] eqn:Hactive;
        cbn [mbind outcome_bind negb] in He.
      * apply risk_state_lookup_raises; [right; eauto|].
        eapply Hdb; [exact He | reflexivity].
      * destruct (RedisCache.get_system_status cache 1) as [status|e1] eqn:Hreason;
          cbn [mbind outcome_bind] in He; [discriminate He|].
        unfold RedisCache.get_system_status in Hreason.
        destruct (RedisCache.client_get_status cache 1) as [[parsed|]|e2] eqn:Hread;
          cbn [mbind outcome_bind] in Hreason; try discriminate Hreason.
        eapply reason_read_raises; eauto.
      * unfold RedisCache.is_trading_active, RedisCache.get_system_status in Hactive.
        destruct (RedisCache.client_get_status cache 0) as [[parsed|]|e2] eqn:Hread;
          cbn [mbind outcome_bind] in Hactive; try discriminate Hactive.
        eapply status_read_raises; eauto.
    + cbn [mbind outcome_bind] in He.
      apply risk_state_lookup_raises; [left; exact Hcache|].
      eapply Hdb; [exact He | reflexivity].
  - intros [cache e Hcache Hread | cache e Hcache Hactive Hread | Hcache Hdb].
    + rewrite Hcache. unfold RedisCache.is_trading_active, RedisCache.get_system_status.
      rewrite Hread. eexists. reflexivity.
    + rewrite Hcache, Hactive. cbn [mbind outcome_bind negb].
      unfold RedisCache.get_system_status. rewrite Hread. eexists. reflexivity.
    + assert (Hget : RiskState.get_or_create_today db None = Raises "OperationalError")
        by (unfold RiskState.get_or_create_today; rewrite Hdb; reflexivity).
      destruct Hcache as [-> | (cache & -> & ->)];
        cbn [mbind outcome_bind negb]; rewrite Hget; eexists; reflexivity.
Qed.

(** C10.  When a step of the check raises, [is_trading_allowed] returns
    [(True, "")] and leaves the store as it was: the system fails open. *)
Theorem is_trading_allowed_fails_open (self : RiskManager.t) (db : RiskState.table)
    (Hraises : step_raises self db) :
  RiskManager.is_trading_allowed self db = ((true, ""), db).
Proof.
  unfold RiskManager.is_trading_allowed, RiskManager.is_trading_allowed_try.
  destruct Hraises as [cache e Hcache Hread | cache e Hcache Hactive Hread | Hcache Hdb].
  - rewrite Hcache. unfold RedisCache.is_trading_active, RedisCache.get_system_status.
    rewrite Hread. reflexivity.
  - rewrite Hcache, Hactive. cbn [mbind outcome_bind negb].
    unfold RedisCache.get_system_status. rewrite Hread. reflexivity.
  - assert (Hget : RiskState.get_or_create_today db None = Raises "OperationalError")
      by (unfold RiskState.get_or_create_today; rewrite Hdb; reflexivity).
    destruct Hcache as [-> | (cache & -> & ->)];
      cbn [mbind outcome_bind negb]; rewrite Hget; reflexivity.
Qed.

(** The cache cannot be reached. *)
Lemma is_trading_allowed_fails_open_witness :
  RiskManager.is_trading_allowed
    (RiskManager.mk None (Some unreachable_cache) 0.015 0.002 0.02 0.05) peaked_table
  = ((true, ""), peaked_table).
Proof.
  apply is_trading_allowed_fails_open.
  apply (status_read_raises _ _ unreachable_cache "ConnectionError"); reflexivity.
Defined.

(** ** Closing a position *)

Lemma create_trade_accepted (w : Tasks.World) (row : Trade.t) :
  Trade.storable row = true ->
  accepts_trade w (Trade.binance_order_id row) ->
  Tasks.create_trade w row
  = Returns (Tasks.next_trade_id w,
             Tasks.mk_world (Tasks.positions w)
               (<[Tasks.next_trade_id w := row]> (Tasks.trades w))
               (Tasks.next_trade_id w + 1)%Z (Tasks.exchange w)
               (Tasks.monitor_queue w) (Tasks.broadcasts w) (Tasks.now w)).
Proof.
  intros Hfit [Hkey Hids]. unfold Tasks.create_trade. rewrite Hfit, Hkey.
  rewrite bool_decide_eq_false_2 by (intros [? ?]; discriminate).
  cbn [negb orb].
  replace (existsb _ _) with false; [reflexivity|].
  symmetry. induction Hids as [|t ts Ht _ IH]; cbn [existsb]; [reflexivity|].
  rewrite IH, orb_false_r. apply Z.eqb_neq. exact Ht.
Qed.

(** A trade is created only when its texts fit and the table takes it. *)
Lemma create_trade_returns (w : Tasks.World) (row : Trade.t) (created : Z * Tasks.World) :
  Tasks.create_trade w row = Returns created ->
  Trade.storable row = true /\ accepts_trade w (Trade.binance_order_id row).
Proof.
  unfold Tasks.create_trade.
  destruct (Trade.storable row); cbn [negb]; [|discriminate].
  destruct (bool_decide _) eqn:Hkey; cbn [orb]; [discriminate|].
  destruct (existsb _ _) eqn:Hids; [discriminate|]. intros _.
  split; [reflexivity|]. split.
  - apply bool_decide_eq_false_1 in Hkey.
    destruct (Tasks.trades w !! Tasks.next_trade_id w) eqn:Hl; [|reflexivity].
    exfalso. apply Hkey. eauto.
  - apply Forall_forall. intros t Hin Heq.
    assert (Hex : existsb
                    (fun t => (Trade.binance_order_id t =? Trade.binance_order_id row)%Z)
                    (map_to_list (Tasks.trades w)).*2 = true).
    { apply existsb_exists. exists t. split.
      - apply list_elem_of_In. exact Hin.
      - apply Z.eqb_eq. exact Heq. }
    congruence.
Qed.

Lemma close_position_closed (w : Tasks.World) (position_id : Z) (reason : string)
    (p : Position.t) :
  Tasks.positions w !! position_id = Some p ->
  Position.status p = Position.CLOSED ->
  Tasks.close_position w position_id reason = (Tasks.AlreadyClosed, w).
Proof.
  intros Hp Hclosed. unfold Tasks.close_position. rewrite Hp, Hclosed. reflexivity.
Qed.

(** When [close_position] succeeds on an open position: the exchange
    accepts the order, the exit trade fits its columns and the trades
    table takes it, and the reason fits the column of [close_reason]. *)
Lemma close_position_success_iff (w : Tasks.World) (position_id : Z) (reason : string)
    (p : Position.t) (order_id : Z) :
  Tasks.positions w !! position_id = Some p ->
  Position.status p = Position.OPEN ->
  (Tasks.close_position w position_id reason).1
  = Tasks.Success position_id reason order_id
  <-> Tasks.create_order (Tasks.exchange w) (Tasks.requests (Tasks.exchange w))
      = Returns order_id
      /\ Trade.storable (exit_trade_row p order_id reason) = true
      /\ accepts_trade w order_id
      /\ fits_text 50 reason = true.
Proof.
  intros Hp Hopen. unfold Tasks.close_position.
  rewrite Hp, Hopen. cbn [Position.Status_eqb negb].
  unfold Tasks.place_market_order.
  destruct (Tasks.create_order _ _) as [id|e] eqn:Hex.
  - change (Trade.mk id (Position.symbol p)
              match Position.side p with BUY => SELL | SELL => BUY end
              "MARKET" (Position.quantity p) 0 None None Trade.PENDING
              ("Position close: " +:+ reason))
      with (exit_trade_row p id reason).
    destruct (Tasks.create_trade _ (exit_trade_row p id reason)) as [[k w']|e] eqn:Hct.
    + apply create_trade_returns in Hct. destruct Hct as [Hfit Hacc].
      cbn [Position.set_closed Position.close_reason].
      destruct (fits_text 50 reason) eqn:Hreason; cbn [negb fst].
      * split.
        -- intros [= <-]. auto.
        -- intros ([= <-] & _). reflexivity.
      * split; [discriminate | intros (_ & _ & _ & Hx); discriminate Hx].
    + cbn [fst]. split; [discriminate|].
      intros ([= <-] & Hfit & Hacc & _).
      rewrite create_trade_accepted in Hct; [discriminate Hct | exact Hfit | exact Hacc].
  - cbn [fst]. split; [discriminate | intros (Hx & _); discriminate Hx].
Qed.

(** C9.  Two [close_position] calls in sequence on a position that is
    OPEN at the first, when the first returns [success]: the first has
    placed the exit market order, created the PENDING exit trade and
    written the position with [status] CLOSED, [close_reason] the reason
    of the call, [closed_at] the time of the call and [exit_trade] the new
    trade, every other column as it was, before any fill; the second, at
    any later time and for any reason, answers [already_closed] and
    changes nothing.  Over the two calls the exchange has had one request
    and accepted one order, and one trade has been created. *)
Theorem close_position_twice (w : Tasks.World) (position_id : Z)
    (reason reason' : string) (later : Z) (p : Position.t) (order_id : Z)
    (Hposition : Tasks.positions w !! position_id = Some p)
    (Hopen : Position.status p = Position.OPEN)
    (Hsuccess : (Tasks.close_position w position_id reason).1
                = Tasks.Success position_id reason order_id) :
  let first := Tasks.close_position w position_id reason in
  let second := Tasks.close_position (Tasks.at_time first.2 later) position_id reason' in
  let closed :=
    Position.mk (Position.entry_trade p) (Some (Tasks.next_trade_id w))
      (Position.symbol p) (Position.side p) (Position.quantity p)
      (Position.entry_price p) (Position.current_price p) (Position.unrealized_pnl p)
      (Position.unrealized_pnl_pct p) (Position.initial_stop p) (Position.current_stop p)
      (Position.trailing_activated p) (Position.trailing_distance p)
      (Position.highest_price p) (Position.lowest_price p) (Position.take_profit p)
      Position.CLOSED reason (Position.opened_at p) (Some (Tasks.now w)) in
  closed_once w position_id reason reason' later
  /\ Tasks.positions first.2 = <[position_id := closed]> (Tasks.positions w)
  /\ Tasks.trades w !! Tasks.next_trade_id w = None
  /\ Tasks.trades first.2
     = <[Tasks.next_trade_id w := exit_trade_row p order_id reason]> (Tasks.trades w)
  /\ Tasks.accepted (Tasks.exchange first.2)
     = Tasks.accepted (Tasks.exchange w) ++ [exit_order p]
  /\ second = (Tasks.AlreadyClosed, Tasks.at_time first.2 later)
  /\ Tasks.positions second.2 = <[position_id := closed]> (Tasks.positions w)
  /\ Tasks.accepted (Tasks.exchange second.2)
     = Tasks.accepted (Tasks.exchange w) ++ [exit_order p]
  /\ Tasks.requests (Tasks.exchange second.2) = S (Tasks.requests (Tasks.exchange w))
  /\ Tasks.trades second.2
     = <[Tasks.next_trade_id w := exit_trade_row p order_id reason]> (Tasks.trades w)
  /\ size (Tasks.trades second.2) = S (size (Tasks.trades w))
  /\ Tasks.monitor_queue second.2 = Tasks.monitor_queue w ++ [Tasks.next_trade_id w].
Proof.
  intros first second closed.
  apply (close_position_success_iff w position_id reason p order_id Hposition Hopen)
    in Hsuccess.
  destruct Hsuccess as (Hexchange & Hfit & Hstore & Hreason).
  assert (Hfirst : first
    = (Tasks.Success position_id reason order_id,
       Tasks.mk_world
         (<[position_id := closed]> (Tasks.positions w))
         (<[Tasks.next_trade_id w := exit_trade_row p order_id reason]> (Tasks.trades w))
         (Tasks.next_trade_id w + 1)%Z
         (Tasks.mk_exchange (Tasks.create_order (Tasks.exchange w))
            (S (Tasks.requests (Tasks.exchange w)))
            (Tasks.accepted (Tasks.exchange w) ++ [exit_order p]))
         (Tasks.monitor_queue w ++ [Tasks.next_trade_id w])
         (Tasks.broadcasts w ++ [("position_update", position_id, "CLOSED")])
         (Tasks.now w))).
  { subst first. unfold Tasks.close_position.
    rewrite Hposition, Hopen. cbn [Position.Status_eqb negb].
    unfold Tasks.place_market_order. rewrite Hexchange.
    change (Trade.mk order_id (Position.symbol p)
              match Position.side p with BUY => SELL | SELL => BUY end
              "MARKET" (Position.quantity p) 0 None None Trade.PENDING
              ("Position close: " +:+ reason))
      with (exit_trade_row p order_id reason).
    rewrite create_trade_accepted by assumption.
    cbn [Position.set_closed Position.close_reason]. rewrite Hreason.
    reflexivity. }
  assert (Hsecond : second = (Tasks.AlreadyClosed, Tasks.at_time first.2 later)).
  { subst second. rewrite Hfirst. cbn [snd].
    apply close_position_closed with (p := closed).
    - cbn [Tasks.at_time Tasks.positions]. apply lookup_insert_eq.
    - reflexivity. }
  destruct Hstore as [Hkey _].
  assert (Hsize : size (<[Tasks.next_trade_id w := exit_trade_row p order_id reason]>
                          (Tasks.trades w)) = S (size (Tasks.trades w)))
    by (apply map_size_insert_None; exact Hkey).
  unfold closed_once. fold first. fold second.
  rewrite Hsecond. rewrite Hfirst. cbn [fst snd Tasks.at_time Tasks.positions Tasks.trades
    Tasks.exchange Tasks.accepted Tasks.requests Tasks.monitor_queue].
  split; [|repeat split; try reflexivity; assumption].
  split; [rewrite length_app; cbn [length]; lia|].
  split; [exact Hsize|].
  split; [|split; reflexivity].
  exists closed. split; [apply lookup_insert_eq | repeat split].
Qed.

(** Closing the one open long of [one_position_world] on a stop, then
    again on a take-profit five seconds later. *)
Lemma close_position_twice_witness :
  let first := Tasks.close_position one_position_world 1 "STOP_LOSS" in
  let second := Tasks.close_position (Tasks.at_time first.2 1005) 1 "TAKE_PROFIT" in
  let closed :=
    Position.mk 1 (Some 2%Z) "BTCUSDT" BUY 0.5 100 (Some 97) (-1.5) (-3)
      98 98 false None None None None Position.CLOSED "STOP_LOSS" 0 (Some 1000%Z) in
  first.1 = Tasks.Success 1 "STOP_LOSS" 7001
  /\ closed_once one_position_world 1 "STOP_LOSS" "TAKE_PROFIT" 1005
  /\ Tasks.positions first.2 = <[1%Z := closed]> (Tasks.positions one_position_world)
  /\ Tasks.trades one_position_world !! Tasks.next_trade_id one_position_world = None
  /\ Tasks.trades first.2
     = <[Tasks.next_trade_id one_position_world := exit_trade_row open_long 7001 "STOP_LOSS"]>
         (Tasks.trades one_position_world)
  /\ Tasks.accepted (Tasks.exchange first.2)
     = Tasks.accepted (Tasks.exchange one_position_world) ++ [exit_order open_long]
  /\ second = (Tasks.AlreadyClosed, Tasks.at_time first.2 1005)
  /\ Tasks.positions second.2 = <[1%Z := closed]> (Tasks.positions one_position_world)
  /\ Tasks.accepted (Tasks.exchange second.2)
     = Tasks.accepted (Tasks.exchange one_position_world) ++ [exit_order open_long]
  /\ Tasks.requests (Tasks.exchange second.2)
     = S (Tasks.requests (Tasks.exchange one_position_world))
  /\ Tasks.trades second.2
     = <[Tasks.next_trade_id one_position_world := exit_trade_row open_long 7001 "STOP_LOSS"]>
         (Tasks.trades one_position_world)
  /\ size (Tasks.trades second.2) = S (size (Tasks.trades one_position_world))
  /\ Tasks.monitor_queue second.2
     = Tasks.monitor_queue one_position_world ++ [Tasks.next_trade_id one_position_world].
Proof.
  split; [reflexivity|].
  apply (close_position_twice one_position_world 1 "STOP_LOSS" "TAKE_PROFIT" 1005
           open_long 7001).
  - reflexivity.
  - reflexivity.
  - reflexivity.
Defined.

(** The claim without the success of the first call fails.  With an
    exchange that refuses the first order, the first call reports the
    error and leaves the position OPEN, and the second call places the
    order and closes the position.  With a trades table that already
    holds the number the exchange gives the order, the first call places
    the order, fails to record the trade and leaves the position OPEN;
    the second call places a second order: two exit orders in all. *)
Lemma close_position_twice_counterexample :
  (let w := refusing_once_world in
   let first := Tasks.close_position w 1 "STOP_LOSS" in
   let second := Tasks.close_position (Tasks.at_time first.2 1005) 1 "STOP_LOSS" in
   Tasks.positions w !! 1%Z = Some open_long
   /\ Position.status open_long = Position.OPEN
   /\ first.1 = Tasks.CloseError "APIError"
   /\ Tasks.positions first.2 !! 1%Z = Some open_long
   /\ second.1 = Tasks.Success 1 "STOP_LOSS" 7001
   /\ Tasks.accepted (Tasks.exchange first.2) = []
   /\ Tasks.accepted (Tasks.exchange second.2) = [exit_order open_long]
   /\ ~ closed_once w 1 "STOP_LOSS" "STOP_LOSS" 1005)
  /\ (let w := clashing_world in
      let first := Tasks.close_position w 1 "STOP_LOSS" in
      let second := Tasks.close_position (Tasks.at_time first.2 1005) 1 "STOP_LOSS" in
      Tasks.positions w !! 1%Z = Some open_long
      /\ Position.status open_long = Position.OPEN
      /\ first.1 = Tasks.CloseError "IntegrityError"
      /\ Tasks.positions first.2 !! 1%Z = Some open_long
      /\ Tasks.accepted (Tasks.exchange first.2) = [exit_order open_long]
      /\ second.1 = Tasks.Success 1 "STOP_LOSS" 7002
      /\ Tasks.accepted (Tasks.exchange second.2)
         = [exit_order open_long; exit_order open_long]
      /\ ~ closed_once w 1 "STOP_LOSS" "STOP_LOSS" 1005).
Proof.
  split; cbv zeta.
  - repeat (split; [reflexivity|]).
    intros (_ & _ & (closed & Hrow & Hclosed & _) & _).
    vm_compute in Hrow. injection Hrow as <-. discriminate Hclosed.
  - repeat (split; [reflexivity|]).
    intros (Horders & _). vm_compute in Horders. discriminate Horders.
Qed.

(** When the exchange refuses the order, [close_position] reports the
    error and the position stays OPEN: nothing is placed or recorded. *)
Lemma close_position_refused (w : Tasks.World) (position_id : Z) (reason : string)
    (p : Position.t) (e : string) :
  Tasks.positions w !! position_id = Some p ->
  Position.status p = Position.OPEN ->
  Tasks.create_order (Tasks.exchange w) (Tasks.requests (Tasks.exchange w)) = Raises e ->
  let result := Tasks.close_position w position_id reason in
  result.1 = Tasks.CloseError e
  /\ Tasks.positions result.2 = Tasks.positions w
  /\ Tasks.trades result.2 = Tasks.trades w
  /\ Tasks.accepted (Tasks.exchange result.2) = Tasks.accepted (Tasks.exchange w).
Proof.
  intros Hp Hopen Hex. unfold Tasks.close_position.
  rewrite Hp, Hopen. cbn [Position.Status_eqb negb].
  unfold Tasks.place_market_order. rewrite Hex. repeat split.
Qed.

(** * Further properties of the code *)

(** ** Trailing stops, both sides *)

Lemma update_trailing_stop_short_trailing (p : Position.t) (price trig : Q) :
  Position.side p = SELL ->
  Position.trailing_activated p = true ->
  short_invariant p ->
  exists p',
    Position.update_trailing_stop p price trig = Returns p'
    /\ Position.trailing_activated p' = true
    /\ Position.current_stop p' <= Position.current_stop p
    /\ short_invariant p'.
Proof.
  intros Hside Hact (l & d & Hl & Hd & Hinv).
  unfold Position.update_trailing_stop.
  rewrite Hact. position_simpl. rewrite Hact, Hside, Hl.
  destruct (Qltb price l) eqn:Hlt; reflect_cmp.
  - unfold Position.the_distance. position_simpl. rewrite Hd. position_simpl.
    destruct (Qltb (price + d) (Position.current_stop p)) eqn:Hnew; reflect_cmp.
    + eexists. split; [reflexivity|]. position_simpl.
      split; [assumption|]. split; [lra|].
      exists price, d. position_simpl. repeat split; try assumption; lra.
    + eexists. split; [reflexivity|]. position_simpl.
      split; [assumption|]. split; [lra|].
      exists price, d. position_simpl. repeat split; try assumption; lra.
  - exists p. repeat split; try assumption; try lra.
    exists l, d. repeat split; assumption.
Qed.

Lemma update_trailing_stop_short_activation (p : Position.t) (price trig : Q) :
  Position.side p = SELL ->
  Position.trailing_activated p = false ->
  trig * 100 <= Position.unrealized_pnl_pct p ->
  price <= Position.current_stop p ->
  exists p',
    Position.update_trailing_stop p price trig = Returns p'
    /\ Position.trailing_activated p' = true
    /\ Position.trailing_distance p' = Some (Qabs (price - Position.current_stop p))
    /\ Position.lowest_price p' = Some price
    /\ Position.current_stop p' = Position.current_stop p
    /\ short_invariant p'.
Proof.
  intros Hside Hact Hprofit Hstop.
  unfold Position.update_trailing_stop.
  rewrite Hact. position_simpl.
  apply Qgeb_iff in Hprofit. rewrite Hprofit.
  position_simpl. rewrite Hside.
  destruct (Qltb price price) eqn:Hlt; reflect_cmp; [lra|].
  eexists. split; [reflexivity|]. position_simpl. rewrite Hside.
  do 4 (split; [first [assumption | reflexivity]|]).
  exists price, (Qabs (price - Position.current_stop p)). position_simpl.
  rewrite Hside. repeat split.
  rewrite Qabs_neg by lra. lra.
Qed.

(** X1.  The mirror of the long's invariant.  On a short position that
    trails with [current_stop >= lowest_price + trailing_distance], or
    whose profit reaches the trigger at a price not above its stop,
    [update_trailing_stop] at any price returns a trailing position whose
    stop has not gone up and which satisfies the invariant; the activating
    call sets the distance to [|price - stop|] and the lowest price to the
    price, and leaves the stop where it was. *)
Theorem update_trailing_stop_short_invariant (p : Position.t) (price trig : Q)
    (Hside : Position.side p = SELL)
    (Hpre : short_precondition p price trig) :
  exists p',
    Position.update_trailing_stop p price trig = Returns p'
    /\ Position.trailing_activated p' = true
    /\ Position.current_stop p' <= Position.current_stop p
    /\ short_invariant p'
    /\ (Position.trailing_activated p = false ->
        Position.trailing_distance p' = Some (Qabs (price - Position.current_stop p))
        /\ Position.lowest_price p' = Some price
        /\ Position.current_stop p' = Position.current_stop p).
Proof.
  unfold short_precondition in Hpre.
  destruct (Position.trailing_activated p) eqn:Hact.
  - destruct (update_trailing_stop_short_trailing p price trig Hside Hact Hpre)
      as (p' & Hrun & Hact' & Hmono & Hinv).
    exists p'. repeat split; try assumption; discriminate.
  - destruct Hpre as [Hprofit Hstop].
    destruct (update_trailing_stop_short_activation p price trig Hside Hact Hprofit Hstop)
      as (p' & Hrun & Hact' & Hd & Hl & Hsame & Hinv).
    exists p'. repeat split; try assumption. rewrite Hsame. lra.
Qed.

(** A short entered at 100 with its stop at 102, at 98 under a trigger of
    2%. *)
Lemma update_trailing_stop_short_invariant_witness :
  exists p',
    Position.update_trailing_stop (short_at 98) 98 0.02 = Returns p'
    /\ Position.trailing_activated p' = true
    /\ Position.current_stop p' <= Position.current_stop (short_at 98)
    /\ short_invariant p'
    /\ (Position.trailing_activated (short_at 98) = false ->
        Position.trailing_distance p'
        = Some (Qabs (98 - Position.current_stop (short_at 98)))
        /\ Position.lowest_price p' = Some 98
        /\ Position.current_stop p' = Position.current_stop (short_at 98)).
Proof.
  apply (update_trailing_stop_short_invariant (short_at 98) 98 0.02).
  - reflexivity.
  - split; vm_compute; discriminate.
Defined.

Lemma same_holding_refl (p : Position.t) : same_holding p p.
Proof. unfold same_holding. repeat split. Qed.

Lemma same_holding_trans (p q r : Position.t) :
  same_holding p q -> same_holding q r -> same_holding p r.
Proof.
  unfold same_holding. intros H1 H2.
  decompose [and] H1. decompose [and] H2. repeat split; congruence.
Qed.

Lemma update_unrealized_pnl_holding (p p' : Position.t) (price : Q) :
  Position.update_unrealized_pnl p price = Returns p' ->
  same_holding p p'
  /\ Position.current_stop p' = Position.current_stop p
  /\ Position.trailing_activated p' = Position.trailing_activated p.
Proof.
  unfold Position.update_unrealized_pnl, decimal_div.
  destruct (Qzerob _); position_simpl; [discriminate|].
  destruct (fits_percentage _); [|discriminate].
  intros [= <-]. unfold same_holding. position_simpl. repeat split.
Qed.

Lemma update_trailing_stop_ratchet_steps (p p' : Position.t) (price trig : Q) :
  Position.update_trailing_stop p price trig = Returns p' ->
  same_holding p p' /\ stop_not_looser p p'
  /\ (Position.trailing_activated p = true -> Position.trailing_activated p' = true).
Proof.
  intros Hrun.
  unfold Position.update_trailing_stop in Hrun. unfold stop_not_looser.
  set (q := if negb (Position.trailing_activated p)
               && Qgeb (Position.unrealized_pnl_pct p) (trig * 100)
            then Position.activate p price else p) in *.
  assert (Hq : same_holding p q
               /\ Position.current_stop q = Position.current_stop p
               /\ (Position.trailing_activated p = true ->
                   Position.trailing_activated q = true)).
  { subst q. destruct (negb _ && Qgeb _ _).
    - unfold same_holding. position_simpl. repeat split.
    - split; [apply same_holding_refl|]. split; [reflexivity|]. tauto. }
  destruct Hq as (Hhold & Hstop & Hact).
  assert (Hside : Position.side q = Position.side p) by (apply Hhold).
  assert (Hdone : forall r,
            same_holding q r ->
            match Position.side q with
            | BUY => Position.current_stop q <= Position.current_stop r
            | SELL => Position.current_stop r <= Position.current_stop q
            end ->
            Position.trailing_activated r = Position.trailing_activated q ->
            Returns r = Returns p' ->
            same_holding p p'
            /\ match Position.side p with
               | BUY => Position.current_stop p <= Position.current_stop p'
               | SELL => Position.current_stop p' <= Position.current_stop p
               end
            /\ (Position.trailing_activated p = true ->
                Position.trailing_activated p' = true)).
  { intros r Hr Hs Ha [= <-]. rewrite Hside, Hstop in Hs.
    split; [eapply same_holding_trans; eassumption|].
    split; [exact Hs|]. intros H. rewrite Ha. auto. }
  destruct (Position.trailing_activated q) eqn:Hqa.
  - destruct (Position.side q) eqn:Hqs.
    + destruct (Qgtb price _) eqn:Hgt.
      * unfold Position.the_distance in Hrun. position_simpl.
        destruct (Position.trailing_distance q) as [d|]; position_simpl;
          [|discriminate Hrun].
        destruct (Qgtb (price - d) (Position.current_stop q)) eqn:Hnew; reflect_cmp.
        -- refine (Hdone _ _ _ _ Hrun); position_simpl;
             [unfold same_holding; position_simpl; repeat split | lra | assumption].
        -- refine (Hdone _ _ _ _ Hrun); position_simpl;
             [unfold same_holding; position_simpl; repeat split | lra | assumption].
      * refine (Hdone q _ _ _ Hrun); [apply same_holding_refl | lra | assumption].
    + destruct (match Position.lowest_price q with
                | Some l => Qltb price l | None => true end) eqn:Hlt.
      * unfold Position.the_distance in Hrun. position_simpl.
        destruct (Position.trailing_distance q) as [d|]; position_simpl;
          [|discriminate Hrun].
        destruct (Qltb (price + d) (Position.current_stop q)) eqn:Hnew; reflect_cmp.
        -- refine (Hdone _ _ _ _ Hrun); position_simpl;
             [unfold same_holding; position_simpl; repeat split | lra | assumption].
        -- refine (Hdone _ _ _ _ Hrun); position_simpl;
             [unfold same_holding; position_simpl; repeat split | lra | assumption].
      * refine (Hdone q _ _ _ Hrun); [apply same_holding_refl | lra | assumption].
  - refine (Hdone q _ _ _ Hrun);
      [apply same_holding_refl | destruct (Position.side q); lra | assumption].
Qed.


(** X2.  Whatever the position, the price and the trigger, a call of
    [update_trailing_stop] that returns has only tightened the stop (not
    lower for a long, not higher for a short) and has not switched
    trailing off; the holding itself (trades, symbol, side, quantity,
    entry price, initial stop, take-profit, status, timestamps) is the
    same, so the call never closes a position. *)
Theorem update_trailing_stop_ratchet (p p' : Position.t) (price trig : Q)
    (Hrun : Position.update_trailing_stop p price trig = Returns p') :
  same_holding p p'
  /\ stop_not_looser p p'
  /\ (Position.trailing_activated p = true -> Position.trailing_activated p' = true).
Proof. exact (update_trailing_stop_ratchet_steps p p' price trig Hrun). Qed.

(** The long of the scenario at 110, once trailing from 102. *)
Lemma update_trailing_stop_ratchet_witness :
  same_holding (long_at 102) (Position.activate (long_at 102) 102)
  /\ stop_not_looser (long_at 102) (Position.activate (long_at 102) 102)
  /\ (Position.trailing_activated (long_at 102) = true ->
      Position.trailing_activated (Position.activate (long_at 102) 102) = true).
Proof.
  apply (update_trailing_stop_ratchet (long_at 102) _ 102 0.02).
  vm_compute. reflexivity.
Defined.

(** ** The monitor's pass over the open positions *)

Lemma stop_not_looser_same (p p' : Position.t) :
  Position.current_stop p' = Position.current_stop p -> stop_not_looser p p'.
Proof. unfold stop_not_looser. intros ->. destruct (Position.side p); lra. Qed.

Lemma stop_not_looser_trans (p q r : Position.t) :
  Position.side q = Position.side p ->
  stop_not_looser p q -> stop_not_looser q r -> stop_not_looser p r.
Proof.
  unfold stop_not_looser. intros ->. destruct (Position.side p); lra.
Qed.

Lemma open_positions_rows (db : gmap Z Position.t) (id : Z) (p : Position.t) :
  (id, p) ∈ RiskManager.open_positions db ->
  db !! id = Some p /\ Position.status p = Position.OPEN.
Proof.
  unfold RiskManager.open_positions.
  rewrite merge_sort_Permutation, list_elem_of_filter, elem_of_map_to_list.
  cbn [snd]. intros [Hopen Hrow]. split; [exact Hrow|].
  destruct (Position.status p); [reflexivity | discriminate Hopen].
Qed.

(** What the loop does to the table: a row is either as it was, or the
    update of a listed position; rows of positions it has no price for are
    as they were. *)
Lemma update_each_rows (self : RiskManager.t) (prices : gmap string Q)
    (positions : list (Z * Position.t)) :
  forall db count r db',
    RiskManager.update_each self prices positions db count = (r, db') ->
    (forall id,
       (forall p, (id, p) ∈ positions -> prices !! Position.symbol p = None) ->
       db' !! id = db !! id)
    /\ (forall id p', db' !! id = Some p' ->
          db !! id = Some p'
          \/ exists p, (id, p) ∈ positions /\ same_holding p p' /\ stop_not_looser p p')
    /\ (forall id, is_Some (db' !! id) ->
          is_Some (db !! id) \/ exists p, (id, p) ∈ positions)
    /\ match r with
       | Returns n => (count <= n <= count + Z.of_nat (length positions))%Z
       | Raises _ => True
       end.
Proof.
  induction positions as [|[id0 p0] positions IH]; intros db count r db' Hrun;
    cbn [RiskManager.update_each] in Hrun.
  - injection Hrun as <- <-. repeat split; auto; cbn [length]; lia.
  - assert (Hweaken : forall db1 n1 k,
      RiskManager.update_each self prices positions db1 n1 = (r, db') ->
      (count <= n1 <= count + 1)%Z ->
      (forall id, id <> id0 -> db1 !! id = db !! id) ->
      (db1 !! id0 = db !! id0 /\ k = 0%nat
       \/ exists p1, db1 !! id0 = Some p1 /\ same_holding p0 p1 /\ stop_not_looser p0 p1
                     /\ is_Some (prices !! Position.symbol p0)) ->
      (forall id,
         (forall p, (id, p) ∈ (id0, p0) :: positions -> prices !! Position.symbol p = None) ->
         db' !! id = db !! id)
      /\ (forall id p', db' !! id = Some p' ->
            db !! id = Some p'
            \/ exists p, (id, p) ∈ (id0, p0) :: positions
                         /\ same_holding p p' /\ stop_not_looser p p')
      /\ (forall id, is_Some (db' !! id) ->
            is_Some (db !! id) \/ exists p, (id, p) ∈ (id0, p0) :: positions)
      /\ match r with
         | Returns n => (count <= n <= count + Z.of_nat (length ((id0, p0) :: positions)))%Z
         | Raises _ => True
         end).
    { intros db1 n1 k Hrest Hn Hother Hid0.
      destruct (IH _ _ _ _ Hrest) as (Hskip & Hrows & Hdom & Hcount).
      split; [|split; [|split]].
      - intros id Hnone. rewrite Hskip by (intros p Hp; apply Hnone; right; exact Hp).
        destruct (decide (id = id0)) as [->|Hne]; [|auto].
        destruct Hid0 as [[Heq _]|(p1 & _ & _ & _ & Hprice)]; [exact Heq|].
        rewrite (Hnone p0) in Hprice by left. destruct Hprice; discriminate.
      - intros id p' Hp'. destruct (Hrows id p' Hp') as [Hold|(p & Hin & Hh & Hs)].
        + destruct (decide (id = id0)) as [->|Hne]; [|left; rewrite <- Hother; auto].
          destruct Hid0 as [[Heq _]|(p1 & Hp1 & Hh & Hs & _)].
          * left. congruence.
          * right. exists p0. split; [left|]. rewrite Hp1 in Hold.
            injection Hold as <-. auto.
        + right. exists p. split; [right; exact Hin|auto].
      - intros id Hsome. destruct (Hdom id Hsome) as [Hold|[p Hin]].
        + destruct (decide (id = id0)) as [->|Hne]; [|left; rewrite <- Hother; auto].
          destruct Hid0 as [[Heq _]|_]; [left; congruence|].
          right. exists p0. left.
        + right. exists p. right. exact Hin.
      - destruct r; [|exact I]. cbn [length]. lia. }
    destruct (prices !! Position.symbol p0) as [price|] eqn:Hprice.
    + destruct (Position.update_unrealized_pnl p0 price) as [p1|e] eqn:Hpnl.
      * destruct (update_unrealized_pnl_holding _ _ _ Hpnl) as (Hh1 & Hs1 & Ha1).
        destruct (Position.update_trailing_stop p1 price _) as [p2|e] eqn:Htrail.
        -- destruct (update_trailing_stop_ratchet_steps _ _ _ _ Htrail) as (Hh2 & Hs2 & _).
           apply (Hweaken _ _ 1%nat Hrun); [lia| |].
           ++ intros id Hne. rewrite !lookup_insert_ne by congruence. reflexivity.
           ++ right. exists p2. rewrite lookup_insert_eq. split; [reflexivity|].
              split; [eapply same_holding_trans; eassumption|].
              split; [|eauto].
              eapply stop_not_looser_trans; [apply Hh1| |exact Hs2].
              apply stop_not_looser_same. exact Hs1.
        -- injection Hrun as <- <-.
           split; [|split; [|split; [|exact I]]].
           ++ intros id Hnone. destruct (decide (id = id0)) as [->|Hne].
              ** rewrite (Hnone p0) in Hprice by left. discriminate.
              ** apply lookup_insert_ne. congruence.
           ++ intros id p' Hp'. destruct (decide (id = id0)) as [->|Hne].
              ** rewrite lookup_insert_eq in Hp'. injection Hp' as <-.
                 right. exists p0. split; [left|]. split; [exact Hh1|].
                 apply stop_not_looser_same. exact Hs1.
              ** rewrite lookup_insert_ne in Hp' by congruence. left. exact Hp'.
           ++ intros id Hsome. destruct (decide (id = id0)) as [->|Hne].
              ** right. exists p0. left.
              ** rewrite lookup_insert_ne in Hsome by congruence. left. exact Hsome.
      * injection Hrun as <- <-.
        split; [auto|]. split; [auto|]. split; [auto|exact I].
    + apply (Hweaken _ _ 0%nat Hrun); [lia|auto|left; auto].
Qed.

Lemma update_each_keeps_rows (self : RiskManager.t) (prices : gmap string Q)
    (positions : list (Z * Position.t)) :
  forall db count r db' id,
    RiskManager.update_each self prices positions db count = (r, db') ->
    is_Some (db !! id) -> is_Some (db' !! id).
Proof.
  induction positions as [|[id0 p0] positions IH]; intros db count r db' id Hrun Hsome;
    cbn [RiskManager.update_each] in Hrun.
  - injection Hrun as <- <-. exact Hsome.
  - assert (Hins : forall q, is_Some (<[id0 := q]> db !! id)).
    { intros q. destruct (decide (id0 = id)) as [->|Hne].
      - rewrite lookup_insert_eq. eauto.
      - rewrite lookup_insert_ne by exact Hne. exact Hsome. }
    destruct (prices !! Position.symbol p0) as [price|]; [|eauto].
    destruct (Position.update_unrealized_pnl p0 price) as [p1|e];
      [|injection Hrun as <- <-; exact Hsome].
    destruct (Position.update_trailing_stop p1 price _) as [p2|e].
    + eapply IH; [exact Hrun|].
      destruct (decide (id0 = id)) as [->|Hne].
      * rewrite lookup_insert_eq. eauto.
      * rewrite lookup_insert_ne by exact Hne. apply Hins.
    + injection Hrun as <- <-. apply Hins.
Qed.

(** X3.  A pass of [update_trailing_stops] closes nothing and loosens no
    stop: every row of the table is still there with the same holding
    (status included) and a stop that is not looser, no row is added, rows
    that are CLOSED or whose symbol has no price are exactly as they were,
    and the count returned is between 0 and the number of open
    positions. *)
Theorem update_trailing_stops_never_closes (self : RiskManager.t)
    (db : gmap Z Position.t) (prices : gmap string Q) :
  let result := RiskManager.update_trailing_stops self db prices in
  (forall id,
     match db !! id with
     | Some p => exists p', result.2 !! id = Some p'
                            /\ same_holding p p' /\ stop_not_looser p p'
     | None => result.2 !! id = None
     end)
  /\ (forall id p,
        db !! id = Some p ->
        Position.status p = Position.CLOSED \/ prices !! Position.symbol p = None ->
        result.2 !! id = Some p)
  /\ (0 <= result.1 <= Z.of_nat (length (RiskManager.open_positions db)))%Z.
Proof.
  intros result. subst result. unfold RiskManager.update_trailing_stops.
  destruct (RiskManager.update_each self prices (RiskManager.open_positions db) db 0)
    as [r db'] eqn:Hrun.
  destruct (update_each_rows _ _ _ _ _ _ _ Hrun) as (Hskip & Hrows & Hdom & Hcount).
  assert (Hdb' : (let (o, db0) := (r, db') in
                  match o with Returns n => (n, db0) | Raises _ => (0%Z, db0) end).2 = db')
    by (destruct r; reflexivity).
  assert (Hn : (0 <= (let (o, db0) := (r, db') in
                      match o with Returns n => (n, db0) | Raises _ => (0%Z, db0) end).1
                <= Z.of_nat (length (RiskManager.open_positions db)))%Z)
    by (destruct r; cbn [fst]; lia).
  cbn beta iota in Hdb', Hn |- *.
  destruct r as [n|e]; cbn [fst snd] in *.
  all: split; [|split; [|exact Hn]].
  all: try (intros id; destruct (db !! id) as [p|] eqn:Hp;
    [ destruct (update_each_keeps_rows _ _ _ _ _ _ _ id Hrun) as [p' Hp'];
        [rewrite Hp; eauto|];
      exists p'; split; [exact Hp'|];
      destruct (Hrows id p' Hp') as [Hold | (p0 & Hin & Hh & Hs)];
        [ rewrite Hp in Hold; injection Hold as <-;
          split; [apply same_holding_refl | apply stop_not_looser_same; reflexivity]
        | apply open_positions_rows in Hin; destruct Hin as [Hin _];
          rewrite Hp in Hin; injection Hin as <-; auto ]
    | destruct (db' !! id) as [p'|] eqn:Hp'; [|reflexivity];
      destruct (Hdom id) as [[p Hold] | [p Hin]]; [eauto | congruence |];
      apply open_positions_rows in Hin; destruct Hin as [Hin _]; congruence ]).
  all: intros id p Hp Hwhy; rewrite Hskip; [exact Hp|];
    intros p0 Hin; apply open_positions_rows in Hin; destruct Hin as [Hin Hopen];
    rewrite Hp in Hin; injection Hin as <-;
    destruct Hwhy as [Hclosed | Hnone]; [congruence | exact Hnone].
Qed.

(** ** The daily risk state, further *)




(** X5.  [get_or_create_today] creates at most once: the row it returns
    is the one stored under today's date, a second call returns that same
    row and leaves the table as it is whatever starting balance it is
    given, and a row that was already there is returned untouched, the
    starting balance being ignored. *)
Theorem get_or_create_today_once (db db' : RiskState.table) (row : RiskState.t)
    (starting_balance starting_balance' : option Q)
    (Hfirst : RiskState.get_or_create_today db starting_balance = Returns (row, db')) :
  RiskState.rows db' !! RiskState.today db' = Some row
  /\ RiskState.get_or_create_today db' starting_balance' = Returns (row, db')
  /\ (forall existing,
        RiskState.rows db !! RiskState.today db = Some existing ->
        row = existing /\ db' = db)
  /\ (RiskState.rows db !! RiskState.today db = None ->
      row = RiskState.created (RiskState.today db) starting_balance).
Proof.
  unfold RiskState.get_or_create_today in *.
  destruct (RiskState.available db) eqn:Hav; [|discriminate Hfirst].
  destruct (RiskState.rows db !! RiskState.today db) as [existing|] eqn:Hrow.
  - injection Hfirst as <- <-. rewrite Hav, Hrow.
    repeat split; congruence.
  - injection Hfirst as <- <-.
    cbn [RiskState.write RiskState.available RiskState.today RiskState.rows
         RiskState.created RiskState.date].
    rewrite Hav, lookup_insert_eq.
    repeat split; congruence.
Qed.

Lemma get_or_create_today_once_witness :
  RiskState.rows peaked_table !! RiskState.today peaked_table = Some peaked_day
  /\ RiskState.get_or_create_today peaked_table (Some 1) = Returns (peaked_day, peaked_table)
  /\ (forall existing,
        RiskState.rows peaked_table !! RiskState.today peaked_table = Some existing ->
        peaked_day = existing /\ peaked_table = peaked_table)
  /\ (RiskState.rows peaked_table !! RiskState.today peaked_table = None ->
      peaked_day = RiskState.created (RiskState.today peaked_table) (Some 20000)).
Proof.
  apply (get_or_create_today_once peaked_table peaked_table peaked_day (Some 20000) (Some 1)).
  reflexivity.
Defined.

(** ** Who may trade, and when *)

Lemma get_or_create_today_raises (db : RiskState.table) (e : string) :
  RiskState.get_or_create_today db None = Raises e -> RiskState.available db = false.
Proof.
  unfold RiskState.get_or_create_today. destruct (RiskState.available db); [|reflexivity].
  destruct (RiskState.rows db !! RiskState.today db); discriminate.
Qed.

(** X6.  [is_trading_allowed] allows trading in two cases only: a step
    of the check raised, or the cache (when there is one) reports ACTIVE
    and today's risk state is ACTIVE.  In every other case it refuses. *)
Theorem is_trading_allowed_iff (self : RiskManager.t) (db : RiskState.table) :
  (RiskManager.is_trading_allowed self db).1.1 = true
  <-> step_raises self db
      \/ ((RiskManager.redis_cache self = None
           \/ exists cache,
                RiskManager.redis_cache self = Some cache
                /\ RedisCache.is_trading_active cache 0 = Returns true)
          /\ exists risk_state db',
               RiskState.get_or_create_today db None = Returns (risk_state, db')
               /\ RiskState.system_status risk_state = RiskState.ACTIVE).
Proof.
  unfold RiskManager.is_trading_allowed.
  destruct (RiskManager.is_trading_allowed_try self db) as [result|e] eqn:Htry.
  - split.
    + intros Htrue. right.
      unfold RiskManager.is_trading_allowed_try in Htry.
      assert (Hstore : forall c,
                (RiskState.get_or_create_today db None ≫= c) = Returns result ->
                (forall risk_state db0,
                   c (risk_state, db0)
                   = match RiskState.system_status risk_state with
                     | RiskState.ACTIVE => Returns (true, "", db0)
                     | RiskState.PAUSED =>
                         Returns (false, RiskState.pause_reason risk_state, db0)
                     | RiskState.EMERGENCY_STOP => Returns (false, "Emergency stop active", db0)
                     end) ->
                exists risk_state db',
                  RiskState.get_or_create_today db None = Returns (risk_state, db')
                  /\ RiskState.system_status risk_state = RiskState.ACTIVE).
      { intros c Hc Hdef.
        destruct (RiskState.get_or_create_today db None) as [[risk_state db0]|e];
          cbn [mbind outcome_bind] in Hc; [|discriminate Hc].
        rewrite Hdef in Hc. exists risk_state, db0. split; [reflexivity|].
        destruct (RiskState.system_status risk_state); [reflexivity| |];
          injection Hc as <-; discriminate Htrue. }
      destruct (RiskManager.redis_cache self) as [cache|] eqn:Hcache.
      * destruct (RedisCache.is_trading_active cache 0) as [[|]|e] eqn:Hactive;
          cbn [mbind outcome_bind negb] in Htry.
        -- split; [right; eauto|]. eapply Hstore; [exact Htry|]. intros; reflexivity.
        -- destruct (RedisCache.get_system_status cache 1) as [status|e];
             cbn [mbind outcome_bind] in Htry; [|discriminate Htry].
           injection Htry as <-. discriminate Htrue.
        -- discriminate Htry.
      * cbn [mbind outcome_bind] in Htry.
        split; [left; reflexivity|]. eapply Hstore; [exact Htry|]. intros; reflexivity.
    + intros [Hraises | (Hcache & risk_state & db' & Hget & Hstatus)].
      * apply is_trading_allowed_try_raises in Hraises. destruct Hraises as [e He].
        congruence.
      * unfold RiskManager.is_trading_allowed_try in Htry.
        destruct Hcache as [Hnone | (cache & Hsome & Hactive)].
        -- rewrite Hnone in Htry. cbn [mbind outcome_bind] in Htry.
           rewrite Hget in Htry. cbn [mbind outcome_bind] in Htry.
           rewrite Hstatus in Htry. injection Htry as <-. reflexivity.
        -- rewrite Hsome, Hactive in Htry. cbn [mbind outcome_bind negb] in Htry.
           rewrite Hget in Htry. cbn [mbind outcome_bind] in Htry.
           rewrite Hstatus in Htry. injection Htry as <-. reflexivity.
  - split; [|reflexivity]. intros _. left.
    apply is_trading_allowed_try_raises. eauto.
Qed.

(** X7.  The cache is asked first and its answer is final: when it holds
    a status other than ACTIVE, or no status at all, trading is refused
    with the cached reason ("System paused" when the object has none, the
    empty string when nothing is stored), and the relational store is
    neither read nor written, whatever state it is in. *)
Theorem is_trading_allowed_cache_first (self : RiskManager.t) (db : RiskState.table)
    (cache : RedisCache.t) (stored stored' : option (gmap string string))
    (Hcache : RiskManager.redis_cache self = Some cache)
    (Hfirst : RedisCache.client_get_status cache 0 = Returns stored)
    (Hsecond : RedisCache.client_get_status cache 1 = Returns stored')
    (Hinactive : match stored with
                 | Some status => status !! "status" <> Some "ACTIVE"
                 | None => True
                 end) :
  RiskManager.is_trading_allowed self db
  = ((false,
      match stored' with
      | Some status => default "System paused" (status !! "reason")
      | None => ""
      end), db).
Proof.
  unfold RiskManager.is_trading_allowed, RiskManager.is_trading_allowed_try.
  rewrite Hcache. unfold RedisCache.is_trading_active, RedisCache.get_system_status.
  rewrite Hfirst, Hsecond. cbn [mbind outcome_bind].
  destruct stored as [status|]; cbn [mbind outcome_bind].
  - rewrite bool_decide_eq_false_2 by exact Hinactive. cbn [negb].
    destruct stored' as [status'|]; reflexivity.
  - rewrite bool_decide_eq_false_2 by (vm_compute; discriminate). cbn [negb].
    destruct stored' as [status'|]; reflexivity.
Qed.

(** A reachable cache that holds nothing, and a store that cannot be
    reached. *)
Lemma is_trading_allowed_cache_first_witness :
  RiskManager.is_trading_allowed
    (RiskManager.mk None (Some empty_cache) 0.015 0.002 0.02 0.05)
    (RiskState.mk_table false 0 ∅)
  = ((false, ""), RiskState.mk_table false 0 ∅).
Proof.
  apply (is_trading_allowed_cache_first _ _ empty_cache None None);
    [reflexivity | reflexivity | reflexivity | exact I].
Defined.

(** ** Slippage admission, further *)

(** X8.  [check_slippage] fails closed.  It accepts an order only when
    it got hold of a book whose consumed side is not empty, the ladder
    filled the quantity and the slippage is within the limit; a missing
    book, an empty ladder or any exception on the way (the cache, the
    exchange, a division) gives a result that is not acceptable. *)
Theorem check_slippage_fails_closed (self : RiskManager.t) (symbol : string)
    (side : Side) (quantity : Q) (order_book : option OrderBook)
    (Haccept : RiskManager.is_acceptable
                 (RiskManager.check_slippage self symbol side quantity order_book) = true) :
  let result := RiskManager.check_slippage self symbol side quantity order_book in
  RiskManager.sufficient_liquidity result = true
  /\ RiskManager.estimated_slippage_pct result <= RiskManager.max_slippage_pct self * 100
  /\ RiskManager.reason result = RiskManager.SlippageAcceptable
  /\ exists book,
       RiskManager.obtain_order_book self symbol order_book = Returns (Some book)
       /\ ladder side book <> []
       /\ (RiskManager.walk (ladder side book) quantity 0).1 <= 0.
Proof.
  intros result. subst result. revert Haccept.
  unfold RiskManager.check_slippage, RiskManager.check_slippage_try.
  destruct (RiskManager.obtain_order_book self symbol order_book) as [[book|]|e];
    cbn [mbind outcome_bind RiskManager.is_acceptable]; try discriminate.
  fold (ladder side book).
  destruct (ladder side book) as [|[best_price best_qty] rest] eqn:Hladder;
    cbn [RiskManager.is_acceptable]; try discriminate.
  destruct (RiskManager.walk ((best_price, best_qty) :: rest) quantity 0)
    as [remaining_qty total_cost] eqn:Hwalk.
  destruct (Qgtb remaining_qty 0) eqn:Hrem; cbn [RiskManager.is_acceptable];
    try discriminate.
  unfold decimal_div.
  destruct (Qzerob quantity); cbn [mbind outcome_bind RiskManager.is_acceptable];
    try discriminate.
  destruct (Qzerob best_price); cbn [mbind outcome_bind RiskManager.is_acceptable];
    try discriminate.
  intros Hok. rewrite Hok.
  cbn [RiskManager.sufficient_liquidity RiskManager.estimated_slippage_pct
       RiskManager.reason].
  reflect_cmp.
  split; [reflexivity|]. split; [exact Hok|]. split; [reflexivity|].
  exists book. split; [reflexivity|]. split; [congruence|].
  rewrite Hladder, Hwalk. exact Hrem.
Qed.

(** A SELL of 2 units into three bids half a per cent apart is within a
    limit of 1%. *)
Lemma check_slippage_fails_closed_witness :
  let self := RiskManager.mk None None 0.015 0.01 0.02 0.05 in
  let book := mk_book [(100, 1); (99.5, 1); (99, 1)] [] in
  let result := RiskManager.check_slippage self "ETHUSDT" SELL 2 (Some book) in
  RiskManager.sufficient_liquidity result = true
  /\ RiskManager.estimated_slippage_pct result <= RiskManager.max_slippage_pct self * 100
  /\ RiskManager.reason result = RiskManager.SlippageAcceptable
  /\ exists book0,
       RiskManager.obtain_order_book self "ETHUSDT" (Some book) = Returns (Some book0)
       /\ ladder SELL book0 <> []
       /\ (RiskManager.walk (ladder SELL book0) 2 0).1 <= 0.
Proof.
  intros self book.
  apply (check_slippage_fails_closed self "ETHUSDT" SELL 2 (Some book)).
  vm_compute. reflexivity.
Defined.

(** ** Triggering the circuit breaker *)

Lemma get_or_create_today_saved (db : RiskState.table) (row : RiskState.t)
    (starting_balance : option Q) :
  RiskState.available db = true ->
  RiskState.date row = RiskState.today db ->
  RiskState.get_or_create_today (RiskState.write db row) starting_balance
  = Returns (row, RiskState.write db row).
Proof.
  intros Hav Hdate. unfold RiskState.get_or_create_today, RiskState.write.
  cbn [RiskState.available RiskState.today RiskState.rows].
  rewrite Hav, Hdate, lookup_insert_eq. reflexivity.
Qed.

(** X9.  The breaker latches when the paused row fits its columns.  With
    a reachable store whose row for today carries today's date: if the
    row with the reason of the call fits (its three percentages, and a
    reason of at most 200 characters), [trigger_circuit_breaker] leaves
    that row PAUSED with the reason and the time of the call, whatever the
    exchange and the cache answer; every trading pair has its cancellation
    attempted, a failing one not stopping the others; the call returns
    [True] unless the cache write raises; from then on
    [check_circuit_breaker] answers [True] for any balance without
    touching the row, and [is_trading_allowed] of a manager without cache
    refuses with that reason.  If the row does not fit, its [save] raises:
    the call returns [False], the table is as it was, and no cancellation
    is attempted. *)
Theorem trigger_circuit_breaker_latches (self : RiskManager.t)
    (cancel_all_orders : string -> outcome (list Z))
    (set_system_status : string -> string -> outcome unit)
    (trading_pairs : list string) (db : RiskState.table) (reason : string) (now : Z)
    (risk_state : RiskState.t) (db0 : RiskState.table)
    (Hget : RiskState.get_or_create_today db None = Returns (risk_state, db0))
    (Hdate : RiskState.date risk_state = RiskState.today db) :
  let '(ok, db', cancelled) :=
    trigger_circuit_breaker self cancel_all_orders set_system_status trading_pairs
      db reason now in
  let paused := RiskState.trigger_circuit_breaker_fields risk_state reason now in
  RiskState.storable paused
  = fits_percentage (RiskState.daily_pnl_pct risk_state)
    && fits_percentage (RiskState.drawdown_pct risk_state)
    && fits_percentage (RiskState.max_drawdown_pct risk_state)
    && fits_text 200 reason
  /\ if RiskState.storable paused
     then
       db' = RiskState.write db0 paused
       /\ RiskState.system_status paused = RiskState.PAUSED
       /\ RiskState.pause_reason paused = reason
       /\ RiskState.paused_at paused = Some now
       /\ RiskState.current_balance paused = RiskState.current_balance risk_state
       /\ (ok = true <->
           RiskManager.redis_cache self = None
           \/ returned (set_system_status "PAUSED" reason) = true)
       /\ (forall symbol,
             symbol ∈ cancelled <->
             is_Some (RiskManager.binance_client self)
             /\ symbol ∈ trading_pairs
             /\ returned (cancel_all_orders symbol) = true)
       /\ (forall (other : RiskManager.t) (balance : option Q),
             RiskManager.check_circuit_breaker other db' balance
             = ((true, RiskManager.AlreadyPaused reason), db'))
       /\ (forall other : RiskManager.t,
             RiskManager.redis_cache other = None ->
             RiskManager.is_trading_allowed other db' = ((false, reason), db'))
     else ok = false /\ db' = db0 /\ cancelled = [].
Proof.
  unfold trigger_circuit_breaker. rewrite Hget.
  assert (Hav : RiskState.available db0 = true /\ RiskState.today db0 = RiskState.today db).
  { unfold RiskState.get_or_create_today in Hget.
    destruct (RiskState.available db) eqn:Hav; [|discriminate Hget].
    destruct (RiskState.rows db !! RiskState.today db);
      injection Hget as <- <-; split; assumption || reflexivity. }
  destruct Hav as [Hav Htoday].
  unfold RiskState.trigger_circuit_breaker, RiskState.save. rewrite Hav. cbn [negb].
  set (paused := RiskState.trigger_circuit_breaker_fields risk_state reason now).
  assert (Hlatched : RiskState.get_or_create_today (RiskState.write db0 paused) None
                     = Returns (paused, RiskState.write db0 paused)).
  { apply get_or_create_today_saved; [exact Hav|]. rewrite Htoday. exact Hdate. }
  assert (Hcancel : forall symbol,
    symbol ∈ match RiskManager.binance_client self with
             | Some _ => cancel_each cancel_all_orders trading_pairs
             | None => []
             end
    <-> is_Some (RiskManager.binance_client self)
        /\ symbol ∈ trading_pairs /\ returned (cancel_all_orders symbol) = true).
  { intros symbol. destruct (RiskManager.binance_client self) as [client|].
    - unfold cancel_each. rewrite list_elem_of_filter. split.
      + intros [Hr Hin]. eauto.
      + intros (_ & Hin & Hr). auto.
    - split; [intros Hin; inversion Hin | intros ([? Hs] & _); discriminate Hs]. }
  assert (Htail :
    RiskState.system_status paused = RiskState.PAUSED
    /\ RiskState.pause_reason paused = reason
    /\ RiskState.paused_at paused = Some now
    /\ RiskState.current_balance paused = RiskState.current_balance risk_state)
    by (repeat split).
  assert (Hafter :
    (forall (other : RiskManager.t) (balance : option Q),
       RiskManager.check_circuit_breaker other (RiskState.write db0 paused) balance
       = ((true, RiskManager.AlreadyPaused reason), RiskState.write db0 paused))
    /\ (forall other : RiskManager.t,
          RiskManager.redis_cache other = None ->
          RiskManager.is_trading_allowed other (RiskState.write db0 paused)
          = ((false, reason), RiskState.write db0 paused))).
  { split.
    - intros other balance. unfold RiskManager.check_circuit_breaker.
      rewrite Hlatched. reflexivity.
    - intros other Hnone.
      unfold RiskManager.is_trading_allowed, RiskManager.is_trading_allowed_try.
      rewrite Hnone. cbn [mbind outcome_bind]. rewrite Hlatched. reflexivity. }
  destruct Hafter as [Hcheck Hallowed]. destruct Htail as (H1 & H2 & H3 & H4).
  destruct (RiskState.storable paused) eqn:Hfit.
  - destruct (RiskManager.redis_cache self) as [cache|] eqn:Hcache;
      [destruct (set_system_status "PAUSED" reason) as [[]|e] eqn:Hset|];
      cbn [returned];
      (split; [symmetry; exact Hfit|]; split; [reflexivity|]; split; [exact H1|];
       split; [exact H2|]; split; [exact H3|]; split; [exact H4|];
       split; [|split; [exact Hcancel|]; split; [exact Hcheck | exact Hallowed]]).
    + split; auto.
    + split; [discriminate | intros [Hx|Hx]; discriminate Hx].
    + split; auto.
  - split; [symmetry; exact Hfit|]. repeat split.
Qed.

Lemma trigger_circuit_breaker_latches_witness :
  (let '(ok, db', cancelled) :=
     trigger_circuit_breaker manager_with_client cancel_but_eth cache_write
       ["BTCUSDT"; "ETHUSDT"; "BNBUSDT"] peaked_table "Daily drawdown" 900 in
   let paused := RiskState.trigger_circuit_breaker_fields peaked_day "Daily drawdown" 900 in
   RiskState.storable paused = true
   /\ db' = RiskState.write peaked_table paused
   /\ RiskState.system_status paused = RiskState.PAUSED
   /\ RiskState.pause_reason paused = "Daily drawdown"
   /\ RiskState.paused_at paused = Some 900%Z
   /\ RiskState.current_balance paused = RiskState.current_balance peaked_day
   /\ (ok = true <->
       RiskManager.redis_cache manager_with_client = None
       \/ returned (cache_write "PAUSED" "Daily drawdown") = true)
   /\ (forall symbol,
         symbol ∈ cancelled <->
         is_Some (RiskManager.binance_client manager_with_client)
         /\ symbol ∈ ["BTCUSDT"; "ETHUSDT"; "BNBUSDT"]
         /\ returned (cancel_but_eth symbol) = true)
   /\ (forall (other : RiskManager.t) (balance : option Q),
         RiskManager.check_circuit_breaker other db' balance
         = ((true, RiskManager.AlreadyPaused "Daily drawdown"), db'))
   /\ (forall other : RiskManager.t,
         RiskManager.redis_cache other = None ->
         RiskManager.is_trading_allowed other db' = ((false, "Daily drawdown"), db')))
  /\ String.length (retriggered 7 (RiskState.pause_reason paused_day)) = 202%nat
  /\ (let '(ok, db', cancelled) :=
        trigger_circuit_breaker manager_with_client cancel_but_eth cache_write
          ["BTCUSDT"; "ETHUSDT"; "BNBUSDT"] peaked_table
          (retriggered 7 (RiskState.pause_reason paused_day)) 900 in
      RiskState.storable
        (RiskState.trigger_circuit_breaker_fields peaked_day
           (retriggered 7 (RiskState.pause_reason paused_day)) 900) = false
      /\ ok = false /\ db' = peaked_table /\ cancelled = []).
Proof.
  split; [|split; [reflexivity|]].
  - exact (trigger_circuit_breaker_latches manager_with_client cancel_but_eth cache_write
             ["BTCUSDT"; "ETHUSDT"; "BNBUSDT"] peaked_table "Daily drawdown" 900
             peaked_day peaked_table eq_refl eq_refl).
  - exact (trigger_circuit_breaker_latches manager_with_client cancel_but_eth cache_write
             ["BTCUSDT"; "ETHUSDT"; "BNBUSDT"] peaked_table
             (retriggered 7 (RiskState.pause_reason paused_day)) 900
             peaked_day peaked_table eq_refl eq_refl).
Defined.

(** The six reruns of the paused day. *)
Lemma task_runs_repaused :
  task_runs default_manager cancel_all cache_write ["BTCUSDT"]
    (fun _ _ => "Daily drawdown exceeded") paused_table [560; 620; 680; 740; 800; 860]%Z
  = repaused_table.
Proof. reflexivity. Qed.

(** X10.  On a day that is already PAUSED the periodic task triggers
    again with the reason "System already paused: " followed by the reason
    the row had.  While the row with that longer reason fits its columns
    (the reason has at most 200 characters), the row is rewritten with it
    and with [paused_at] the time of this run, so the time of the first
    pause is lost.  Once it does not fit, the [save] raises and the run
    leaves the table as it was, with no cancellation attempted: from a
    reason of 41 characters the row is rewritten by six runs and kept by
    every later one. *)
Theorem check_circuit_breaker_task_retriggers (self : RiskManager.t)
    (cancel_all_orders : string -> outcome (list Z))
    (set_system_status : string -> string -> outcome unit)
    (trading_pairs : list string) (drawdown_message : Q -> Q -> string)
    (db : RiskState.table) (now : Z) (risk_state : RiskState.t)
    (Havailable : RiskState.available db = true)
    (Hrow : RiskState.rows db !! RiskState.today db = Some risk_state)
    (Hdate : RiskState.date risk_state = RiskState.today db)
    (Hpaused : RiskState.system_status risk_state = RiskState.PAUSED) :
  let '(reason, db', cancelled) :=
    check_circuit_breaker_task self cancel_all_orders set_system_status trading_pairs
      drawdown_message db now in
  let longer := "System already paused: " +:+ RiskState.pause_reason risk_state in
  reason = Some longer
  /\ if RiskState.storable (RiskState.trigger_circuit_breaker_fields risk_state longer now)
     then
       db' = RiskState.write db
               (RiskState.trigger_circuit_breaker_fields risk_state longer now)
       /\ exists row,
            RiskState.rows db' !! RiskState.today db' = Some row
            /\ RiskState.system_status row = RiskState.PAUSED
            /\ RiskState.pause_reason row = longer
            /\ RiskState.paused_at row = Some now
     else db' = db /\ cancelled = [].
Proof.
  assert (Hget : forall sb, RiskState.get_or_create_today db sb = Returns (risk_state, db)).
  { intros sb. unfold RiskState.get_or_create_today. rewrite Havailable, Hrow. reflexivity. }
  unfold check_circuit_breaker_task, RiskManager.check_circuit_breaker.
  rewrite Hget, Hpaused. cbn [breaker_reason_text].
  unfold trigger_circuit_breaker. rewrite Hget.
  unfold RiskState.trigger_circuit_breaker, RiskState.save. rewrite Havailable. cbn [negb].
  set (row := RiskState.trigger_circuit_breaker_fields risk_state _ now).
  assert (Hlookup : RiskState.rows (RiskState.write db row) !! RiskState.today (RiskState.write db row)
                    = Some row).
  { unfold RiskState.write. cbn [RiskState.rows RiskState.today].
    change (RiskState.date row) with (RiskState.date risk_state).
    rewrite Hdate. apply lookup_insert_eq. }
  destruct (RiskState.storable row) eqn:Hfit.
  - destruct (RiskManager.redis_cache self);
      [destruct (set_system_status _ _)|];
      (split; [reflexivity|]; split; [reflexivity|];
       exists row; split; [exact Hlookup|]; repeat split).
  - repeat split.
Qed.

Lemma check_circuit_breaker_task_retriggers_witness :
  (let '(reason, db', _) :=
     check_circuit_breaker_task default_manager cancel_all cache_write
       ["BTCUSDT"] (fun _ _ => "Daily drawdown exceeded") paused_table 560 in
   let longer := "System already paused: " +:+ RiskState.pause_reason paused_day in
   reason = Some longer
   /\ db' = RiskState.write paused_table
              (RiskState.trigger_circuit_breaker_fields paused_day longer 560)
   /\ exists row,
        RiskState.rows db' !! RiskState.today db' = Some row
        /\ RiskState.system_status row = RiskState.PAUSED
        /\ RiskState.pause_reason row = longer
        /\ RiskState.paused_at row = Some 560%Z)
  /\ String.length (RiskState.pause_reason repaused_day) = 179%nat
  /\ (let '(reason, db', cancelled) :=
        check_circuit_breaker_task default_manager cancel_all cache_write
          ["BTCUSDT"] (fun _ _ => "Daily drawdown exceeded") repaused_table 920 in
      reason = Some ("System already paused: " +:+ RiskState.pause_reason repaused_day)
      /\ db' = repaused_table /\ cancelled = []).
Proof.
  split; [|split; [reflexivity|]].
  - exact (check_circuit_breaker_task_retriggers default_manager cancel_all cache_write
             ["BTCUSDT"] (fun _ _ => "Daily drawdown exceeded")
             paused_table 560 paused_day eq_refl eq_refl eq_refl eq_refl).
  - exact (check_circuit_breaker_task_retriggers default_manager cancel_all cache_write
             ["BTCUSDT"] (fun _ _ => "Daily drawdown exceeded")
             repaused_table 920 repaused_day eq_refl eq_refl eq_refl eq_refl).
Defined.

(** ** Strength and validity of VPA signals *)

Lemma fmin_fmax_id (x : Q) : 0 <= x -> x <= 1 -> VPAAnalyzer.fmin (VPAAnalyzer.fmax x 0) 1 == x.
Proof.
  intros H0 H1. unfold VPAAnalyzer.fmin, VPAAnalyzer.fmax.
  destruct (Qgtb 0 x) eqn:E0; reflect_cmp; [lra|].
  destruct (Qltb 1 x) eqn:E1; reflect_cmp; lra.
Qed.

Lemma third (x : Q) : x / 3 == x * (1 # 3).
Proof. field. Qed.

Lemma volume_factor_range (v : Q) :
  0 <= VPAAnalyzer.fmin (Qabs v / 3) 1 <= 1.
Proof.
  pose proof (Qabs_nonneg v) as Hnn. pose proof (third (Qabs v)) as Ht.
  unfold VPAAnalyzer.fmin. destruct (Qltb 1 (Qabs v / 3)) eqn:E; reflect_cmp; split; lra.
Qed.

Lemma volume_factor_lower (v f0 : Q) :
  f0 <= 1 -> 3 * f0 <= Qabs v -> f0 <= VPAAnalyzer.fmin (Qabs v / 3) 1.
Proof.
  intros H1 Hv. pose proof (third (Qabs v)) as Ht. unfold VPAAnalyzer.fmin.
  destruct (Qltb 1 (Qabs v / 3)) eqn:E; reflect_cmp; lra.
Qed.

Lemma pattern_weights_range (p : VPAAnalyzer.VPAPattern) :
  0 <= VPAAnalyzer.pattern_weights p <= 0.9.
Proof. destruct p; cbn; lra. Qed.

Lemma calculate_strength_value (p : VPAAnalyzer.VPAPattern) (v s : Q) :
  VPAAnalyzer._calculate_strength p v s
  == VPAAnalyzer.pattern_weights p * (0.7 + 0.3 * VPAAnalyzer.fmin (Qabs v / 3) 1).
Proof.
  pose proof (volume_factor_range v) as [Hf0 Hf1].
  pose proof (pattern_weights_range p) as [Hw0 Hw1].
  unfold VPAAnalyzer._calculate_strength.
  destruct (VPAAnalyzer.VPAPattern_eqb p VPAAnalyzer.NEUTRAL) eqn:En.
  - destruct p; try discriminate En. cbn [VPAAnalyzer.pattern_weights]. lra.
  - apply fmin_fmax_id; nra.
Qed.

(** X11.  The strength of a signal is the weight of its pattern scaled
    by a factor between 0.7 and 1: it lies between 70% of the weight and
    the weight, never above 0.9, and is 0 for NEUTRAL; the clamp to [0, 1]
    never cuts. *)
Theorem calculate_strength_range (pattern : VPAAnalyzer.VPAPattern)
    (volume_anomaly spread_ratio : Q) :
  0.7 * VPAAnalyzer.pattern_weights pattern
  <= VPAAnalyzer._calculate_strength pattern volume_anomaly spread_ratio
  /\ VPAAnalyzer._calculate_strength pattern volume_anomaly spread_ratio
     <= VPAAnalyzer.pattern_weights pattern
  /\ VPAAnalyzer._calculate_strength pattern volume_anomaly spread_ratio <= 0.9
  /\ VPAAnalyzer._calculate_strength VPAAnalyzer.NEUTRAL volume_anomaly spread_ratio = 0.
Proof.
  pose proof (volume_factor_range volume_anomaly) as [Hf0 Hf1].
  pose proof (pattern_weights_range pattern) as [Hw0 Hw1].
  rewrite (calculate_strength_value pattern).
  repeat split; try nra.
Qed.

Lemma calculate_strength_lower (p : VPAAnalyzer.VPAPattern) (v s f0 : Q) :
  0 <= f0 -> f0 <= 1 -> 3 * f0 <= Qabs v ->
  VPAAnalyzer.pattern_weights p * (0.7 + 0.3 * f0)
  <= VPAAnalyzer._calculate_strength p v s.
Proof.
  intros H0 H1 Hv. rewrite calculate_strength_value.
  pose proof (volume_factor_lower v f0 H1 Hv) as Hf.
  pose proof (pattern_weights_range p) as [Hw0 Hw1]. nra.
Qed.

Lemma Qabs_ge_pos (v c : Q) : c <= v -> c <= Qabs v.
Proof. intros H. pose proof (Qle_Qabs v). lra. Qed.

Lemma Qabs_ge_neg (v c : Q) : v <= - c -> c <= Qabs v.
Proof.
  intros H. pose proof (Qle_Qabs (- v)) as Ha. rewrite Qabs_opp in Ha. lra.
Qed.

(** Every pattern the classifier assigns comes with a strength of at
    least one half. *)
Lemma identify_pattern_strength (v s c : Q) (is_bullish : bool) (trend : TrendDirection) :
  let p := VPAAnalyzer._identify_pattern v s c is_bullish trend in
  p = VPAAnalyzer.NEUTRAL \/ 0.5 <= VPAAnalyzer._calculate_strength p v s.
Proof.
  pose proof (Qabs_nonneg v) as Hnn.
  unfold VPAAnalyzer._identify_pattern, VPAAnalyzer.climax,
    VPAAnalyzer.ULTRA_HIGH_VOLUME, VPAAnalyzer.HIGH_VOLUME, VPAAnalyzer.LOW_VOLUME,
    VPAAnalyzer.ULTRA_LOW_VOLUME, VPAAnalyzer.WIDE_SPREAD, VPAAnalyzer.NARROW_SPREAD,
    VPAAnalyzer.UPPER_THIRD, VPAAnalyzer.LOWER_THIRD.
  cbv zeta.
  destruct (Qgeb v 2.5) eqn:E1, (Qgeb s 1.5) eqn:E2, is_bullish, trend;
    cbn [andb negb TrendDirection_eqb];
    try (right; eapply Qle_trans;
         [|apply (calculate_strength_lower _ v s 0); lra];
         cbn [VPAAnalyzer.pattern_weights]; lra).
  all: destruct (Qgeb v 1.5) eqn:E3; cbn [andb];
    [ destruct (Qleb s 0.5) eqn:E4;
      [| destruct (Qltb s 0.75) eqn:E5 ] | ];
    reflect_cmp;
    try (right; eapply Qle_trans;
         [|apply (calculate_strength_lower _ v s 0.5);
           [lra | lra | apply Qabs_ge_pos; lra]];
         cbn [VPAAnalyzer.pattern_weights]; lra).
  all: destruct (Qleb v (-0.5)) eqn:E6; cbn [andb];
    [ destruct (Qgeb c 0.67) eqn:E7, (Qleb c 0.33) eqn:E8 | ];
    reflect_cmp;
    try (right; eapply Qle_trans;
         [|apply (calculate_strength_lower _ v s (1 # 6));
           [lra | lra | apply Qabs_ge_neg; lra]];
         cbn [VPAAnalyzer.pattern_weights]; lra).
  all: destruct (Qleb v (-1.5)) eqn:E9; cbn [andb]; reflect_cmp;
    try (right; eapply Qle_trans;
         [|apply (calculate_strength_lower _ v s 0.5);
           [lra | lra | apply Qabs_ge_neg; lra]];
         cbn [VPAAnalyzer.pattern_weights]; lra).
  all: try destruct (Qgeb c 0.67) eqn:E7; try destruct (Qleb c 0.33) eqn:E8;
    destruct (Qgeb v 0) eqn:E10; cbn [andb]; reflect_cmp;
    try (left; reflexivity);
    try (right; eapply Qle_trans;
         [|apply (calculate_strength_lower _ v s 0); lra];
         cbn [VPAAnalyzer.pattern_weights]; lra).
Qed.

(** X12.  In what [analyze] returns, the strength threshold of
    [_is_valid_signal] never rejects anything: a signal is valid exactly
    when its pattern is not NEUTRAL (and never when there are fewer candles
    than the lookback period). *)
Theorem analyze_valid_iff_pattern (lookback_period candles : nat)
    (m : VPAAnalyzer.bar_metrics) :
  let signal := VPAAnalyzer.analyze lookback_period candles m in
  (VPAAnalyzer.is_valid_signal signal = true
   <-> VPAAnalyzer.pattern signal <> VPAAnalyzer.NEUTRAL)
  /\ ((candles < lookback_period)%nat -> VPAAnalyzer.is_valid_signal signal = false).
Proof.
  unfold VPAAnalyzer.analyze.
  destruct (candles <? lookback_period)%nat eqn:Hlen.
  - cbn. split; [|reflexivity]. split; [discriminate | congruence].
  - apply Nat.ltb_ge in Hlen. cbn [VPAAnalyzer.is_valid_signal VPAAnalyzer.pattern].
    split; [|lia].
    rewrite vpa_is_valid_signal_iff.
    destruct (identify_pattern_strength (VPAAnalyzer.m_volume_anomaly m)
                (VPAAnalyzer.m_spread_ratio m) (VPAAnalyzer.m_close_position m)
                (VPAAnalyzer.m_is_bullish m) (VPAAnalyzer.m_trend m)) as [Hn | Hs].
    + cbv zeta in Hn. rewrite Hn. split; [tauto | congruence].
    + cbv zeta in Hs. split; [tauto|]. intros Hp. split; assumption.
Qed.

(** ** The technical dimension *)

Lemma count_of_range (a : ThreeDAnalyzer.DimensionAlignment)
    (ds : list ThreeDAnalyzer.DimensionAlignment) :
  (0 <= ThreeDAnalyzer.count_of a ds <= Z.of_nat (length ds))%Z.
Proof.
  unfold ThreeDAnalyzer.count_of.
  pose proof (length_filter
                (fun d => ThreeDAnalyzer.DimensionAlignment_eqb d a = true) ds).
  lia.
Qed.

Lemma inject_Z_pos (n : Z) : (0 < n)%Z -> 0 < inject_Z n.
Proof. intros H. unfold Qlt. cbn. lia. Qed.


Lemma ratio_in_unit (n total : Z) :
  (0 < n)%Z -> (n <= total)%Z ->
  0 < inject_Z n / inject_Z total /\ inject_Z n / inject_Z total <= 1.
Proof.
  intros Hn Hle.
  assert (Ht : 0 < inject_Z total) by (apply inject_Z_pos; lia).
  assert (Hn' : 0 < inject_Z n) by (apply inject_Z_pos; lia).
  assert (Hle' : inject_Z n <= inject_Z total) by (rewrite <- Zle_Qle; lia).
  split.
  - apply Qlt_shift_div_l; lra.
  - apply Qle_shift_div_r; lra.
Qed.

(** X13.  The alignment [_calculate_trend_alignment] returns lies
    between 0 and 1, the primary trend is never CONFLICTING, and the
    alignment is 0 exactly when the primary trend is NEUTRAL (an empty map,
    or as many bullish as bearish timeframes). *)
Theorem trend_alignment_range (timeframe_trends : gmap string ThreeDAnalyzer.DimensionAlignment) :
  let result := ThreeDAnalyzer._calculate_trend_alignment timeframe_trends in
  0 <= result.1 /\ result.1 <= 1
  /\ result.2 <> ThreeDAnalyzer.CONFLICTING
  /\ (result.2 = ThreeDAnalyzer.NEUTRAL <-> result.1 == 0).
Proof.
  unfold ThreeDAnalyzer._calculate_trend_alignment.
  destruct (bool_decide (timeframe_trends = ∅)).
  { cbn [fst snd]. repeat split; try lra; try discriminate; intros; reflexivity. }
  set (values := (map_to_list timeframe_trends).*2).
  assert (Hlen : Z.of_nat (length values) = Z.of_nat (size timeframe_trends)).
  { subst values. rewrite length_fmap, length_map_to_list. reflexivity. }
  pose proof (count_of_range ThreeDAnalyzer.BULLISH values) as Hb.
  pose proof (count_of_range ThreeDAnalyzer.BEARISH values) as Hs.
  rewrite Hlen in Hb, Hs.
  destruct (ThreeDAnalyzer.count_of ThreeDAnalyzer.BEARISH values
            <? ThreeDAnalyzer.count_of ThreeDAnalyzer.BULLISH values)%Z eqn:H1;
    [apply Z.ltb_lt in H1|].
  - destruct (ratio_in_unit (ThreeDAnalyzer.count_of ThreeDAnalyzer.BULLISH values)
                (Z.of_nat (size timeframe_trends))) as [Hpos Hle]; [lia | lia |].
    cbn [fst snd]. repeat split; try lra; try discriminate.
  - destruct (ThreeDAnalyzer.count_of ThreeDAnalyzer.BULLISH values
              <? ThreeDAnalyzer.count_of ThreeDAnalyzer.BEARISH values)%Z eqn:H2;
      [apply Z.ltb_lt in H2|].
    + destruct (ratio_in_unit (ThreeDAnalyzer.count_of ThreeDAnalyzer.BEARISH values)
                  (Z.of_nat (size timeframe_trends))) as [Hpos Hle]; [lia | lia |].
      cbn [fst snd]. repeat split; try lra; try discriminate.
    + cbn [fst snd]. repeat split; try lra; try discriminate; intros; reflexivity.
Qed.







(** ** Confluence of the three dimensions *)

Lemma calculate_confluence_valid (relational : ThreeDAnalyzer.RelationalAnalysis)
    (fundamental : ThreeDAnalyzer.FundamentalAnalysis)
    (technical : ThreeDAnalyzer.TechnicalAnalysis) :
  let '(confluence, score, aligned) :=
    ThreeDAnalyzer._calculate_confluence relational fundamental technical in
  ThreeDAnalyzer._is_valid_signal confluence score aligned fundamental
  = ((2 <=? agreeing ThreeDAnalyzer.BULLISH relational fundamental technical)%Z
     || (2 <=? agreeing ThreeDAnalyzer.BEARISH relational fundamental technical)%Z)
    && clear_of_events fundamental
  /\ (aligned = 0 \/ aligned = 1
      \/ (2 <= aligned
          /\ (aligned = agreeing ThreeDAnalyzer.BULLISH relational fundamental technical
              \/ aligned = agreeing ThreeDAnalyzer.BEARISH relational fundamental technical)))%Z
  /\ (aligned <= 3)%Z
  /\ 0 <= score /\ score <= 1.
Proof.
  destruct relational as [corr health usd sentiment].
  destruct fundamental as [upcoming recent impact next window].
  destruct technical as [trends alignment primary positions].
  unfold ThreeDAnalyzer._calculate_confluence, ThreeDAnalyzer.dimensions_of,
    ThreeDAnalyzer._is_valid_signal, agreeing, clear_of_events.
  cbn [ThreeDAnalyzer.crypto_health ThreeDAnalyzer.event_impact
       ThreeDAnalyzer.post_event_window ThreeDAnalyzer.primary_trend
       ThreeDAnalyzer.trend_alignment ThreeDAnalyzer.time_to_next_event].
  destruct (Qgeb alignment 0.75);
    destruct next as [d|];
    [destruct (negb (d =? 0)%Z
               && Qltb (ThreeDAnalyzer.total_seconds d / 60)
                    ThreeDAnalyzer.PRE_EVENT_AVOID_MINUTES) | |
     destruct (negb (d =? 0)%Z
               && Qltb (ThreeDAnalyzer.total_seconds d / 60)
                    ThreeDAnalyzer.PRE_EVENT_AVOID_MINUTES) | ];
    destruct health, impact, primary, window;
    vm_compute;
    (split; [reflexivity|]);
    (split; [first [ left; reflexivity
                   | right; left; reflexivity
                   | right; right; split; [discriminate|];
                     first [left; reflexivity | right; reflexivity] ] |]);
    repeat split; discriminate.
Qed.

(** X15.  A 3-D signal is valid exactly when at least two of the three
    dimensions point the same way, BULLISH or BEARISH, and no event is
    within the pre-event window, the fundamental dimension counting only
    inside a post-event window: the tests of [_is_valid_signal] on the
    confluence and on the score follow from the count.  The number of
    aligned dimensions is at most 3 and the score lies between 0 and 1. *)
Theorem three_d_valid_iff_two_agree (fl : Float.arithmetic) (ema_period : nat)
    (threshold : Q)
    (events : list EconomicEvent) (now : Z)
    (klines : gmap string (list Q)) (prices : option (gmap string Q)) :
  let signal := ThreeDAnalyzer.analyze fl ema_period threshold events now klines prices in
  ThreeDAnalyzer.is_valid_signal signal
  = ((2 <=? agreeing ThreeDAnalyzer.BULLISH (ThreeDAnalyzer.relational signal)
              (ThreeDAnalyzer.fundamental signal) (ThreeDAnalyzer.technical signal))%Z
     || (2 <=? agreeing ThreeDAnalyzer.BEARISH (ThreeDAnalyzer.relational signal)
                 (ThreeDAnalyzer.fundamental signal) (ThreeDAnalyzer.technical signal))%Z)
    && clear_of_events (ThreeDAnalyzer.fundamental signal)
  /\ (0 <= ThreeDAnalyzer.dimensions_aligned signal <= 3)%Z
  /\ 0 <= ThreeDAnalyzer.confluence_score signal
  /\ ThreeDAnalyzer.confluence_score signal <= 1.
Proof.
  unfold ThreeDAnalyzer.analyze.
  pose proof (calculate_confluence_valid
                (ThreeDAnalyzer._analyze_relational fl prices)
                (ThreeDAnalyzer._analyze_fundamental events now)
                (ThreeDAnalyzer._analyze_technical fl ema_period threshold klines)) as H.
  destruct (ThreeDAnalyzer._calculate_confluence _ _ _) as [[confluence score] aligned].
  cbn [ThreeDAnalyzer.is_valid_signal ThreeDAnalyzer.relational
       ThreeDAnalyzer.fundamental ThreeDAnalyzer.technical
       ThreeDAnalyzer.dimensions_aligned ThreeDAnalyzer.confluence_score].
  destruct H as (Hvalid & Hal & H3 & Hs0 & Hs1).
  repeat split; try assumption. lia.
Qed.

(** ** The event calendar *)

#[local] Instance by_release_time_total : Total ThreeDAnalyzer.by_release_time.
Proof. intros a b. unfold ThreeDAnalyzer.by_release_time. lia. Qed.

#[local] Instance by_release_time_trans : Transitive ThreeDAnalyzer.by_release_time.
Proof. intros a b c. unfold ThreeDAnalyzer.by_release_time. lia. Qed.

#[local] Instance by_release_time_desc_total : Total ThreeDAnalyzer.by_release_time_desc.
Proof. intros a b. unfold ThreeDAnalyzer.by_release_time_desc. lia. Qed.

#[local] Instance by_release_time_desc_trans :
  Transitive ThreeDAnalyzer.by_release_time_desc.
Proof. intros a b c. unfold ThreeDAnalyzer.by_release_time_desc. lia. Qed.

(** The head of a sorted selection is a selected element that the
    relation puts before every selected element. *)
Lemma head_of_sorted_filter {A : Type} (R : relation A) `{!RelDecision R}
    `{!Total R} `{!Transitive R} (P : A -> Prop) `{!forall x, Decision (P x)}
    (l : list A) :
  match take 5 (merge_sort R (filter P l)) with
  | [] => forall x, x ∈ l -> ~ P x
  | first :: _ => first ∈ l /\ P first /\ forall x, x ∈ l -> P x -> R first x
  end.
Proof.
  pose proof (StronglySorted_merge_sort R (filter P l)) as Hsorted.
  pose proof (merge_sort_Permutation R (filter P l)) as Hperm.
  destruct (merge_sort R (filter P l)) as [|first rest].
  - cbn. intros x Hx HP.
    assert (Hin : x ∈ filter P l) by (apply list_elem_of_filter; auto).
    rewrite <- Hperm in Hin. inversion Hin.
  - cbn.
    assert (Hfirst : first ∈ filter P l).
    { rewrite <- Hperm. apply list_elem_of_here. }
    apply list_elem_of_filter in Hfirst as [HP Hin].
    split; [exact Hin|]. split; [exact HP|].
    intros x Hx HPx.
    assert (Hxin : x ∈ filter P l) by (apply list_elem_of_filter; auto).
    rewrite <- Hperm in Hxin.
    apply StronglySorted_inv in Hsorted as [_ Hall].
    apply elem_of_cons in Hxin as [->|Hxin].
    + destruct (total R first first); assumption.
    + rewrite Forall_forall in Hall. apply Hall, Hxin.
Qed.

Lemma analyze_fundamental_next (events : list EconomicEvent) (now : Z) :
  ThreeDAnalyzer.time_to_next_event (ThreeDAnalyzer._analyze_fundamental events now)
  = match ThreeDAnalyzer.upcoming_query events now with
    | next :: _ => Some (release_time next - now)%Z
    | [] => None
    end
  /\ ThreeDAnalyzer.upcoming_events (ThreeDAnalyzer._analyze_fundamental events now)
     = ThreeDAnalyzer.upcoming_query events now.
Proof.
  unfold ThreeDAnalyzer._analyze_fundamental.
  destruct (ThreeDAnalyzer.recent_query events now) as [|last0 rest];
    [|destruct (Qltb _ _)]; split; reflexivity.
Qed.

(** X16.  The fundamental analysis lists at most five events, each of
    HIGH or MEDIUM impact and released within the next 24 hours, and
    [time_to_next_event] is the time to the earliest such event of the
    calendar: it is absent exactly when the calendar has none. *)
Theorem analyze_fundamental_next_event (events : list EconomicEvent) (now : Z) :
  let fundamental := ThreeDAnalyzer._analyze_fundamental events now in
  (length (ThreeDAnalyzer.upcoming_events fundamental) <= 5)%nat
  /\ Forall (fun e => e ∈ events /\ is_upcoming now e)
       (ThreeDAnalyzer.upcoming_events fundamental)
  /\ (ThreeDAnalyzer.time_to_next_event fundamental = None
      <-> forall e, e ∈ events -> ~ is_upcoming now e)
  /\ forall d,
       ThreeDAnalyzer.time_to_next_event fundamental = Some d
       <-> (exists e, e ∈ events /\ is_upcoming now e /\ d = (release_time e - now)%Z)
           /\ forall e, e ∈ events -> is_upcoming now e -> (d <= release_time e - now)%Z.
Proof.
  cbv zeta.
  destruct (analyze_fundamental_next events now) as [-> ->].
  pose proof (head_of_sorted_filter ThreeDAnalyzer.by_release_time
                (fun e => (now < release_time e)%Z
                          /\ (release_time e < now + ThreeDAnalyzer.hours 24)%Z
                          /\ ThreeDAnalyzer.impact_in_high_medium e = true)
                events) as Hhead.
  split; [|split].
  - unfold ThreeDAnalyzer.upcoming_query. rewrite length_take. lia.
  - unfold ThreeDAnalyzer.upcoming_query. apply Forall_forall. intros e He.
    apply subseteq_take in He. rewrite merge_sort_Permutation in He.
    apply list_elem_of_filter in He as [HP Hin]. split; [exact Hin|exact HP].
  - change (take 5 _) with (ThreeDAnalyzer.upcoming_query events now) in Hhead.
    destruct (ThreeDAnalyzer.upcoming_query events now) as [|next others].
    + split.
      * split; [intros _; exact Hhead|reflexivity].
      * intros d. split; [discriminate|].
        intros [(e & He & HP & _) _]. destruct (Hhead e He HP).
    + destruct Hhead as (Hin & HP & Hmin). split.
      * split; [discriminate|]. intros Hnone. destruct (Hnone next Hin HP).
      * intros d. split.
        -- intros [= <-]. split.
           ++ exists next. repeat split; try assumption; apply HP.
           ++ intros e He HPe. specialize (Hmin e He HPe).
              unfold ThreeDAnalyzer.by_release_time in Hmin. lia.
        -- intros [(e & He & HPe & ->) Hleast].
           specialize (Hmin e He HPe). specialize (Hleast next Hin HP).
           unfold ThreeDAnalyzer.by_release_time in Hmin.
           f_equal. lia.
Qed.

Lemma within_the_hour (t : Z) :
  Qltb (ThreeDAnalyzer.total_seconds t) (ThreeDAnalyzer.POST_EVENT_TRADE_MINUTES * 60) = true
  <-> (t < ThreeDAnalyzer.hours 1)%Z.
Proof.
  rewrite Qltb_iff.
  unfold ThreeDAnalyzer.total_seconds, ThreeDAnalyzer.POST_EVENT_TRADE_MINUTES,
    ThreeDAnalyzer.hours.
  unfold Qlt, Qdiv, Qmult, Qinv, inject_Z. cbn. lia.
Qed.

(** X17.  The post-event window is open exactly when the calendar holds
    an event of HIGH or MEDIUM impact released within the last 60
    minutes; outside the window the fundamental dimension is NEUTRAL. *)
Theorem analyze_fundamental_post_event_window (events : list EconomicEvent) (now : Z) :
  let fundamental := ThreeDAnalyzer._analyze_fundamental events now in
  (ThreeDAnalyzer.post_event_window fundamental = true
   <-> exists e, e ∈ events /\ is_fresh now e)
  /\ (ThreeDAnalyzer.post_event_window fundamental = true
      \/ ThreeDAnalyzer.event_impact fundamental = ThreeDAnalyzer.NEUTRAL).
Proof.
  cbv zeta. unfold ThreeDAnalyzer._analyze_fundamental.
  pose proof (head_of_sorted_filter ThreeDAnalyzer.by_release_time_desc
                (fun e => (now - ThreeDAnalyzer.hours 2 < release_time e)%Z
                          /\ (release_time e < now)%Z
                          /\ ThreeDAnalyzer.impact_in_high_medium e = true)
                events) as Hhead.
  change (take 5 _) with (ThreeDAnalyzer.recent_query events now) in Hhead.
  assert (Hwide : forall e, is_fresh now e ->
            (now - ThreeDAnalyzer.hours 2 < release_time e)%Z
            /\ (release_time e < now)%Z
            /\ ThreeDAnalyzer.impact_in_high_medium e = true).
  { intros e (H1 & H2 & H3). unfold ThreeDAnalyzer.hours in *. repeat split; try assumption; lia. }
  destruct (ThreeDAnalyzer.recent_query events now) as [|last0 rest].
  - cbn. split; [|right; reflexivity].
    split; [discriminate|]. intros (e & He & Hfresh).
    destruct (Hhead e He (Hwide e Hfresh)).
  - destruct Hhead as (Hin & HP & Hlatest).
    destruct (Qltb _ _) eqn:Hwindow; cbn.
    + split; [|left; reflexivity]. split; [|reflexivity]. intros _.
      apply within_the_hour in Hwindow.
      exists last0. split; [exact Hin|]. unfold is_fresh. repeat split; try apply HP. lia.
    + split; [|right; reflexivity]. split; [discriminate|].
      intros (e & He & Hfresh).
      specialize (Hlatest e He (Hwide e Hfresh)).
      unfold ThreeDAnalyzer.by_release_time_desc in Hlatest.
      assert (Hnow : Qltb (ThreeDAnalyzer.total_seconds (now - release_time last0))
                       (ThreeDAnalyzer.POST_EVENT_TRADE_MINUTES * 60) = true).
      { apply within_the_hour. destruct Hfresh as (H1 & _). lia. }
      congruence.
Qed.

(** ** The rounding of binary64 *)

Lemma nearest_even_close (x : Q) :
  Qabs (inject_Z (Float.nearest_even x) - x) <= 1 # 2.
Proof.
  pose proof (Qfloor_le x) as Hlo. pose proof (Qlt_floor x) as Hhi.
  rewrite inject_Z_plus in Hhi. change (inject_Z 1) with 1 in Hhi.
  unfold Float.nearest_even.
  assert (Hup : inject_Z (Qfloor x + 1) == inject_Z (Qfloor x) + 1).
  { rewrite inject_Z_plus. reflexivity. }
  apply Qabs_Qle_condition.
  destruct (Qltb (x - inject_Z (Qfloor x)) (1 # 2)) eqn:E1.
  - apply Qltb_iff in E1. split; lra.
  - apply Qltb_false in E1.
    destruct (Qltb (1 # 2) (x - inject_Z (Qfloor x))) eqn:E2.
    + apply Qltb_iff in E2. rewrite Hup. split; lra.
    + apply Qltb_false in E2. destruct (Z.even (Qfloor x)).
      * split; lra.
      * rewrite Hup. split; lra.
Qed.

Lemma Qabs_make (x : Q) : Qabs x = (Z.abs (Qnum x) # Qden x).
Proof. destruct x. reflexivity. Qed.

Lemma two_power_Z (n : Z) : (0 <= n)%Z -> 2 ^ n == inject_Z (2 ^ n).
Proof. intros Hn. rewrite Zpower_Qpower by exact Hn. reflexivity. Qed.

Lemma exponent_le (x : Q) : ~ x == 0 -> 2 ^ Float.exponent x <= Qabs x.
Proof.
  intros Hx. rewrite Qabs_make. unfold Float.exponent.
  set (n := Z.abs (Qnum x)). set (d := Qden x).
  assert (Hn : (0 < n)%Z).
  { subst n. destruct x as [xn xd]. unfold Qeq in Hx. cbn in *. lia. }
  destruct (Qleb _ _) eqn:E.
  - apply Qleb_iff in E. exact E.
  - clear E.
    pose proof (Z.log2_spec n Hn) as [Hn1 _].
    pose proof (Z.log2_spec (Zpos d) (Pos2Z.is_pos d)) as [_ Hd2].
    pose proof (Z.log2_nonneg n) as Hln. pose proof (Z.log2_nonneg (Zpos d)) as Hld.
    assert (Hk : 2 ^ (Z.log2 n - Z.log2 (Z.pos d) - 1)
                 == inject_Z (2 ^ Z.log2 n) / inject_Z (2 ^ Z.succ (Z.log2 (Z.pos d)))).
    { replace (Z.log2 n - Z.log2 (Z.pos d) - 1)%Z
        with (Z.log2 n - Z.succ (Z.log2 (Z.pos d)))%Z by lia.
      rewrite Qpower_minus by discriminate.
      rewrite !two_power_Z by lia. reflexivity. }
    rewrite Hk. rewrite (Qmake_Qdiv n d).
    assert (H1 : 0 < inject_Z (2 ^ Z.succ (Z.log2 (Z.pos d)))).
    { change 0 with (inject_Z 0). rewrite <- Zlt_Qlt. lia. }
    assert (H2 : 0 < inject_Z (Z.pos d)).
    { change 0 with (inject_Z 0). rewrite <- Zlt_Qlt. lia. }
    assert (H3 : inject_Z (2 ^ Z.log2 n) <= inject_Z n) by (rewrite <- Zle_Qle; lia).
    assert (H4 : inject_Z (Z.pos d) <= inject_Z (2 ^ Z.succ (Z.log2 (Z.pos d))))
      by (rewrite <- Zle_Qle; lia).
    assert (H5 : 0 < inject_Z (2 ^ Z.log2 n)).
    { change 0 with (inject_Z 0). rewrite <- Zlt_Qlt. lia. }
    generalize dependent (inject_Z (2 ^ Z.succ (Z.log2 (Z.pos d)))).
    generalize dependent (inject_Z (2 ^ Z.log2 n)).
    generalize dependent (inject_Z (Z.pos d)). generalize dependent (inject_Z n).
    intros N D H2 P H3 H5 Q' _ H1 H4.
    apply Qle_shift_div_r; [exact H1|].
    assert (HND : N / D * D == N) by (field; lra).
    assert (0 < N) by lra.
    assert (0 < N / D) by (apply Qlt_shift_div_l; lra).
    nra.
Qed.

(** The rounding of binary64 is within the relative error 2^-53. *)
Lemma round53_accurate : Float.accurate Float.binary64 Float.unit_roundoff.
Proof.
  intros x. unfold Float.unit_roundoff. cbn [Float.round Float.binary64].
  unfold Float.round53.
  destruct (Qzerob x) eqn:Hz.
  - apply Qzerob_iff in Hz. rewrite Hz. vm_compute. discriminate.
  - apply Qzerob_false in Hz. rewrite Qred_correct.
    pose proof (exponent_le x Hz) as HL.
    set (L := Float.exponent x) in *.
    assert (Hs : 0 < 2 ^ (L - 52)) by (apply Qpower_0_lt; reflexivity).
    pose proof (nearest_even_close (x / 2 ^ (L - 52))) as Hm.
    set (m := inject_Z (Float.nearest_even (x / 2 ^ (L - 52)))) in *.
    assert (HLs : 2 ^ L == 2 ^ (L - 52) * 4503599627370496).
    { replace L with ((L - 52) + 52)%Z at 1 by lia.
      rewrite Qpower_plus by discriminate. reflexivity. }
    set (s := 2 ^ (L - 52)) in *.
    assert (Hxs : x / s * s == x) by (field; lra).
    apply Qabs_Qle_condition in Hm. destruct Hm as [Hm1 Hm2].
    pose proof (Qabs_nonneg x) as Hax.
    apply Qabs_Qle_condition.
    assert (Hb : s * (1 # 2) <= (1 # 9007199254740992) * Qabs x).
    { rewrite HLs in HL. lra. }
    split; nra.
Qed.

(** ** Rounding within a relative error *)

Lemma round_scale (fl : Float.arithmetic) (eps x : Q) :
  Float.accurate fl eps ->
  (0 <= x -> x * (1 - eps) <= Float.round fl x /\ Float.round fl x <= x * (1 + eps))
  /\ (x <= 0 -> x * (1 + eps) <= Float.round fl x /\ Float.round fl x <= x * (1 - eps)).
Proof.
  intros Hfl. specialize (Hfl x). apply Qabs_Qle_condition in Hfl.
  destruct Hfl as [Hlo Hhi]. split; intros Hx.
  - rewrite (Qabs_pos x Hx) in Hlo, Hhi. split; lra.
  - rewrite (Qabs_neg x Hx) in Hlo, Hhi. split; lra.
Qed.

(** A rounding within a relative error below 1 keeps the sign. *)
Lemma round_sign (fl : Float.arithmetic) (eps x : Q) :
  Float.accurate fl eps -> 0 <= eps -> eps < 1 ->
  (0 < Float.round fl x -> 0 < x) /\ (Float.round fl x < 0 -> x < 0).
Proof.
  intros Hfl H0 H1. destruct (round_scale fl eps x Hfl) as [Hpos Hneg].
  split; intros Hr.
  - destruct (Qlt_le_dec 0 x) as [Hx|Hx]; [exact Hx|].
    destruct (Hneg Hx) as [_ Hhi]. nra.
  - destruct (Qlt_le_dec x 0) as [Hx|Hx]; [exact Hx|].
    destruct (Hpos Hx) as [Hlo _]. nra.
Qed.

(** The rounded quotient of a rounded difference [d] by a positive
    [ema], against a threshold [t] that is not negative. *)
Lemma rounded_deviation (fl : Float.arithmetic) (eps d ema t : Q) :
  Float.accurate fl eps -> 0 <= eps -> eps < 1 -> 0 < ema -> 0 <= t ->
  let q := Float.round fl (Float.round fl d / ema) in
  (t < q -> t * ema < d * ((1 + eps) * (1 + eps)))
  /\ (q < - t -> d * ((1 + eps) * (1 + eps)) < - t * ema)
  /\ (q <= t -> d * ((1 - eps) * (1 - eps)) <= t * ema)
  /\ (- t <= q -> - t * ema <= d * ((1 - eps) * (1 - eps))).
Proof.
  intros Hfl H0 H1 Hema Ht q.
  set (fd := Float.round fl d) in *.
  set (y := fd / ema) in *.
  assert (Hy : y * ema == fd) by (unfold y; field; lra).
  destruct (round_scale fl eps d Hfl) as [Hdpos Hdneg].
  destruct (round_scale fl eps y Hfl) as [Hypos Hyneg].
  fold fd in Hdpos, Hdneg. fold q in Hypos, Hyneg.
  assert (Hsign : (0 <= d -> 0 <= y) /\ (d <= 0 -> y <= 0)).
  { split; intros Hd.
    - destruct (Hdpos Hd) as [Hlo _].
      assert (0 <= fd) by nra.
      destruct (Qlt_le_dec y 0) as [Hneg|Hge]; [nra | exact Hge].
    - destruct (Hdneg Hd) as [_ Hhi].
      assert (fd <= 0) by nra.
      destruct (Qlt_le_dec 0 y) as [Hpos|Hle]; [nra | exact Hle]. }
  destruct Hsign as [Hs1 Hs2].
  assert (He2 : 0 < (1 - eps) * (1 - eps)) by nra.
  assert (He3 : 0 < (1 + eps) * (1 + eps)) by nra.
  repeat split; intros Hq.
  - destruct (Qlt_le_dec 0 d) as [Hd|Hd].
    + destruct (Hdpos (Qlt_le_weak _ _ Hd)) as [_ Hfd].
      destruct (Hypos (Hs1 (Qlt_le_weak _ _ Hd))) as [_ Hqy].
      assert (Hs : 0 <= y) by (apply Hs1; lra).
      assert (t * ema < q * ema) by nra.
      assert (q * ema <= y * (1 + eps) * ema) by nra.
      assert (y * (1 + eps) * ema == fd * (1 + eps)) by (rewrite <- Hy; ring).
      assert (fd * (1 + eps) <= d * (1 + eps) * (1 + eps)) by nra.
      lra.
    + destruct (Hyneg (Hs2 Hd)) as [_ Hqy].
      assert (y <= 0) by (apply Hs2; exact Hd). nra.
  - destruct (Qlt_le_dec d 0) as [Hd|Hd].
    + destruct (Hdneg (Qlt_le_weak _ _ Hd)) as [Hfd _].
      destruct (Hyneg (Hs2 (Qlt_le_weak _ _ Hd))) as [Hqy _].
      assert (q * ema < - t * ema) by nra.
      assert (y * (1 + eps) * ema <= q * ema) by nra.
      assert (y * (1 + eps) * ema == fd * (1 + eps)) by (rewrite <- Hy; ring).
      assert (d * (1 + eps) * (1 + eps) <= fd * (1 + eps)) by nra.
      lra.
    + destruct (Hypos (Hs1 Hd)) as [Hqy _].
      assert (0 <= y) by (apply Hs1; exact Hd). nra.
  - destruct (Qlt_le_dec 0 d) as [Hd|Hd].
    + destruct (Hdpos (Qlt_le_weak _ _ Hd)) as [Hfd _].
      destruct (Hypos (Hs1 (Qlt_le_weak _ _ Hd))) as [Hqy _].
      assert (q * ema <= t * ema) by nra.
      assert (y * (1 - eps) * ema <= q * ema) by nra.
      assert (y * (1 - eps) * ema == fd * (1 - eps)) by (rewrite <- Hy; ring).
      assert (d * (1 - eps) * (1 - eps) <= fd * (1 - eps)) by nra.
      lra.
    + assert (d * ((1 - eps) * (1 - eps)) <= 0) by nra.
      assert (0 <= t * ema) by nra. lra.
  - destruct (Qlt_le_dec d 0) as [Hd|Hd].
    + destruct (Hdneg (Qlt_le_weak _ _ Hd)) as [_ Hfd].
      destruct (Hyneg (Hs2 (Qlt_le_weak _ _ Hd))) as [_ Hqy].
      assert (- t * ema <= q * ema) by nra.
      assert (q * ema <= y * (1 - eps) * ema) by nra.
      assert (y * (1 - eps) * ema == fd * (1 - eps)) by (rewrite <- Hy; ring).
      assert (fd * (1 - eps) <= d * (1 - eps) * (1 - eps)) by nra.
      lra.
    + assert (0 <= d * ((1 - eps) * (1 - eps))) by nra.
      assert (0 <= t * ema) by nra. lra.
Qed.

(** The rounded quotient of two rounded numbers, the divisor positive,
    against a rounded positive constant. *)
Lemma rounded_ratio (fl : Float.arithmetic) (eps a b c : Q) :
  Float.accurate fl eps -> 0 <= eps -> eps < 1 -> 0 < b -> 0 < c ->
  let q := Float.round fl (Float.round fl a / Float.round fl b) in
  let fc := Float.round fl c in
  0 < Float.round fl b
  /\ 0 < fc
  /\ (c * ((1 + eps) * (1 + eps)) * b < a * ((1 - eps) * (1 - eps)) -> fc < q)
  /\ (fc < q -> c * ((1 - eps) * (1 - eps)) * b < a * ((1 + eps) * (1 + eps)))
  /\ (a * ((1 + eps) * (1 + eps)) < c * ((1 - eps) * (1 - eps)) * b -> q < fc)
  /\ (q < fc -> a * ((1 - eps) * (1 - eps)) < c * ((1 + eps) * (1 + eps)) * b).
Proof.
  intros Hfl H0 H1 Hb Hc q fc.
  set (fa := Float.round fl a) in *.
  set (fb := Float.round fl b) in *.
  set (y := fa / fb) in *.
  destruct (round_scale fl eps a Hfl) as [Hapos Haneg].
  destruct (round_scale fl eps b Hfl) as [Hbpos _].
  destruct (round_scale fl eps c Hfl) as [Hcpos _].
  destruct (round_scale fl eps y Hfl) as [Hypos Hyneg].
  fold fa in Hapos, Haneg. fold fb in Hbpos. fold fc in Hcpos. fold q in Hypos, Hyneg.
  destruct (Hbpos (Qlt_le_weak _ _ Hb)) as [Hb1 Hb2].
  destruct (Hcpos (Qlt_le_weak _ _ Hc)) as [Hc1 Hc2].
  assert (Hfb : 0 < fb) by nra.
  assert (Hfc : 0 < fc) by nra.
  assert (Hy : y * fb == fa) by (unfold y; field; lra).
  assert (Hsign : (0 <= a -> 0 <= y) /\ (a <= 0 -> y <= 0)).
  { split; intros Ha.
    - destruct (Hapos Ha) as [Hlo _].
      assert (0 <= fa) by nra.
      destruct (Qlt_le_dec y 0) as [Hneg|Hge]; [nra | exact Hge].
    - destruct (Haneg Ha) as [_ Hhi].
      assert (fa <= 0) by nra.
      destruct (Qlt_le_dec 0 y) as [Hpos|Hle]; [nra | exact Hle]. }
  destruct Hsign as [Hs1 Hs2].
  assert (He2 : 0 < (1 - eps) * (1 - eps)) by nra.
  assert (He3 : 0 < (1 + eps) * (1 + eps)) by nra.
  split; [exact Hfb|]. split; [exact Hfc|].
  repeat split; intros Hq.
  - assert (Ha : 0 < a).
    { destruct (Qlt_le_dec 0 a) as [Ha|Ha]; [exact Ha|].
      assert (0 < c * ((1 + eps) * (1 + eps)) * b) by nra. nra. }
    destruct (Hapos (Qlt_le_weak _ _ Ha)) as [Hfa _].
    destruct (Hypos (Hs1 (Qlt_le_weak _ _ Ha))) as [Hqy _].
    assert (H2 : c * (1 + eps) * fb < y * (1 - eps) * fb).
    { assert (c * (1 + eps) * fb <= c * ((1 + eps) * (1 + eps)) * b) by nra.
      assert (a * ((1 - eps) * (1 - eps)) <= fa * (1 - eps)) by nra.
      assert (y * (1 - eps) * fb == fa * (1 - eps)) by (rewrite <- Hy; ring).
      lra. }
    apply (proj1 (Qmult_lt_r _ _ fb Hfb)) in H2. lra.
  - assert (Hq0 : 0 < q) by lra.
    assert (Hy0 : 0 < y).
    { destruct (Qlt_le_dec 0 y) as [Hp|Hn]; [exact Hp|].
      destruct (Hyneg Hn) as [_ Hhi]. nra. }
    assert (Ha : 0 < a).
    { destruct (Qlt_le_dec 0 a) as [Ha|Ha]; [exact Ha|].
      specialize (Hs2 Ha). lra. }
    destruct (Hapos (Qlt_le_weak _ _ Ha)) as [_ Hfa].
    destruct (Hypos (Qlt_le_weak _ _ Hy0)) as [_ Hqy].
    assert (H2 : c * (1 - eps) * fb < y * (1 + eps) * fb).
    { apply (proj2 (Qmult_lt_r _ _ fb Hfb)). lra. }
    assert (y * (1 + eps) * fb == fa * (1 + eps)) by (rewrite <- Hy; ring).
    assert (fa * (1 + eps) <= a * ((1 + eps) * (1 + eps))) by nra.
    assert (Hk : 0 <= c * (1 - eps)) by nra.
    pose proof (Qmult_le_compat_r _ _ _ Hb1 Hk).
    lra.
  - destruct (Qlt_le_dec a 0) as [Ha|Ha].
    + destruct (Hyneg (Hs2 (Qlt_le_weak _ _ Ha))) as [_ Hqy].
      assert (y <= 0) by (apply Hs2; lra). nra.
    + destruct (Hapos Ha) as [_ Hfa].
      destruct (Hypos (Hs1 Ha)) as [_ Hqy].
      assert (H2 : y * (1 + eps) * fb < c * (1 - eps) * fb).
      { assert (y * (1 + eps) * fb == fa * (1 + eps)) by (rewrite <- Hy; ring).
        assert (fa * (1 + eps) <= a * ((1 + eps) * (1 + eps))) by nra.
        assert (Hk : 0 <= c * (1 - eps)) by nra.
        pose proof (Qmult_le_compat_r _ _ _ Hb1 Hk).
        lra. }
      apply (proj1 (Qmult_lt_r _ _ fb Hfb)) in H2. lra.
  - destruct (Qlt_le_dec 0 a) as [Ha|Ha].
    + destruct (Hapos (Qlt_le_weak _ _ Ha)) as [Hfa _].
      destruct (Hypos (Hs1 (Qlt_le_weak _ _ Ha))) as [Hqy _].
      assert (H2 : y * (1 - eps) * fb < c * (1 + eps) * fb).
      { apply (proj2 (Qmult_lt_r _ _ fb Hfb)). lra. }
      assert (y * (1 - eps) * fb == fa * (1 - eps)) by (rewrite <- Hy; ring).
      assert (a * ((1 - eps) * (1 - eps)) <= fa * (1 - eps)) by nra.
      assert (c * (1 + eps) * fb <= c * ((1 + eps) * (1 + eps)) * b) by nra.
      lra.
    + assert (a * ((1 - eps) * (1 - eps)) <= 0) by nra.
      assert (0 < c * ((1 + eps) * (1 + eps)) * b) by nra. lra.
Qed.

(** ** The technical and the relational dimension *)

Lemma analyze_technical_trends (fl : Float.arithmetic) (ema_period : nat) (threshold : Q)
    (klines : gmap string (list Q)) :
  ThreeDAnalyzer.timeframe_trends
    (ThreeDAnalyzer._analyze_technical fl ema_period threshold klines)
  = fst <$> (ThreeDAnalyzer.timeframe_trend fl ema_period threshold <$> klines).
Proof.
  unfold ThreeDAnalyzer._analyze_technical.
  destruct (ThreeDAnalyzer._calculate_trend_alignment _). reflexivity.
Qed.

Lemma analyze_technical_positions (fl : Float.arithmetic) (ema_period : nat)
    (threshold : Q) (klines : gmap string (list Q)) :
  ThreeDAnalyzer.ema_positions
    (ThreeDAnalyzer._analyze_technical fl ema_period threshold klines)
  = snd <$> (ThreeDAnalyzer.timeframe_trend fl ema_period threshold <$> klines).
Proof.
  unfold ThreeDAnalyzer._analyze_technical.
  destruct (ThreeDAnalyzer._calculate_trend_alignment _). reflexivity.
Qed.

(** X18.  The trend [_analyze_technical] gives a timeframe, under any
    float arithmetic whose roundings are within a relative error [eps]
    below 1, for an EMA period of at least 1 and a threshold that is not
    negative.  With [ema] the EMA
    the code computes from the closes converted to floats and
    [current_price] the last of them: the trend is BULLISH only when the
    EMA is positive, the recorded position is above the threshold and
    [current_price - ema] scaled up by [(1 + eps)^2] is above
    [threshold * ema]; BEARISH only when the EMA is positive, the position
    is below minus the threshold and the scaled difference is below
    [- threshold * ema]; NEUTRAL when the timeframe has fewer closes than
    the EMA period (the position is then 0), and otherwise only when the
    position is within the threshold and the EMA is not positive or the
    difference scaled down by [(1 - eps)^2] is within
    [threshold * ema]; never CONFLICTING.  Without rounding ([eps] is 0)
    the three cases are those of the exact comparison of the last close
    with the EMA. *)
Theorem analyze_technical_trend_sign (fl : Float.arithmetic) (eps : Q)
    (ema_period : nat) (threshold : Q)
    (klines : gmap string (list Q)) (tf : string) (closes : list Q)
    (Heps : 0 <= eps) (Hbelow : eps < 1)
    (Hfl : Float.accurate fl eps)
    (Hperiod : (1 <= ema_period)%nat)
    (Hthreshold : 0 <= threshold)
    (Htf : klines !! tf = Some closes) :
  let technical := ThreeDAnalyzer._analyze_technical fl ema_period threshold klines in
  let floats := Float.of_decimal fl <$> closes in
  let ema := ThreeDAnalyzer._calculate_ema fl floats ema_period in
  let current_price := List.last floats 0 in
  exists position,
    ThreeDAnalyzer.ema_positions technical !! tf = Some position
    /\ match ThreeDAnalyzer.timeframe_trends technical !! tf with
       | Some ThreeDAnalyzer.BULLISH =>
           (ema_period <= length closes)%nat
           /\ 0 < ema
           /\ threshold < position
           /\ threshold * ema < (current_price - ema) * ((1 + eps) * (1 + eps))
       | Some ThreeDAnalyzer.BEARISH =>
           (ema_period <= length closes)%nat
           /\ 0 < ema
           /\ position < - threshold
           /\ (current_price - ema) * ((1 + eps) * (1 + eps)) < - threshold * ema
       | Some ThreeDAnalyzer.NEUTRAL =>
           ((length closes < ema_period)%nat /\ position = 0)
           \/ ((ema_period <= length closes)%nat
               /\ - threshold <= position
               /\ position <= threshold
               /\ (ema <= 0
                   \/ (- threshold * ema
                       <= (current_price - ema) * ((1 - eps) * (1 - eps))
                       /\ (current_price - ema) * ((1 - eps) * (1 - eps))
                          <= threshold * ema)))
       | _ => False
       end.
Proof.
  cbv zeta. rewrite analyze_technical_trends, analyze_technical_positions, !lookup_fmap, Htf.
  cbn [fmap option_fmap option_map]. unfold ThreeDAnalyzer.timeframe_trend.
  destruct (length closes <? ema_period)%nat eqn:Hlen.
  - apply Nat.ltb_lt in Hlen. cbn [fst snd]. exists 0.
    split; [reflexivity|]. left. split; [exact Hlen | reflexivity].
  - apply Nat.ltb_ge in Hlen.
    set (floats := Float.of_decimal fl <$> closes).
    set (ema := ThreeDAnalyzer._calculate_ema fl floats ema_period).
    set (current_price := List.last floats 0).
    destruct (Qgtb ema 0) eqn:Hpos.
    + apply Qgtb_iff in Hpos.
      unfold Float.div, Float.sub.
      destruct (rounded_deviation fl eps (current_price - ema) ema threshold
                  Hfl Heps Hbelow Hpos Hthreshold) as (Hup & Hdown & Hle & Hge).
      set (q := Float.round fl (Float.round fl (current_price - ema) / ema)) in *.
      exists q.
      destruct (Qgtb q threshold) eqn:Hhigh; cbn [fst snd].
      * apply Qgtb_iff in Hhigh. split; [reflexivity|]. auto.
      * apply Qgtb_false in Hhigh.
        destruct (Qltb q (- threshold)) eqn:Hlow; cbn [fst snd].
        -- apply Qltb_iff in Hlow. split; [reflexivity|]. auto.
        -- apply Qltb_false in Hlow. split; [reflexivity|]. right.
           split; [exact Hlen|]. split; [exact Hlow|]. split; [exact Hhigh|].
           right. auto.
    + apply Qgtb_false in Hpos. exists 0.
      assert (Hno : Qgtb 0 threshold = false) by (apply Qgtb_false; exact Hthreshold).
      assert (Hno' : Qltb 0 (- threshold) = false) by (apply Qltb_false; lra).
      rewrite Hno, Hno'. cbn [fst snd]. split; [reflexivity|]. right.
      split; [exact Hlen|]. split; [lra|]. split; [exact Hthreshold|]. left. exact Hpos.
Qed.

(** Twenty closes at 12.66 and one at 12.73: the exact deviation from
    the EMA is the threshold 0.005 and the trend without rounding is
    NEUTRAL; with the rounding of binary64 the deviation comes out above
    the threshold and the trend is BULLISH. *)
Lemma analyze_technical_trend_sign_witness :
  let threshold := Float.of_decimal Float.binary64 0.005 in
  let technical :=
    ThreeDAnalyzer._analyze_technical Float.binary64 20 threshold threshold_klines in
  let floats := Float.of_decimal Float.binary64 <$> threshold_closes in
  let ema := ThreeDAnalyzer._calculate_ema Float.binary64 floats 20 in
  let current_price := List.last floats 0 in
  ThreeDAnalyzer.timeframe_trends technical !! "1m" = Some ThreeDAnalyzer.BULLISH
  /\ ThreeDAnalyzer.timeframe_trends
       (ThreeDAnalyzer._analyze_technical Float.exact 20 0.005 threshold_klines) !! "1m"
     = Some ThreeDAnalyzer.NEUTRAL
  /\ exists position,
       ThreeDAnalyzer.ema_positions technical !! "1m" = Some position
       /\ match ThreeDAnalyzer.timeframe_trends technical !! "1m" with
          | Some ThreeDAnalyzer.BULLISH =>
              (20 <= length threshold_closes)%nat
              /\ 0 < ema
              /\ threshold < position
              /\ threshold * ema
                 < (current_price - ema)
                   * ((1 + Float.unit_roundoff) * (1 + Float.unit_roundoff))
          | Some ThreeDAnalyzer.BEARISH =>
              (20 <= length threshold_closes)%nat
              /\ 0 < ema
              /\ position < - threshold
              /\ (current_price - ema)
                 * ((1 + Float.unit_roundoff) * (1 + Float.unit_roundoff))
                 < - threshold * ema
          | Some ThreeDAnalyzer.NEUTRAL =>
              ((length threshold_closes < 20)%nat /\ position = 0)
              \/ ((20 <= length threshold_closes)%nat
                  /\ - threshold <= position
                  /\ position <= threshold
                  /\ (ema <= 0
                      \/ (- threshold * ema
                          <= (current_price - ema)
                             * ((1 - Float.unit_roundoff) * (1 - Float.unit_roundoff))
                          /\ (current_price - ema)
                             * ((1 - Float.unit_roundoff) * (1 - Float.unit_roundoff))
                             <= threshold * ema)))
          | _ => False
          end.
Proof.
  split; [vm_compute; reflexivity|]. split; [vm_compute; reflexivity|].
  apply (analyze_technical_trend_sign Float.binary64 Float.unit_roundoff 20
           (Float.of_decimal Float.binary64 0.005) threshold_klines "1m" threshold_closes).
  - vm_compute. discriminate.
  - reflexivity.
  - exact round53_accurate.
  - lia.
  - vm_compute. discriminate.
  - reflexivity.
Defined.

(** X19.  The relational dimension, under any float arithmetic whose
    roundings are within a relative error [eps] below 1.  It is BULLISH or
    BEARISH only when both BTCUSDT and ETHUSDT are priced.  With both
    priced: a BTC price that is not positive gives BEARISH (the ratio is
    then taken as 0); with a positive BTC price, ETH above 0.06 BTC by
    more than the rounding gives BULLISH and ETH below 0.04 BTC by more
    than the rounding gives BEARISH, BULLISH is given only when ETH is
    above 0.06 BTC up to the rounding and BEARISH only when it is below
    0.04 BTC up to the rounding, the rounding being the factor
    [(1 + eps)^2 / (1 - eps)^2].  The risk sentiment is RISK_ON, RISK_OFF
    or NEUTRAL with the health, which is never CONFLICTING, and the USD
    impact is always NEUTRAL.  Without rounding ([eps] is 0) BULLISH is
    exactly ETH above 0.06 BTC and BEARISH exactly ETH below 0.04 BTC. *)
Theorem analyze_relational_health (fl : Float.arithmetic) (eps : Q)
    (related_prices : option (gmap string Q))
    (Heps : 0 <= eps) (Hbelow : eps < 1)
    (Hfl : Float.accurate fl eps) :
  let relational := ThreeDAnalyzer._analyze_relational fl related_prices in
  let health := ThreeDAnalyzer.crypto_health relational in
  let up := (1 + eps) * (1 + eps) in
  let down := (1 - eps) * (1 - eps) in
  (health <> ThreeDAnalyzer.NEUTRAL ->
   exists prices btc eth,
     related_prices = Some prices
     /\ prices !! "BTCUSDT" = Some btc /\ prices !! "ETHUSDT" = Some eth)
  /\ (forall prices btc eth,
        related_prices = Some prices ->
        prices !! "BTCUSDT" = Some btc -> prices !! "ETHUSDT" = Some eth ->
        (btc <= 0 -> health = ThreeDAnalyzer.BEARISH)
        /\ (0 < btc -> 0.06 * up * btc < eth * down -> health = ThreeDAnalyzer.BULLISH)
        /\ (0 < btc -> eth * up < 0.04 * down * btc -> health = ThreeDAnalyzer.BEARISH)
        /\ (health = ThreeDAnalyzer.BULLISH -> 0 < btc /\ 0.06 * down * btc < eth * up)
        /\ (health = ThreeDAnalyzer.BEARISH -> btc <= 0 \/ eth * down < 0.04 * up * btc))
  /\ ThreeDAnalyzer.risk_sentiment relational
     = match health with
       | ThreeDAnalyzer.BULLISH => "RISK_ON"
       | ThreeDAnalyzer.BEARISH => "RISK_OFF"
       | _ => "NEUTRAL"
       end
  /\ health <> ThreeDAnalyzer.CONFLICTING
  /\ ThreeDAnalyzer.usd_impact relational = ThreeDAnalyzer.NEUTRAL.
Proof.
  cbv zeta. unfold ThreeDAnalyzer._analyze_relational.
  destruct related_prices as [prices|].
  2:{ cbn. repeat split; try discriminate; try congruence. }
  destruct (bool_decide (prices = ∅)) eqn:Hempty.
  { apply bool_decide_eq_true in Hempty. subst prices. cbn.
    split; [congruence|]. split; [|repeat split; discriminate].
    intros ? ? ? [= <-] Hb. rewrite lookup_empty in Hb. discriminate. }
  destruct (prices !! "BTCUSDT") as [btc|] eqn:Hbtc.
  2:{ cbn. split; [congruence|]. split; [|repeat split; discriminate].
      intros ? ? ? [= <-] Hb. congruence. }
  destruct (prices !! "ETHUSDT") as [eth|] eqn:Heth.
  2:{ cbn. split; [congruence|]. split; [|repeat split; discriminate].
      intros ? ? ? [= <-] _ He. congruence. }
  split; [intros _; exists prices, btc, eth; auto|].
  unfold Float.of_decimal, Float.div.
  destruct (round_scale fl eps btc Hfl) as [Hbpos Hbneg].
  destruct (round_scale fl eps 0.06 Hfl) as [H6 _].
  destruct (round_scale fl eps 0.04 Hfl) as [H4 _].
  destruct H6 as [H6 _]; [lra|]. destruct H4 as [H4 _]; [lra|].
  destruct (Qgtb (Float.round fl btc) 0) eqn:Hpos.
  - apply Qgtb_iff in Hpos.
    assert (Hb : 0 < btc).
    { destruct (Qlt_le_dec 0 btc) as [Hb|Hb]; [exact Hb|].
      destruct (Hbneg Hb) as [_ Hhi]. nra. }
    destruct (rounded_ratio fl eps eth btc 0.06 Hfl Heps Hbelow Hb eq_refl)
      as (_ & _ & Hup6 & Hup6' & Hdown6 & Hdown6').
    destruct (rounded_ratio fl eps eth btc 0.04 Hfl Heps Hbelow Hb eq_refl)
      as (_ & _ & Hup4 & Hup4' & Hdown4 & Hdown4').
    set (q := Float.round fl (Float.round fl eth / Float.round fl btc)) in *.
    set (c6 := Float.round fl 0.06) in *. set (c4 := Float.round fl 0.04) in *.
    assert (He2 : 0 < (1 - eps) * (1 - eps)) by nra.
    assert (He3 : 0 < (1 + eps) * (1 + eps)) by nra.
    assert (Hmono : 0.04 * ((1 - eps) * (1 - eps)) * btc
                    < 0.06 * ((1 - eps) * (1 - eps)) * btc) by nra.
    destruct (Qgtb q c6) eqn:Hhigh.
    + apply Qgtb_iff in Hhigh.
      cbn [ThreeDAnalyzer.crypto_health ThreeDAnalyzer.usd_impact
           ThreeDAnalyzer.risk_sentiment].
      split; [|repeat split; discriminate].
      intros ? btc' eth' [= <-] Hb' He'.
      rewrite Hbtc in Hb'. rewrite Heth in He'. injection Hb' as <-. injection He' as <-.
      specialize (Hup6' Hhigh).
      split; [intros; lra|]. split; [reflexivity|].
      split; [intros _ Hlow; specialize (Hdown6 ltac:(lra)); lra|].
      split; [auto | discriminate].
    + apply Qgtb_false in Hhigh.
      destruct (Qltb q c4) eqn:Hlow.
      * apply Qltb_iff in Hlow.
        cbn [ThreeDAnalyzer.crypto_health ThreeDAnalyzer.usd_impact
             ThreeDAnalyzer.risk_sentiment].
        split; [|repeat split; discriminate].
        intros ? btc' eth' [= <-] Hb' He'.
        rewrite Hbtc in Hb'. rewrite Heth in He'. injection Hb' as <-. injection He' as <-.
        specialize (Hdown4' Hlow).
        split; [reflexivity|].
        split; [intros _ Habove; specialize (Hup6 Habove); lra|].
        split; [reflexivity|]. split; [discriminate|]. intros _. right. exact Hdown4'.
      * apply Qltb_false in Hlow.
        cbn [ThreeDAnalyzer.crypto_health ThreeDAnalyzer.usd_impact
             ThreeDAnalyzer.risk_sentiment].
        split; [|repeat split; discriminate].
        intros ? btc' eth' [= <-] Hb' He'.
        rewrite Hbtc in Hb'. rewrite Heth in He'. injection Hb' as <-. injection He' as <-.
        split; [intros; lra|].
        split; [intros _ Habove; specialize (Hup6 Habove); lra|].
        split; [intros _ Hbelow4; specialize (Hdown4 Hbelow4); lra|].
        split; discriminate.
  - apply Qgtb_false in Hpos.
    assert (Hb : btc <= 0).
    { destruct (Qlt_le_dec 0 btc) as [Hb|Hb]; [|exact Hb].
      destruct (Hbpos (Qlt_le_weak _ _ Hb)) as [Hlo _]. nra. }
    assert (Hno : Qgtb 0 (Float.round fl 0.06) = false) by (apply Qgtb_false; nra).
    assert (Hyes : Qltb 0 (Float.round fl 0.04) = true) by (apply Qltb_iff; nra).
    rewrite Hno, Hyes.
    cbn [ThreeDAnalyzer.crypto_health ThreeDAnalyzer.usd_impact
         ThreeDAnalyzer.risk_sentiment].
    split; [|repeat split; discriminate].
    intros ? btc' eth' [= <-] Hb' He'.
    rewrite Hbtc in Hb'. rewrite Heth in He'. injection Hb' as <-. injection He' as <-.
    split; [reflexivity|]. split; [intros; lra|]. split; [reflexivity|].
    split; [discriminate|]. intros _. left. exact Hb.
Qed.

(** BTC at 20 000.01 and ETH at 1 200.000 6, exactly 0.06 BTC: without
    rounding the health is NEUTRAL; with the rounding of binary64 the
    quotient comes out above the float 0.06 and the health is BULLISH.
    With ETH at 0.07 BTC the health is BULLISH either way. *)
Lemma analyze_relational_health_witness :
  1200.0006 == 0.06 * 20000.01
  /\ ThreeDAnalyzer.crypto_health
       (ThreeDAnalyzer._analyze_relational Float.exact (Some threshold_prices))
     = ThreeDAnalyzer.NEUTRAL
  /\ ThreeDAnalyzer.crypto_health
       (ThreeDAnalyzer._analyze_relational Float.binary64 (Some threshold_prices))
     = ThreeDAnalyzer.BULLISH
  /\ 0.06 * ((1 - Float.unit_roundoff) * (1 - Float.unit_roundoff)) * 20000.01
     < 1200.0006 * ((1 + Float.unit_roundoff) * (1 + Float.unit_roundoff))
  /\ ThreeDAnalyzer.crypto_health
       (ThreeDAnalyzer._analyze_relational Float.binary64 (Some risk_on_prices))
     = ThreeDAnalyzer.BULLISH.
Proof.
  split; [reflexivity|]. split; [vm_compute; reflexivity|].
  split; [vm_compute; reflexivity|].
  assert (Hsmall : 0 <= Float.unit_roundoff) by (vm_compute; discriminate).
  pose proof (analyze_relational_health Float.binary64 Float.unit_roundoff
                (Some threshold_prices) Hsmall eq_refl round53_accurate) as Hthreshold.
  cbv zeta in Hthreshold. destruct Hthreshold as (_ & Hpriced & _).
  destruct (Hpriced threshold_prices 20000.01 1200.0006 eq_refl eq_refl eq_refl)
    as (_ & _ & _ & Hbullish & _).
  split; [apply Hbullish; vm_compute; reflexivity|].
  pose proof (analyze_relational_health Float.binary64 Float.unit_roundoff
                (Some risk_on_prices) Hsmall eq_refl round53_accurate) as Hon.
  cbv zeta in Hon. destruct Hon as (_ & Hon & _).
  destruct (Hon risk_on_prices 50000 3500 eq_refl eq_refl eq_refl) as (_ & Hup & _).
  apply Hup; vm_compute; reflexivity.
Defined.

(** ** From a filled trade to a trailing position *)

(** The percentage [update_unrealized_pnl] writes fits its column
    exactly when the price is less than 99.9999995% away from the entry:
    the update raises at twice the entry, and above. *)
Lemma update_unrealized_pnl_fits (p : Position.t) (price : Q) :
  0 < Position.entry_price p ->
  0 < Position.quantity p ->
  (Qabs (price - Position.entry_price p) * 100 < 99.9999995 * Position.entry_price p ->
   exists p1, Position.update_unrealized_pnl p price = Returns p1)
  /\ (99.9999995 * Position.entry_price p <= Qabs (price - Position.entry_price p) * 100 ->
      Position.update_unrealized_pnl p price = Raises "DataError").
Proof.
  intros He Hq.
  assert (Hb : 0 < Position.entry_price p * Position.quantity p) by nra.
  unfold Position.update_unrealized_pnl, decimal_div.
  destruct (Qzerob _) eqn:Hz; reflect_cmp; [lra|]. position_simpl.
  set (pct := match Position.side p with
              | BUY => (price - Position.entry_price p) * Position.quantity p
              | SELL => (Position.entry_price p - price) * Position.quantity p
              end / (Position.entry_price p * Position.quantity p) * 100).
  assert (Hpct : Qabs pct * Position.entry_price p
                 == Qabs (price - Position.entry_price p) * 100).
  { assert (Hside : pct == (price - Position.entry_price p) * (100 / Position.entry_price p)
                    \/ pct == (Position.entry_price p - price)
                              * (100 / Position.entry_price p)).
    { subst pct. destruct (Position.side p); [left|right]; field; lra. }
    assert (Hr : 0 <= 100 / Position.entry_price p)
      by (apply Qle_shift_div_l; lra).
    assert (Hre : 100 / Position.entry_price p * Position.entry_price p == 100)
      by (field; lra).
    destruct Hside as [-> | ->]; rewrite Qabs_Qmult, (Qabs_pos _ Hr);
      [|rewrite (Qabs_Qminus (Position.entry_price p) price)];
      rewrite <- Qmult_assoc, Hre; reflexivity. }
  pose proof (Qabs_nonneg pct) as Hnn.
  unfold fits_percentage.
  destruct (Qltb (Qabs pct) 99.9999995) eqn:Hfit; reflect_cmp.
  - split; [intros _; eexists; reflexivity|]. intros Hfar. nra.
  - split; [|reflexivity]. intros Hnear. nra.
Qed.

(** The first steps of the monitor on a position that does not trail yet
    and whose stop is on the losing side of its entry. *)
Lemma first_monitor_step (p p1 : Position.t) (price trig : Q) :
  0 < Position.entry_price p ->
  0 < Position.quantity p ->
  Position.trailing_activated p = false ->
  match Position.side p with
  | BUY => Position.current_stop p <= Position.entry_price p
  | SELL => Position.entry_price p <= Position.current_stop p
  end ->
  0 <= trig ->
  Position.update_unrealized_pnl p price = Returns p1 ->
  exists p2,
    Position.update_trailing_stop p1 price trig = Returns p2
    /\ Position.current_stop p2 = Position.current_stop p
    /\ (Position.trailing_activated p2 = true
        <-> trig * 100 <= Position.unrealized_pnl_pct p1)
    /\ (Position.trailing_activated p2 = true ->
        match Position.side p with
        | BUY => long_invariant p2
        | SELL => short_invariant p2
        end).
Proof.
  intros He Hq Hact Hstop Htrig Hupd.
  assert (Hb : 0 < Position.entry_price p * Position.quantity p) by nra.
  assert (Hp1 : Position.side p1 = Position.side p
                /\ Position.trailing_activated p1 = false
                /\ Position.current_stop p1 = Position.current_stop p
                /\ (trig * 100 <= Position.unrealized_pnl_pct p1 ->
                    match Position.side p with
                    | BUY => Position.current_stop p <= price
                    | SELL => price <= Position.current_stop p
                    end)).
  { unfold Position.update_unrealized_pnl, decimal_div in Hupd.
    destruct (Qzerob _) eqn:Hz; position_simpl; [discriminate|].
    destruct (fits_percentage _); [|discriminate].
    injection Hupd as <-. position_simpl.
    repeat split; try assumption.
    intros Hprofit.
    set (b := Position.entry_price p * Position.quantity p) in *.
    destruct (Position.side p).
    - set (a := (price - Position.entry_price p) * Position.quantity p) in *.
      assert (Hd : 0 <= a / b) by lra.
      assert (Ha : a == a / b * b) by (field; lra).
      assert (0 <= a). { rewrite Ha. apply Qmult_le_0_compat; lra. }
      subst a. nra.
    - set (a := (Position.entry_price p - price) * Position.quantity p) in *.
      assert (Hd : 0 <= a / b) by lra.
      assert (Ha : a == a / b * b) by (field; lra).
      assert (0 <= a). { rewrite Ha. apply Qmult_le_0_compat; lra. }
      subst a. nra. }
  destruct Hp1 as (Hside1 & Hact1 & Hstop1 & Hbeyond).
  destruct (Qgeb (Position.unrealized_pnl_pct p1) (trig * 100)) eqn:Hprofit.
  - apply Qgeb_iff in Hprofit. specialize (Hbeyond Hprofit).
    destruct (Position.side p) eqn:Hside.
    + destruct (update_trailing_stop_activation p1 price trig Hside1 Hact1 Hprofit)
        as (p2 & Hrun & _ & Hact2 & _ & _ & Hstop2 & Hinv); [rewrite Hstop1; exact Hbeyond|].
      exists p2. split; [exact Hrun|].
      split; [congruence|]. split; [tauto|]. intros _. exact Hinv.
    + destruct (update_trailing_stop_short_activation p1 price trig Hside1 Hact1 Hprofit)
        as (p2 & Hrun & Hact2 & _ & _ & Hstop2 & Hinv); [rewrite Hstop1; exact Hbeyond|].
      exists p2. split; [exact Hrun|].
      split; [congruence|]. split; [tauto|]. intros _. exact Hinv.
  - exists p1.
    assert (Hrun : Position.update_trailing_stop p1 price trig = Returns p1).
    { unfold Position.update_trailing_stop. rewrite Hact1. position_simpl.
      rewrite Hprofit, Hact1. reflexivity. }
    apply Qgeb_false in Hprofit.
    split; [exact Hrun|]. split; [exact Hstop1|].
    split; [|rewrite Hact1; discriminate].
    rewrite Hact1. split; [discriminate|]. intros Hge. lra.
Qed.

(** X20.  The position [create_position_from_trade] opens for a trade
    with a positive price and a positive filled quantity is OPEN, does
    not trail, has its stop 1% away from the entry on the losing side, so
    not hit at the entry.  On it the monitor's first steps succeed at
    every price less than 99.9999995% away from the entry: they leave the
    stop where it is and start trailing exactly when the profit reaches
    the trigger, then under the side's invariant.  At any other price
    (twice the entry, and above) [update_unrealized_pnl] raises, the
    percentage not fitting its column. *)
Theorem create_position_from_trade_trails (services : outcome RiskManager.t)
    (rm : RiskManager.t) (trade_id : Z) (trade : Trade.t) (now : Z) (entry : Q)
    (Hservices : services = Returns rm)
    (Hprice : price_of_trade trade = Some entry)
    (Hentry : 0 < entry)
    (Hfilled : 0 < Trade.filled_quantity trade) :
  exists position,
    create_position_from_trade services trade_id trade now = Returns position
    /\ Position.status position = Position.OPEN
    /\ Position.trailing_activated position = false
    /\ Position.entry_price position = entry
    /\ Position.current_stop position
       == match Trade.side trade with
          | BUY => 0.99 * entry
          | SELL => 1.01 * entry
          end
    /\ RiskManager._check_stop_hit position entry = false
    /\ forall price trigger, 0 <= trigger ->
         if Qltb (Qabs (price - entry) * 100) (99.9999995 * entry) then
           exists p1 p2,
             Position.update_unrealized_pnl position price = Returns p1
             /\ Position.update_trailing_stop p1 price trigger = Returns p2
             /\ Position.current_stop p2 = Position.current_stop position
             /\ (Position.trailing_activated p2 = true
                 <-> trigger * 100 <= Position.unrealized_pnl_pct p1)
             /\ (Position.trailing_activated p2 = true ->
                 match Trade.side trade with
                 | BUY => long_invariant p2
                 | SELL => short_invariant p2
                 end)
         else Position.update_unrealized_pnl position price = Raises "DataError".
Proof.
  unfold create_position_from_trade. rewrite Hservices, Hprice.
  cbn [mbind outcome_bind].
  eexists. split; [reflexivity|].
  unfold RiskManager._check_stop_hit, get_stop_loss_price. position_simpl.
  split; [reflexivity|]. split; [reflexivity|]. split; [reflexivity|].
  split; [destruct (Trade.side trade); lra|].
  split.
  { destruct (Trade.side trade).
    - apply Qleb_false. lra.
    - apply Qgeb_false. lra. }
  intros price trigger Htrigger.
  match goal with
  | |- context [Position.update_unrealized_pnl ?p price] =>
      pose proof (update_unrealized_pnl_fits p price) as Hfits;
      pose proof (fun p1 => first_monitor_step p p1 price trigger) as Hstep
  end.
  position_simpl.
  destruct (Hfits Hentry Hfilled) as [Hnear Hfar].
  destruct (Qltb _ _) eqn:Hclose; reflect_cmp.
  - destruct (Hnear Hclose) as [p1 Hupd]. exists p1.
    destruct (Hstep p1) as (p2 & Hrun & Hrest); try assumption; try reflexivity.
    { destruct (Trade.side trade); lra. }
    exists p2. split; [exact Hupd|]. split; [exact Hrun | exact Hrest].
  - apply Hfar. exact Hclose.
Qed.

Lemma create_position_from_trade_trails_witness :
  exists position,
    create_position_from_trade (Returns default_manager) 7
      (Trade.mk 7001 "BTCUSDT" BUY "MARKET" 0.5 0.5 None (Some 100) Trade.FILLED "")
      1000 = Returns position
    /\ Position.current_stop position == 0.99 * 100
    /\ (exists p1 p2,
          Position.update_unrealized_pnl position 103 = Returns p1
          /\ Position.update_trailing_stop p1 103 0.02 = Returns p2
          /\ Position.trailing_activated p2 = true)
    /\ Position.update_unrealized_pnl position 200 = Raises "DataError".
Proof.
  destruct (create_position_from_trade_trails (Returns default_manager) default_manager 7
              (Trade.mk 7001 "BTCUSDT" BUY "MARKET" 0.5 0.5 None (Some 100)
                 Trade.FILLED "")
              1000 100 eq_refl eq_refl eq_refl eq_refl)
    as (position & Hrun & _ & _ & _ & Hstop & _ & Hmonitor).
  exists position. split; [exact Hrun|]. split; [exact Hstop|]. split.
  - destruct (Hmonitor 103 0.02 ltac:(discriminate))
      as (p1 & p2 & Hupd & Htrail & _ & Hact & _).
    exists p1, p2. split; [exact Hupd|]. split; [exact Htrail|].
    apply Hact. unfold create_position_from_trade in Hrun.
    injection Hrun as <-. vm_compute in Hupd. injection Hupd as <-.
    vm_compute. discriminate.
  - exact (Hmonitor 200 0.02 ltac:(discriminate)).
Defined.

(** ** What the monitor asks to close *)

Lemma open_positions_iff (db : gmap Z Position.t) (id : Z) (p : Position.t) :
  (id, p) ∈ RiskManager.open_positions db
  <-> db !! id = Some p /\ Position.status p = Position.OPEN.
Proof.
  unfold RiskManager.open_positions.
  rewrite merge_sort_Permutation, list_elem_of_filter, elem_of_map_to_list.
  cbn [snd]. destruct (Position.status p); cbn; intuition congruence.
Qed.

Lemma open_positions_nodup (db : gmap Z Position.t) :
  NoDup (RiskManager.open_positions db).*1.
Proof.
  unfold RiskManager.open_positions. rewrite merge_sort_Permutation.
  eapply sublist_NoDup; [apply (NoDup_fst_map_to_list db)|].
  apply fmap_sublist, sublist_filter.
Qed.

Lemma positions_to_close_iff (prices : gmap string Q) (positions : list (Z * Position.t))
    (id : Z) (reason : string) :
  (id, reason) ∈ positions_to_close prices positions
  <-> exists position price,
        (id, position) ∈ positions
        /\ prices !! Position.symbol position = Some price
        /\ close_reason_at position price = Some reason.
Proof.
  induction positions as [|[id0 p0] positions IH]; cbn [positions_to_close].
  - split; [intros H; inversion H|].
    intros (? & ? & H & _). inversion H.
  - assert (Hrest : (exists position price,
                       (id, position) ∈ (id0, p0) :: positions
                       /\ prices !! Position.symbol position = Some price
                       /\ close_reason_at position price = Some reason)
                    <-> (id = id0
                         /\ exists price, prices !! Position.symbol p0 = Some price
                                          /\ close_reason_at p0 price = Some reason)
                        \/ (id, reason) ∈ positions_to_close prices positions).
    { rewrite IH. split.
      - intros (position & price & Hin & Hp & Hr).
        apply elem_of_cons in Hin as [[= -> ->]|Hin]; [left|right]; eauto.
      - intros [(-> & price & Hp & Hr)|(position & price & Hin & Hp & Hr)].
        + exists p0, price. split; [apply list_elem_of_here|auto].
        + exists position, price. split; [apply list_elem_of_further, Hin|auto]. }
    rewrite Hrest.
    destruct (prices !! Position.symbol p0) as [price|].
    + destruct (close_reason_at p0 price) as [reason0|] eqn:Hr.
      * rewrite elem_of_cons. split.
        -- intros [[= -> ->]|Hin]; [left|right; exact Hin].
           split; [reflexivity|]. exists price. split; [reflexivity|exact Hr].
        -- intros [(-> & price' & [= <-] & Hr')|Hin]; [left|right; exact Hin].
           congruence.
      * split; [auto|].
        intros [(_ & ? & [= <-] & ?)|Hin]; [congruence|exact Hin].
    + split; [auto|]. intros [(_ & ? & ? & _)|Hin]; [discriminate|exact Hin].
Qed.

Lemma positions_to_close_ids (prices : gmap string Q) (positions : list (Z * Position.t)) :
  (positions_to_close prices positions).*1 `sublist_of` positions.*1.
Proof.
  induction positions as [|[id0 p0] positions IH]; cbn [positions_to_close].
  - constructor.
  - destruct (prices !! Position.symbol p0) as [price|];
      [destruct (close_reason_at p0 price)|]; cbn [fmap list_fmap fst];
      first [apply sublist_skip, IH | apply sublist_cons, IH].
Qed.

Lemma close_reason_stop_loss (position : Position.t) (price : Q) :
  close_reason_at position price = Some "STOP_LOSS"
  <-> RiskManager._check_stop_hit position price = true.
Proof.
  unfold close_reason_at, RiskManager._check_stop_hit.
  destruct (Position.side position).
  - destruct (Qleb _ _); [tauto|].
    destruct (Position.take_profit position) as [tp|]; [destruct (_ && _)|];
      split; discriminate.
  - destruct (Qgeb _ _); [tauto|].
    destruct (Position.take_profit position) as [tp|]; [destruct (_ && _)|];
      split; discriminate.
Qed.

Lemma close_reason_values (position : Position.t) (price : Q) (reason : string) :
  close_reason_at position price = Some reason ->
  reason = "STOP_LOSS" \/ reason = "TAKE_PROFIT".
Proof.
  unfold close_reason_at.
  destruct (Position.side position).
  - destruct (Qleb _ _); [intros [= <-]; auto|].
    destruct (Position.take_profit position) as [tp|]; [destruct (_ && _)|];
      intros [= <-]; auto.
  - destruct (Qgeb _ _); [intros [= <-]; auto|].
    destruct (Position.take_profit position) as [tp|]; [destruct (_ && _)|];
      intros [= <-]; auto.
Qed.

(** X21.  The [close_position] tasks a pass of [monitor_positions]
    queues: one for a position exactly when, in the table as the trailing
    update has left it, the position is OPEN, its symbol has a price and
    the stop or the take-profit test holds at that price; no position is
    asked for twice; the reason is STOP_LOSS exactly when [_check_stop_hit]
    holds on the updated row, and TAKE_PROFIT otherwise.  The table is
    the one [update_trailing_stops] leaves, so nothing is closed by the
    pass itself. *)
Theorem monitor_positions_requests (rm : RiskManager.t) (db : gmap Z Position.t)
    (prices : gmap string Q) :
  let '(result, db', requests) := monitor_positions rm db prices in
  db' = (RiskManager.update_trailing_stops rm db prices).2
  /\ (forall id reason,
        (id, reason) ∈ requests
        <-> exists position price,
              db' !! id = Some position
              /\ Position.status position = Position.OPEN
              /\ prices !! Position.symbol position = Some price
              /\ (if RiskManager._check_stop_hit position price
                  then reason = "STOP_LOSS"
                  else reason = "TAKE_PROFIT"
                       /\ close_reason_at position price = Some "TAKE_PROFIT"))
  /\ NoDup requests.*1
  /\ positions_to_close_count result = Z.of_nat (length requests)
  /\ (positions_to_close_count result <= positions_monitored result)%Z.
Proof.
  unfold monitor_positions.
  destruct (RiskManager.update_trailing_stops rm db prices) as [updated db'].
  cbn [snd positions_to_close_count positions_monitored].
  split; [reflexivity|]. split; [|split; [|split]].
  - intros id reason. rewrite positions_to_close_iff. split.
    + intros (position & price & Hin & Hprice & Hreason).
      apply open_positions_iff in Hin as [Hrow Hopen].
      exists position, price. repeat split; try assumption.
      destruct (RiskManager._check_stop_hit position price) eqn:Hhit.
      * apply close_reason_stop_loss in Hhit. congruence.
      * assert (Hno : close_reason_at position price <> Some "STOP_LOSS").
        { intros H. apply close_reason_stop_loss in H. congruence. }
        destruct (close_reason_values position price reason Hreason) as [->| ->];
          [congruence|]. split; [reflexivity|exact Hreason].
    + intros (position & price & Hrow & Hopen & Hprice & Hreason).
      exists position, price. split; [apply open_positions_iff; auto|].
      split; [exact Hprice|].
      destruct (RiskManager._check_stop_hit position price) eqn:Hhit.
      * subst reason. apply close_reason_stop_loss, Hhit.
      * destruct Hreason as [-> Hreason]. exact Hreason.
  - eapply sublist_NoDup; [apply open_positions_nodup|apply positions_to_close_ids].
  - reflexivity.
  - pose proof (sublist_length _ _ (positions_to_close_ids prices
                                      (RiskManager.open_positions db'))) as Hlen.
    rewrite !length_fmap in Hlen. lia.
Qed.

(** ** Position sizing *)

Ltac size_simpl :=
  cbn [PositionSizeResult.quantity PositionSizeResult.risk_amount
       PositionSizeResult.stop_distance PositionSizeResult.position_value
       PositionSizeResult.risk_pct PositionSizeResult.is_valid
       PositionSizeResult.reason mbind outcome_bind] in *.

(** What a valid result of [calculate_position_size] went through when
    the manager has an exchange client. *)
Lemma calculate_position_size_valid_inv (self : RiskManager.t)
    (divide : Q -> Q -> DecimalRepr.t) (symbol : string)
    (entry_price stop_price : Q) (account_balance : option Q)
    (client : BinanceClient.t) :
  RiskManager.binance_client self = Some client ->
  PositionSizeResult.is_valid
    (calculate_position_size self divide symbol entry_price stop_price account_balance)
  = true ->
  let result :=
    calculate_position_size self divide symbol entry_price stop_price account_balance in
  exists balance formatted info min_notional min_qty,
    (account_balance = Some balance
     \/ account_balance = None
        /\ BinanceClient.get_account_balance client "USDT" = Returns balance)
    /\ 0 < balance
    /\ PositionSizeResult.risk_amount result = balance * RiskManager.account_risk_pct self
    /\ PositionSizeResult.stop_distance result = Qabs (entry_price - stop_price)
    /\ 0 < Qabs (entry_price - stop_price)
    /\ BinanceClient.format_quantity client symbol
         (divide (PositionSizeResult.risk_amount result)
            (PositionSizeResult.stop_distance result)) = Returns formatted
    /\ PositionSizeResult.quantity result = DecimalRepr.value formatted
    /\ PositionSizeResult.position_value result
       = DecimalRepr.value formatted * entry_price
    /\ BinanceClient.get_symbol_info client symbol = Returns info
    /\ BinanceClient.min_notional info = Some min_notional
    /\ BinanceClient.min_qty info = Some min_qty
    /\ DecimalRepr.value min_notional <= PositionSizeResult.position_value result
    /\ DecimalRepr.value min_qty <= PositionSizeResult.quantity result
    /\ PositionSizeResult.reason result = PositionSizeValid.
Proof.
  intros Hclient. cbv zeta.
  unfold calculate_position_size, calculate_position_size_try.
  rewrite Hclient.
  destruct account_balance as [balance|];
    [|destruct (BinanceClient.get_account_balance client "USDT") as [balance|e] eqn:Hbal];
    size_simpl; try discriminate.
  all: destruct (Qleb balance 0) eqn:Hbalance; size_simpl; [discriminate|].
  all: destruct (Qleb (Qabs (entry_price - stop_price)) 0) eqn:Hdistance;
    size_simpl; [discriminate|].
  all: destruct (BinanceClient.format_quantity client symbol _)
    as [formatted|e] eqn:Hformat; size_simpl; [|discriminate].
  all: destruct (BinanceClient.get_symbol_info client symbol) as [info|e] eqn:Hinfo;
    size_simpl; [|discriminate].
  all: destruct (BinanceClient.min_notional info) as [min_notional|] eqn:Hmn;
    size_simpl; [|discriminate].
  all: destruct (Qltb _ (DecimalRepr.value min_notional)) eqn:Hnotional;
    size_simpl; [discriminate|].
  all: destruct (BinanceClient.min_qty info) as [min_qty|] eqn:Hmq;
    size_simpl; [|discriminate].
  all: destruct (Qltb _ (DecimalRepr.value min_qty)) eqn:Hqty;
    size_simpl; [discriminate|].
  all: intros _.
  all: apply Qleb_false in Hbalance; apply Qleb_false in Hdistance.
  all: apply Qltb_false in Hnotional; apply Qltb_false in Hqty.
  all: exists balance, formatted, info, min_notional, min_qty.
  all: split; [auto|].
  all: repeat split; try assumption; reflexivity.
Qed.

(** X22.  A position size that [calculate_position_size] declares valid,
    on a manager with an exchange client: the balance, given or fetched,
    is positive; the risk amount is that balance times the risk
    percentage; the stop distance is positive; the quantity is what
    [format_quantity] makes of risk amount / stop distance; and the
    exchange lists a minimum notional and a minimum quantity, both of
    which the position meets. *)
Theorem calculate_position_size_minimums (self : RiskManager.t)
    (divide : Q -> Q -> DecimalRepr.t) (symbol : string)
    (entry_price stop_price : Q) (account_balance : option Q)
    (client : BinanceClient.t)
    (Hclient : RiskManager.binance_client self = Some client)
    (Hvalid : PositionSizeResult.is_valid
                (calculate_position_size self divide symbol entry_price stop_price
                   account_balance) = true) :
  let result :=
    calculate_position_size self divide symbol entry_price stop_price account_balance in
  exists balance formatted info min_notional min_qty,
    (account_balance = Some balance
     \/ account_balance = None
        /\ BinanceClient.get_account_balance client "USDT" = Returns balance)
    /\ 0 < balance
    /\ PositionSizeResult.risk_amount result = balance * RiskManager.account_risk_pct self
    /\ PositionSizeResult.stop_distance result = Qabs (entry_price - stop_price)
    /\ 0 < Qabs (entry_price - stop_price)
    /\ BinanceClient.format_quantity client symbol
         (divide (PositionSizeResult.risk_amount result)
            (PositionSizeResult.stop_distance result)) = Returns formatted
    /\ PositionSizeResult.quantity result = DecimalRepr.value formatted
    /\ PositionSizeResult.position_value result
       = DecimalRepr.value formatted * entry_price
    /\ BinanceClient.get_symbol_info client symbol = Returns info
    /\ BinanceClient.min_notional info = Some min_notional
    /\ BinanceClient.min_qty info = Some min_qty
    /\ DecimalRepr.value min_notional <= PositionSizeResult.position_value result
    /\ DecimalRepr.value min_qty <= PositionSizeResult.quantity result
    /\ PositionSizeResult.reason result = PositionSizeValid.
Proof.
  exact (calculate_position_size_valid_inv self divide symbol entry_price stop_price
           account_balance client Hclient Hvalid).
Qed.

Lemma calculate_position_size_minimums_witness :
  PositionSizeResult.is_valid
    (calculate_position_size listed_manager whole_quotient "BTCUSDT" 100 99 None) = true
  /\ exists formatted,
       PositionSizeResult.quantity
         (calculate_position_size listed_manager whole_quotient "BTCUSDT" 100 99 None)
       = DecimalRepr.value formatted.
Proof.
  split; [reflexivity|].
  destruct (calculate_position_size_minimums listed_manager whole_quotient "BTCUSDT"
              100 99 None listed_client eq_refl eq_refl)
    as (_ & formatted & _ & _ & _ & _ & _ & _ & _ & _ & _ & Hquantity & _).
  exists formatted. exact Hquantity.
Defined.

(** X23.  On a manager with an exchange client, no position size is
    valid for a symbol for which the exchange lists no MIN_NOTIONAL
    filter or no LOT_SIZE filter: [symbol_info.get] returns the [None]
    stored under the key, not its default, and the comparison with it
    raises (or the position is below the notional that is listed). *)
Theorem calculate_position_size_needs_filters (self : RiskManager.t)
    (divide : Q -> Q -> DecimalRepr.t) (symbol : string)
    (entry_price stop_price : Q) (account_balance : option Q)
    (client : BinanceClient.t) (info : BinanceClient.symbol_info)
    (Hclient : RiskManager.binance_client self = Some client)
    (Hinfo : BinanceClient.get_symbol_info client symbol = Returns info)
    (Hmissing : BinanceClient.min_notional info = None
                \/ BinanceClient.min_qty info = None) :
  PositionSizeResult.is_valid
    (calculate_position_size self divide symbol entry_price stop_price account_balance)
  = false.
Proof.
  destruct (PositionSizeResult.is_valid _) eqn:Hvalid; [|reflexivity].
  destruct (calculate_position_size_valid_inv self divide symbol entry_price stop_price
              account_balance client Hclient Hvalid)
    as (_ & _ & info' & mn & mq & _ & _ & _ & _ & _ & _ & _ & _ & Hinfo' & Hmn & Hmq & _).
  rewrite Hinfo in Hinfo'. injection Hinfo' as <-.
  destruct Hmissing; congruence.
Qed.

Lemma calculate_position_size_needs_filters_witness :
  PositionSizeResult.is_valid
    (calculate_position_size manager_with_client whole_quotient "BTCUSDT" 100 99
       (Some 10000))
  = false.
Proof.
  apply (calculate_position_size_needs_filters manager_with_client whole_quotient
           "BTCUSDT" 100 99 (Some 10000) milli_step_client
           (BinanceClient.mk_info None (Some (DecimalRepr.mk 1 (-3))) None None)).
  - reflexivity.
  - reflexivity.
  - left. reflexivity.
Defined.

(** ** Entry signals *)

Ltac signal_simpl :=
  cbn [StrategyCoordinator.symbol StrategyCoordinator.action
       StrategyCoordinator.entry_price StrategyCoordinator.stop_loss
       StrategyCoordinator.take_profit StrategyCoordinator.quantity
       StrategyCoordinator.confidence StrategyCoordinator.vpa_pattern
       StrategyCoordinator.three_d_confluence StrategyCoordinator.ema_deviation
       StrategyCoordinator.macro_context StrategyCoordinator.is_valid
       StrategyCoordinator.rejection_reason
       StrategyCoordinator._create_exit_signal
       negb andb mbind outcome_bind] in *.

Lemma TrendDirection_eqb_eq (a b : TrendDirection) :
  TrendDirection_eqb a b = true <-> a = b.
Proof. destruct a, b; cbn; split; congruence. Qed.

Lemma DimensionAlignment_eqb_eq (a b : ThreeDAnalyzer.DimensionAlignment) :
  ThreeDAnalyzer.DimensionAlignment_eqb a b = true <-> a = b.
Proof. destruct a, b; cbn; split; congruence. Qed.

(** The gates of [_generate_signal], in the order it passes them. *)
Lemma generate_signal_valid_iff (self : StrategyCoordinator.t)
    (divide : Q -> Q -> DecimalRepr.t) (atr : option Q) (symbol : string)
    (current_price : Q) (vpa_signal : VPAAnalyzer.VPASignal)
    (three_d_signal : ThreeDAnalyzer.ThreeDSignal) (ema_deviation : Q) :
  let signal :=
    StrategyCoordinator._generate_signal self divide atr symbol current_price
      vpa_signal three_d_signal ema_deviation in
  let stop_loss :=
    get_stop_loss_price current_price
      (entry_side (StrategyCoordinator.action signal)) atr 2 in
  let sized :=
    calculate_position_size (StrategyCoordinator.risk_manager self) divide symbol
      current_price stop_loss None in
  StrategyCoordinator.stop_loss signal = stop_loss
  /\ StrategyCoordinator.entry_price signal = current_price
  /\ (StrategyCoordinator.is_valid signal = true
      <-> VPAAnalyzer.is_valid_signal vpa_signal = true
          /\ ThreeDAnalyzer.is_valid_signal three_d_signal = true
          /\ StrategyCoordinator.ema_deviation_threshold self <= Qabs ema_deviation
          /\ (VPAAnalyzer.direction vpa_signal = TREND_BULLISH
              /\ ThreeDAnalyzer.confluence three_d_signal = ThreeDAnalyzer.BULLISH
              /\ ema_deviation < 0
              /\ StrategyCoordinator.action signal = StrategyCoordinator.SIGNAL_BUY
              \/ VPAAnalyzer.direction vpa_signal = TREND_BEARISH
                 /\ ThreeDAnalyzer.confluence three_d_signal = ThreeDAnalyzer.BEARISH
                 /\ 0 < ema_deviation
                 /\ StrategyCoordinator.action signal = StrategyCoordinator.SIGNAL_SELL)
          /\ PositionSizeResult.is_valid sized = true
          /\ StrategyCoordinator.quantity signal = PositionSizeResult.quantity sized
          /\ RiskManager.is_acceptable
               (RiskManager.check_slippage (StrategyCoordinator.risk_manager self)
                  symbol (entry_side (StrategyCoordinator.action signal))
                  (PositionSizeResult.quantity sized) None) = true)
  /\ StrategyCoordinator.take_profit signal
     = (if StrategyCoordinator.is_valid signal && negb (Qzerob stop_loss) then
          match StrategyCoordinator.action signal with
          | StrategyCoordinator.SIGNAL_BUY =>
              Some (current_price + Qabs (current_price - stop_loss) * 2)
          | _ => Some (current_price - Qabs (current_price - stop_loss) * 2)
          end
        else None)
  /\ (StrategyCoordinator.action signal = StrategyCoordinator.SIGNAL_BUY
      \/ StrategyCoordinator.action signal = StrategyCoordinator.SIGNAL_SELL
      \/ StrategyCoordinator.action signal = StrategyCoordinator.HOLD
         /\ StrategyCoordinator.is_valid signal = false
         /\ StrategyCoordinator.quantity signal = 0)
  /\ StrategyCoordinator.confidence signal
     = StrategyCoordinator._calculate_confidence vpa_signal three_d_signal.
Proof.
  cbv zeta. unfold StrategyCoordinator._generate_signal.
  destruct (VPAAnalyzer.is_valid_signal vpa_signal) eqn:Hvpa; signal_simpl.
  2:{ cbn [entry_side]. repeat split; auto; try (intros; intuition congruence). }
  destruct (ThreeDAnalyzer.is_valid_signal three_d_signal) eqn:H3d; signal_simpl.
  2:{ cbn [entry_side]. repeat split; auto; try (intros; intuition congruence). }
  destruct (Qltb (Qabs ema_deviation) _) eqn:Hema; signal_simpl.
  { apply Qltb_iff in Hema. cbn [entry_side].
    repeat split; auto; try (intros; intuition (first [congruence | lra])). }
  apply Qltb_false in Hema.
  destruct (TrendDirection_eqb (VPAAnalyzer.direction vpa_signal) TREND_BULLISH
            && ThreeDAnalyzer.DimensionAlignment_eqb
                 (ThreeDAnalyzer.confluence three_d_signal) ThreeDAnalyzer.BULLISH
            && Qltb ema_deviation 0) eqn:Hbull.
  - apply andb_true_iff in Hbull as [Hbull Hneg].
    apply andb_true_iff in Hbull as [Hdir Htd].
    apply TrendDirection_eqb_eq in Hdir. apply DimensionAlignment_eqb_eq in Htd.
    apply Qltb_iff in Hneg. signal_simpl. cbn [entry_side].
    destruct (PositionSizeResult.is_valid _) eqn:Hsized; signal_simpl.
    2:{ cbn [entry_side] in *. repeat split; auto; try (intros; intuition congruence). }
    destruct (RiskManager.is_acceptable _) eqn:Hslip; signal_simpl.
    2:{ cbn [entry_side] in *. repeat split; auto; try (intros; intuition congruence). }
    cbn [entry_side] in *. repeat split; auto.
  - destruct (TrendDirection_eqb (VPAAnalyzer.direction vpa_signal) TREND_BEARISH
              && ThreeDAnalyzer.DimensionAlignment_eqb
                   (ThreeDAnalyzer.confluence three_d_signal) ThreeDAnalyzer.BEARISH
              && Qgtb ema_deviation 0) eqn:Hbear.
    + apply andb_true_iff in Hbear as [Hbear Hpos].
      apply andb_true_iff in Hbear as [Hdir Htd].
      apply TrendDirection_eqb_eq in Hdir. apply DimensionAlignment_eqb_eq in Htd.
      apply Qgtb_iff in Hpos. signal_simpl. cbn [entry_side].
      destruct (PositionSizeResult.is_valid _) eqn:Hsized; signal_simpl.
      2:{ cbn [entry_side] in *. repeat split; auto; try (intros; intuition congruence). }
      destruct (RiskManager.is_acceptable _) eqn:Hslip; signal_simpl.
      2:{ cbn [entry_side] in *. repeat split; auto; try (intros; intuition congruence). }
      cbn [entry_side] in *. repeat split; auto.
    + signal_simpl. cbn [entry_side].
      repeat split; auto; try (intros; intuition congruence).
Qed.

Lemma calculate_confidence_range (vpa_signal : VPAAnalyzer.VPASignal)
    (three_d_signal : ThreeDAnalyzer.ThreeDSignal) :
  0 <= StrategyCoordinator._calculate_confidence vpa_signal three_d_signal
  /\ StrategyCoordinator._calculate_confidence vpa_signal three_d_signal <= 1.
Proof.
  unfold StrategyCoordinator._calculate_confidence, VPAAnalyzer.fmin, VPAAnalyzer.fmax.
  cbv zeta.
  set (c := VPAAnalyzer.strength vpa_signal * 0.4
            + ThreeDAnalyzer.confluence_score three_d_signal * 0.6).
  destruct (Qgtb 0 c) eqn:Hlow; reflect_cmp.
  - destruct (Qltb 1 0) eqn:Hhigh; reflect_cmp; lra.
  - destruct (Qltb 1 c) eqn:Hhigh; reflect_cmp; lra.
Qed.

(** X24.  [_generate_signal] declares a signal valid exactly when it has
    passed every gate: the VPA signal and the 3-D signal are both valid,
    the EMA deviation is at least the threshold in absolute value, both
    analyses point up with the price below the EMA (action BUY) or both
    point down with the price above it (action SELL), the position size
    computed for the stop is valid and is the signal's quantity, and the
    slippage check accepts that quantity.  A signal that is not valid
    has no take-profit; a HOLD signal is never valid and has quantity 0;
    the confidence lies between 0 and 1. *)
Theorem generate_signal_gates (self : StrategyCoordinator.t)
    (divide : Q -> Q -> DecimalRepr.t) (atr : option Q) (symbol : string)
    (current_price : Q) (vpa_signal : VPAAnalyzer.VPASignal)
    (three_d_signal : ThreeDAnalyzer.ThreeDSignal) (ema_deviation : Q) :
  let signal :=
    StrategyCoordinator._generate_signal self divide atr symbol current_price
      vpa_signal three_d_signal ema_deviation in
  let stop_loss :=
    get_stop_loss_price current_price
      (entry_side (StrategyCoordinator.action signal)) atr 2 in
  let sized :=
    calculate_position_size (StrategyCoordinator.risk_manager self) divide symbol
      current_price stop_loss None in
  StrategyCoordinator.stop_loss signal = stop_loss
  /\ (StrategyCoordinator.is_valid signal = true
      <-> VPAAnalyzer.is_valid_signal vpa_signal = true
          /\ ThreeDAnalyzer.is_valid_signal three_d_signal = true
          /\ StrategyCoordinator.ema_deviation_threshold self <= Qabs ema_deviation
          /\ (VPAAnalyzer.direction vpa_signal = TREND_BULLISH
              /\ ThreeDAnalyzer.confluence three_d_signal = ThreeDAnalyzer.BULLISH
              /\ ema_deviation < 0
              /\ StrategyCoordinator.action signal = StrategyCoordinator.SIGNAL_BUY
              \/ VPAAnalyzer.direction vpa_signal = TREND_BEARISH
                 /\ ThreeDAnalyzer.confluence three_d_signal = ThreeDAnalyzer.BEARISH
                 /\ 0 < ema_deviation
                 /\ StrategyCoordinator.action signal = StrategyCoordinator.SIGNAL_SELL)
          /\ PositionSizeResult.is_valid sized = true
          /\ StrategyCoordinator.quantity signal = PositionSizeResult.quantity sized
          /\ RiskManager.is_acceptable
               (RiskManager.check_slippage (StrategyCoordinator.risk_manager self)
                  symbol (entry_side (StrategyCoordinator.action signal))
                  (PositionSizeResult.quantity sized) None) = true)
  /\ (StrategyCoordinator.is_valid signal = true
      \/ StrategyCoordinator.take_profit signal = None)
  /\ (StrategyCoordinator.action signal = StrategyCoordinator.SIGNAL_BUY
      \/ StrategyCoordinator.action signal = StrategyCoordinator.SIGNAL_SELL
      \/ StrategyCoordinator.action signal = StrategyCoordinator.HOLD
         /\ StrategyCoordinator.is_valid signal = false
         /\ StrategyCoordinator.quantity signal = 0)
  /\ 0 <= StrategyCoordinator.confidence signal
  /\ StrategyCoordinator.confidence signal <= 1.
Proof.
  cbv zeta.
  destruct (generate_signal_valid_iff self divide atr symbol current_price vpa_signal
              three_d_signal ema_deviation)
    as (Hstop & _ & Hvalid & Htp & Haction & Hconfidence).
  split; [exact Hstop|]. split; [exact Hvalid|].
  split.
  { rewrite Htp. destruct (StrategyCoordinator.is_valid _); [left|right]; reflexivity. }
  split; [exact Haction|].
  rewrite Hconfidence. apply calculate_confidence_range.
Qed.

Lemma stop_loss_side (current_price : Q) (side : Side) (atr : option Q) :
  0 < current_price ->
  match side with
  | BUY => get_stop_loss_price current_price side atr 2 < current_price
  | SELL => current_price < get_stop_loss_price current_price side atr 2
  end.
Proof.
  intros Hprice. unfold get_stop_loss_price.
  destruct atr as [a|].
  - destruct (negb (Qzerob a) && Qgtb a 0) eqn:Hatr.
    + apply andb_true_iff in Hatr as [_ Hpos]. apply Qgtb_iff in Hpos.
      destruct side; lra.
    + destruct side; lra.
  - destruct side; lra.
Qed.

(** X25.  A valid signal at a positive price brackets its entry: on a
    BUY the stop is below the entry and the take-profit above it, on a
    SELL the stop is above and the take-profit below, and the distance
    to the take-profit is twice the distance to the stop.  The
    take-profit is missing only on a BUY whose stop is exactly 0. *)
Theorem generate_signal_bracket (self : StrategyCoordinator.t)
    (divide : Q -> Q -> DecimalRepr.t) (atr : option Q) (symbol : string)
    (current_price : Q) (vpa_signal : VPAAnalyzer.VPASignal)
    (three_d_signal : ThreeDAnalyzer.ThreeDSignal) (ema_deviation : Q)
    (Hvalid : StrategyCoordinator.is_valid
                (StrategyCoordinator._generate_signal self divide atr symbol
                   current_price vpa_signal three_d_signal ema_deviation) = true)
    (Hprice : 0 < current_price) :
  let signal :=
    StrategyCoordinator._generate_signal self divide atr symbol current_price
      vpa_signal three_d_signal ema_deviation in
  match StrategyCoordinator.action signal with
  | StrategyCoordinator.SIGNAL_BUY =>
      StrategyCoordinator.stop_loss signal < current_price
      /\ match StrategyCoordinator.take_profit signal with
         | Some take_profit =>
             take_profit - current_price
             == 2 * (current_price - StrategyCoordinator.stop_loss signal)
         | None => StrategyCoordinator.stop_loss signal == 0
         end
  | StrategyCoordinator.SIGNAL_SELL =>
      current_price < StrategyCoordinator.stop_loss signal
      /\ exists take_profit,
           StrategyCoordinator.take_profit signal = Some take_profit
           /\ current_price - take_profit
              == 2 * (StrategyCoordinator.stop_loss signal - current_price)
  | _ => False
  end.
Proof.
  cbv zeta.
  destruct (generate_signal_valid_iff self divide atr symbol current_price vpa_signal
              three_d_signal ema_deviation) as (Hstop & _ & Hiff & Htp & _ & _).
  apply Hiff in Hvalid as Hgates.
  destruct Hgates as (_ & _ & _ & Hdir & _).
  rewrite Htp, Hvalid, Hstop. cbn [andb].
  destruct Hdir as [(_ & _ & _ & ->)|(_ & _ & _ & ->)]; cbn [entry_side].
  - pose proof (stop_loss_side current_price BUY atr Hprice) as Hside.
    cbv beta iota in Hside. split; [exact Hside|].
    destruct (Qzerob (get_stop_loss_price current_price BUY atr 2)) eqn:Hzero;
      cbn [negb]; reflect_cmp; [exact Hzero|].
    rewrite Qabs_pos by lra. ring.
  - pose proof (stop_loss_side current_price SELL atr Hprice) as Hside.
    cbv beta iota in Hside. split; [exact Hside|].
    destruct (Qzerob (get_stop_loss_price current_price SELL atr 2)) eqn:Hzero;
      cbn [negb]; reflect_cmp; [lra|].
    eexists. split; [reflexivity|].
    rewrite Qabs_neg by lra. ring.
Qed.

Lemma generate_signal_bracket_witness :
  match StrategyCoordinator.action
          (StrategyCoordinator._generate_signal listed_coordinator whole_quotient None
             "BTCUSDT" 100 spring_signal bullish_confluence (-0.01)) with
  | StrategyCoordinator.SIGNAL_BUY =>
      StrategyCoordinator.stop_loss
        (StrategyCoordinator._generate_signal listed_coordinator whole_quotient None
           "BTCUSDT" 100 spring_signal bullish_confluence (-0.01)) < 100
      /\ match StrategyCoordinator.take_profit
                 (StrategyCoordinator._generate_signal listed_coordinator
                    whole_quotient None "BTCUSDT" 100 spring_signal
                    bullish_confluence (-0.01)) with
         | Some take_profit =>
             take_profit - 100
             == 2 * (100 - StrategyCoordinator.stop_loss
                             (StrategyCoordinator._generate_signal listed_coordinator
                                whole_quotient None "BTCUSDT" 100 spring_signal
                                bullish_confluence (-0.01)))
         | None =>
             StrategyCoordinator.stop_loss
               (StrategyCoordinator._generate_signal listed_coordinator whole_quotient
                  None "BTCUSDT" 100 spring_signal bullish_confluence (-0.01)) == 0
         end
  | StrategyCoordinator.SIGNAL_SELL =>
      100 < StrategyCoordinator.stop_loss
              (StrategyCoordinator._generate_signal listed_coordinator whole_quotient
                 None "BTCUSDT" 100 spring_signal bullish_confluence (-0.01))
      /\ exists take_profit,
           StrategyCoordinator.take_profit
             (StrategyCoordinator._generate_signal listed_coordinator whole_quotient
                None "BTCUSDT" 100 spring_signal bullish_confluence (-0.01))
           = Some take_profit
           /\ 100 - take_profit
              == 2 * (StrategyCoordinator.stop_loss
                        (StrategyCoordinator._generate_signal listed_coordinator
                           whole_quotient None "BTCUSDT" 100 spring_signal
                           bullish_confluence (-0.01)) - 100)
  | _ => False
  end.
Proof.
  apply (generate_signal_bracket listed_coordinator whole_quotient None "BTCUSDT" 100
           spring_signal bullish_confluence (-0.01)).
  - vm_compute. reflexivity.
  - reflexivity.
Defined.

(** ** Exits, the estimate of the exchange wrapper, candles *)

(** X26.  The two places that decide an exit agree whenever the PnL
    update succeeds: at a price that is not zero, for a position whose
    entry price times quantity is not zero, if [update_unrealized_pnl]
    returns, then [_evaluate_exit] returns an exit signal exactly when
    the test of [monitor_positions] gives a reason to close the
    position; the signal closes the side of the position for its whole
    quantity, is valid, and says "Stop loss triggered" exactly when the
    monitor's reason is STOP_LOSS.  If the update raises (a percentage
    that does not fit its column), [_evaluate_exit] raises with it,
    whatever the monitor's test says.  Without a price, or at a price of
    zero, there is no exit signal. *)
Theorem evaluate_exit_agrees_with_monitor (symbol : string) (position : Position.t)
    (price : Q)
    (Hprice : ~ price == 0)
    (Hheld : ~ Position.entry_price position * Position.quantity position == 0) :
  match Position.update_unrealized_pnl position price with
  | Returns _ =>
      match close_reason_at position price with
      | Some reason =>
          exists signal,
            StrategyCoordinator._evaluate_exit symbol position (Some price)
            = Returns (Some signal)
            /\ StrategyCoordinator.action signal
               = match Position.side position with
                 | BUY => StrategyCoordinator.CLOSE_LONG
                 | SELL => StrategyCoordinator.CLOSE_SHORT
                 end
            /\ StrategyCoordinator.quantity signal = Position.quantity position
            /\ StrategyCoordinator.entry_price signal = price
            /\ StrategyCoordinator.is_valid signal = true
            /\ StrategyCoordinator.macro_context signal
               = (if RiskManager._check_stop_hit position price
                  then "Stop loss triggered" else "Take profit reached")
            /\ (RiskManager._check_stop_hit position price = true
                <-> reason = "STOP_LOSS")
      | None =>
          StrategyCoordinator._evaluate_exit symbol position (Some price) = Returns None
      end
  | Raises e =>
      StrategyCoordinator._evaluate_exit symbol position (Some price) = Raises e
  end
  /\ StrategyCoordinator._evaluate_exit symbol position None = Returns None
  /\ StrategyCoordinator._evaluate_exit symbol position (Some 0) = Returns None.
Proof.
  split; [|split; reflexivity].
  unfold StrategyCoordinator._evaluate_exit, close_reason_at, RiskManager._check_stop_hit.
  apply Qzerob_false in Hprice. rewrite Hprice.
  destruct (Position.update_unrealized_pnl position price) as [p1|e] eqn:Hupd;
    [|reflexivity].
  assert (Hp1 : Position.side p1 = Position.side position
                /\ Position.current_stop p1 = Position.current_stop position
                /\ Position.take_profit p1 = Position.take_profit position
                /\ Position.quantity p1 = Position.quantity position).
  { destruct (update_unrealized_pnl_holding position p1 price Hupd)
      as (Hsame & Hstop & _).
    unfold same_holding in Hsame. decompose [and] Hsame. repeat split; assumption. }
  destruct Hp1 as (Hside & Hstop & Htp & Hq).
  cbn [mbind outcome_bind]. rewrite Hside, Hstop, Htp.
  destruct (Position.side position).
  - destruct (Qleb price (Position.current_stop position)).
    + eexists. split; [reflexivity|]. signal_simpl. repeat split; auto.
    + destruct (Position.take_profit position) as [tp|];
        [destruct (negb (Qzerob tp) && Qgeb price tp)|]; try reflexivity.
      eexists. split; [reflexivity|]. signal_simpl.
      repeat split; auto; discriminate.
  - destruct (Qgeb price (Position.current_stop position)).
    + eexists. split; [reflexivity|]. signal_simpl. repeat split; auto.
    + destruct (Position.take_profit position) as [tp|];
        [destruct (negb (Qzerob tp) && Qleb price tp)|]; try reflexivity.
      eexists. split; [reflexivity|]. signal_simpl.
      repeat split; auto; discriminate.
Qed.

(** The open long at 97, below its stop; and a long of one unit with a
    take-profit at 150, at twice its entry: the monitor asks to take the
    profit, the coordinator raises. *)
Lemma evaluate_exit_agrees_with_monitor_witness :
  (exists signal,
     StrategyCoordinator._evaluate_exit "BTCUSDT" open_long (Some 97)
     = Returns (Some signal)
     /\ StrategyCoordinator.action signal = StrategyCoordinator.CLOSE_LONG)
  /\ StrategyCoordinator._evaluate_exit "BTCUSDT" long_with_target (Some 200)
     = Raises "DataError"
  /\ close_reason_at long_with_target 200 = Some "TAKE_PROFIT".
Proof.
  split; [|split; [|reflexivity]].
  - pose proof (evaluate_exit_agrees_with_monitor "BTCUSDT" open_long 97) as H.
    destruct H as [H _]; [vm_compute; discriminate | vm_compute; discriminate |].
    destruct H as (signal & Hrun & Haction & _).
    exists signal. split; [exact Hrun | exact Haction].
  - pose proof (evaluate_exit_agrees_with_monitor "BTCUSDT" long_with_target 200) as H.
    destruct H as [H _]; [vm_compute; discriminate | vm_compute; discriminate |].
    exact H.
Defined.

(** X27.  The estimate of the exchange wrapper and the slippage check of
    the risk manager agree on a book that the manager fetches from the
    exchange (no cache, or nothing cached) and whose consumed side is not
    empty: same verdict on the liquidity, and, when it suffices, the same
    average price and the same slippage percentage, on which alone the
    acceptance depends; when the estimate raises, the check returns its
    error result. *)
Theorem calculate_slippage_estimate_agrees (self : RiskManager.t)
    (client : BinanceClient.t) (symbol : string) (side : Side) (quantity : Q)
    (book : OrderBook)
    (Hclient : RiskManager.binance_client self = Some client)
    (Hcache : RiskManager.redis_cache self = None
              \/ exists cache, RiskManager.redis_cache self = Some cache
                               /\ RedisCache.get_order_book cache symbol = Returns None)
    (Hbook : BinanceClient.get_order_book_depth client symbol 100 = Returns book)
    (Hlevels : ladder side book <> []) :
  let check := RiskManager.check_slippage self symbol side quantity None in
  match calculate_slippage_estimate client symbol side quantity with
  | Returns estimate =>
      RiskManager.sufficient_liquidity check = sufficient_liquidity estimate
      /\ if sufficient_liquidity estimate
         then RiskManager.estimated_avg_price check = avg_price estimate
              /\ RiskManager.estimated_slippage_pct check = slippage_pct estimate
              /\ RiskManager.is_acceptable check
                 = Qleb (slippage_pct estimate) (RiskManager.max_slippage_pct self * 100)
         else slippage_pct estimate = 100
              /\ RiskManager.estimated_slippage_pct check = 100
              /\ RiskManager.is_acceptable check = false
  | Raises e =>
      RiskManager.reason check = RiskManager.SlippageError e
      /\ RiskManager.is_acceptable check = false
  end.
Proof.
  cbv zeta.
  unfold RiskManager.check_slippage, RiskManager.check_slippage_try,
    calculate_slippage_estimate.
  assert (Hobtain : RiskManager.obtain_order_book self symbol None = Returns (Some book)).
  { unfold RiskManager.obtain_order_book. rewrite Hclient.
    destruct Hcache as [-> | (cache & -> & ->)];
      cbn [mbind outcome_bind]; rewrite Hbook; reflexivity. }
  rewrite Hobtain, Hbook. cbn [mbind outcome_bind].
  unfold ladder in Hlevels.
  set (levels := match side with BUY => asks book | SELL => bids book end) in *.
  destruct levels as [|[best_price best_qty] levels'] eqn:Hl; [congruence|].
  rewrite <- Hl.
  destruct (RiskManager.walk levels quantity 0) as [remaining_qty total_cost].
  destruct (Qgtb remaining_qty 0); [cbn; repeat split; reflexivity|].
  destruct (decimal_div total_cost quantity) as [avg|e];
    cbn [mbind outcome_bind]; [|cbn; split; reflexivity].
  destruct (decimal_div (Qabs (avg - best_price)) best_price) as [ratio|e];
    cbn [mbind outcome_bind]; [|cbn; split; reflexivity].
  cbn [sufficient_liquidity avg_price slippage_pct
       RiskManager.sufficient_liquidity RiskManager.estimated_avg_price
       RiskManager.estimated_slippage_pct RiskManager.is_acceptable].
  repeat split; reflexivity.
Qed.

Lemma calculate_slippage_estimate_agrees_witness :
  match calculate_slippage_estimate listed_client "BTCUSDT" BUY 150 with
  | Returns estimate =>
      RiskManager.sufficient_liquidity
        (RiskManager.check_slippage listed_manager "BTCUSDT" BUY 150 None)
      = sufficient_liquidity estimate
  | Raises e => False
  end.
Proof.
  pose proof (calculate_slippage_estimate_agrees listed_manager listed_client
                "BTCUSDT" BUY 150 (mk_book [(99.9, 1000)] [(100, 1000)])
                eq_refl (or_introl eq_refl) eq_refl) as H.
  cbv zeta in H.
  destruct (calculate_slippage_estimate listed_client "BTCUSDT" BUY 150) as [estimate|e]
    eqn:Hrun.
  - apply H. discriminate.
  - vm_compute in Hrun. discriminate Hrun.
Defined.



(** ** The rolling window of klines *)

Lemma redis_range_prefix {A : Type} (l : list A) (n : Z) :
  (1 <= n)%Z -> redis_range l 0 (n - 1) = take (Z.to_nat n) l.
Proof.
  intros Hn. unfold redis_range. cbv zeta.
  change (0 <? 0)%Z with false. cbv iota.
  change (0 <? 0)%Z with false. cbv iota.
  assert (Hstop : (n - 1 <? 0)%Z = false) by (apply Z.ltb_ge; lia).
  rewrite !Hstop. cbn [orb].
  destruct (Z.of_nat (length l) <=? 0)%Z eqn:Hempty.
  - apply Z.leb_le in Hempty. destruct l; [|cbn in Hempty; lia].
    rewrite take_nil. reflexivity.
  - apply Z.leb_gt in Hempty. change (Z.to_nat 0) with 0%nat. rewrite drop_0.
    destruct (Z.of_nat (length l) <=? n - 1)%Z eqn:Hlong.
    + apply Z.leb_le in Hlong.
      rewrite !take_ge by lia. reflexivity.
    + f_equal. lia.
Qed.

(** X29.  The kline history is a rolling window, newest first: with a
    maximal length of at least 1, [append_kline_to_history] leaves under
    the key of the symbol and interval the new kline followed by the
    former ones, cut to the maximal length, and touches no other key;
    [get_kline_history] for a count of at least 1 then returns the
    decoded first [count] of them, the new kline first. *)
Theorem kline_history_window (Kline : Type) (dumps : Kline -> string)
    (loads : string -> Kline) (lists : gmap string (list string))
    (symbol interval : string) (kline : Kline) (max_length count : Z)
    (Hmax : (1 <= max_length)%Z)
    (Hcount : (1 <= count)%Z) :
  let former := default [] (lists !! history_key symbol interval) in
  let lists' := append_kline_to_history Kline dumps lists symbol interval kline max_length in
  lists' !! history_key symbol interval
  = Some (take (Z.to_nat max_length) (dumps kline :: former))
  /\ (forall key, key <> history_key symbol interval -> lists' !! key = lists !! key)
  /\ get_kline_history Kline loads lists' symbol interval count
     = loads <$> take (Z.to_nat (Z.min count max_length)) (dumps kline :: former)
  /\ head (get_kline_history Kline loads lists' symbol interval count)
     = Some (loads (dumps kline))
  /\ (Z.of_nat (length (get_kline_history Kline loads lists' symbol interval count))
      <= Z.min count max_length)%Z.
Proof.
  cbv zeta. unfold append_kline_to_history, get_kline_history.
  rewrite lookup_insert_eq.
  change (default [] (Some ?l)) with l.
  rewrite !redis_range_prefix by assumption.
  split; [reflexivity|].
  split; [intros key Hkey; apply lookup_insert_ne; congruence|].
  assert (Htake : take (Z.to_nat count)
                    (take (Z.to_nat max_length)
                       (dumps kline :: default [] (lists !! history_key symbol interval)))
                  = take (Z.to_nat (Z.min count max_length))
                      (dumps kline :: default [] (lists !! history_key symbol interval))).
  { rewrite take_take. f_equal. lia. }
  rewrite Htake.
  split; [reflexivity|]. split.
  - destruct (Z.to_nat (Z.min count max_length)) as [|n] eqn:Hn; [lia|]. reflexivity.
  - rewrite length_fmap, length_take. lia.
Qed.

Lemma kline_history_window_witness :
  head (get_kline_history string id
          (append_kline_to_history string id ∅ "BTCUSDT" "1m" "k1" 100)
          "BTCUSDT" "1m" 50)
  = Some "k1".
Proof.
  pose proof (kline_history_window string id id ∅ "BTCUSDT" "1m" "k1" 100 50) as H.
  cbv zeta in H. apply H; lia.
Defined.

(** ** Formatting to the precision of the exchange *)

Lemma value_power (d : DecimalRepr.t) :
  DecimalRepr.value d
  == inject_Z (DecimalRepr.coefficient d) * 10 ^ DecimalRepr.exponent d.
Proof.
  destruct d as [c e]. unfold DecimalRepr.value.
  cbn [DecimalRepr.coefficient DecimalRepr.exponent].
  destruct (0 <=? e)%Z eqn:He.
  - apply Z.leb_le in He.
    rewrite inject_Z_mult, Zpower_Qpower by exact He. reflexivity.
  - apply Z.leb_gt in He.
    rewrite Zpower_Qpower by lia.
    assert (Hinv : 10 ^ e == / inject_Z 10 ^ (- e)).
    { rewrite <- Qpower_opp, Z.opp_involutive. reflexivity. }
    rewrite Hinv. reflexivity.
Qed.

Lemma ten_power_pos (e : Z) : 0 < 10 ^ e.
Proof. apply Qpower_0_lt. reflexivity. Qed.

Lemma round_half_even_near (c m : Z) :
  (0 < m)%Z -> (2 * Z.abs (DecimalRepr.round_half_even c m * m - c) <= m)%Z.
Proof.
  intros Hm. unfold DecimalRepr.round_half_even.
  pose proof (Z.div_mod c m ltac:(lia)) as Hdiv.
  pose proof (Z.mod_pos_bound c m Hm) as Hmod.
  destruct (2 * (c mod m) <? m)%Z eqn:E1;
    [apply Z.ltb_lt in E1; nia | apply Z.ltb_ge in E1].
  destruct (m <? 2 * (c mod m))%Z eqn:E2;
    [apply Z.ltb_lt in E2; nia | apply Z.ltb_ge in E2].
  destruct (Z.even (c / m)); nia.
Qed.

(** [quantize]: the result has the exponent asked for, is within half a
    unit of that place of the argument, and is left as it is by a second
    call. *)
Lemma quantize_nearest (d r : DecimalRepr.t) (e : Z) :
  DecimalRepr.quantize d e = Returns r ->
  DecimalRepr.exponent r = e
  /\ Qabs (DecimalRepr.value r - DecimalRepr.value d)
     <= (1 # 2) * DecimalRepr.value (DecimalRepr.mk 1 e)
  /\ (e <= DecimalRepr.exponent d -> DecimalRepr.value r == DecimalRepr.value d)%Z
  /\ DecimalRepr.quantize r e = Returns r.
Proof.
  destruct d as [c x]. unfold DecimalRepr.quantize.
  cbn [DecimalRepr.coefficient DecimalRepr.exponent].
  set (c' := if (e <=? x)%Z then (c * 10 ^ (x - e))%Z
             else DecimalRepr.round_half_even c (10 ^ (e - x))).
  destruct (Z.abs c' <? 10 ^ DecimalRepr.prec)%Z eqn:Hfit; [|discriminate].
  intros [= <-]. cbn [DecimalRepr.coefficient DecimalRepr.exponent].
  split; [reflexivity|].
  assert (Hagain : (if (Z.abs (if (e <=? e)%Z then (c' * 10 ^ (e - e))%Z
                               else DecimalRepr.round_half_even c' (10 ^ (e - e)))
                        <? 10 ^ DecimalRepr.prec)%Z
                    then Returns (DecimalRepr.mk
                                    (if (e <=? e)%Z then (c' * 10 ^ (e - e))%Z
                                     else DecimalRepr.round_half_even c' (10 ^ (e - e))) e)
                    else Raises "InvalidOperation")
                   = Returns (DecimalRepr.mk c' e)).
  { rewrite Z.leb_refl, Z.sub_diag. change (10 ^ 0)%Z with 1%Z.
    rewrite Z.mul_1_r, Hfit. reflexivity. }
  rewrite !value_power. cbn [DecimalRepr.coefficient DecimalRepr.exponent].
  pose proof (ten_power_pos e) as He. pose proof (ten_power_pos x) as Hx.
  subst c'. destruct (e <=? x)%Z eqn:Hle.
  - apply Z.leb_le in Hle.
    assert (Hsame : inject_Z (c * 10 ^ (x - e)) * 10 ^ e == inject_Z c * 10 ^ x).
    { rewrite inject_Z_mult, Zpower_Qpower by lia.
      replace x with ((x - e) + e)%Z at 2 by lia.
      rewrite Qpower_plus by discriminate.
      change (inject_Z 10) with 10.
      generalize (10 ^ (x - e)) (10 ^ e). intros a b. ring. }
    split; [|split; [intros _; exact Hsame | exact Hagain]].
    rewrite Hsame.
    assert (Hzero : inject_Z c * 10 ^ x - inject_Z c * 10 ^ x == 0)
      by apply Qplus_opp_r.
    rewrite Hzero. change (Qabs 0) with 0. change (inject_Z 1) with 1. lra.
  - apply Z.leb_gt in Hle.
    set (m := (10 ^ (e - x))%Z) in *.
    assert (Hm : (0 < m)%Z) by (subst m; apply Z.pow_pos_nonneg; lia).
    pose proof (round_half_even_near c m Hm) as Hnear.
    set (q := DecimalRepr.round_half_even c m) in *.
    assert (Hscale : 10 ^ e == inject_Z m * 10 ^ x).
    { subst m. rewrite Zpower_Qpower by lia.
      replace e with ((e - x) + x)%Z at 1 by lia.
      rewrite Qpower_plus by discriminate. reflexivity. }
    split; [|split; [intros Hge; lia | exact Hagain]].
    change (inject_Z 1) with 1.
    assert (Hdiff : inject_Z q * 10 ^ e - inject_Z c * 10 ^ x
                    == inject_Z (q * m - c) * 10 ^ x).
    { rewrite Hscale. replace (q * m - c)%Z with (q * m + - c)%Z by lia.
      rewrite inject_Z_plus, inject_Z_mult, inject_Z_opp.
      generalize (10 ^ x). intros a. ring. }
    rewrite Hdiff, Qabs_Qmult, (Qabs_pos (10 ^ x)) by lra.
    rewrite Hscale.
    assert (Habs : 2 * Qabs (inject_Z (q * m - c)) <= inject_Z m).
    { assert (H2 : inject_Z (2 * Z.abs (q * m - c)) <= inject_Z m)
        by (rewrite <- Zle_Qle; exact Hnear).
      rewrite inject_Z_mult in H2.
      assert (Hz : Qabs (inject_Z (q * m - c)) == inject_Z (Z.abs (q * m - c))).
      { unfold Qabs, inject_Z. reflexivity. }
      rewrite Hz. exact H2. }
    nra.
Qed.

(** X30.  [format_price] and [format_quantity] for a symbol whose tick
    or step is listed and not zero: when they return, the result has the
    precision [abs(exponent)] of the tick or step, differs from the
    argument by at most half a unit of that last place, is the argument
    itself in value when the argument already has that precision or a
    coarser one, and is returned unchanged by a second call. *)
Theorem format_price_nearest (self : BinanceClient.t) (symbol : string)
    (info : BinanceClient.symbol_info)
    (Hinfo : BinanceClient.get_symbol_info self symbol = Returns info) :
  (forall tick price formatted,
     BinanceClient.tick_size info = Some tick ->
     DecimalRepr.truthy tick = true ->
     format_price self symbol price = Returns formatted ->
     DecimalRepr.exponent formatted = DecimalRepr.exponent (last_place tick)
     /\ Qabs (DecimalRepr.value formatted - DecimalRepr.value price)
        <= (1 # 2) * DecimalRepr.value (last_place tick)
     /\ (DecimalRepr.exponent (last_place tick) <= DecimalRepr.exponent price ->
         DecimalRepr.value formatted == DecimalRepr.value price)%Z
     /\ format_price self symbol formatted = Returns formatted)
  /\ (forall step quantity formatted,
        BinanceClient.step_size info = Some step ->
        DecimalRepr.truthy step = true ->
        BinanceClient.format_quantity self symbol quantity = Returns formatted ->
        DecimalRepr.exponent formatted = DecimalRepr.exponent (last_place step)
        /\ Qabs (DecimalRepr.value formatted - DecimalRepr.value quantity)
           <= (1 # 2) * DecimalRepr.value (last_place step)
        /\ (DecimalRepr.exponent (last_place step) <= DecimalRepr.exponent quantity ->
            DecimalRepr.value formatted == DecimalRepr.value quantity)%Z
        /\ BinanceClient.format_quantity self symbol formatted = Returns formatted).
Proof.
  unfold format_price, BinanceClient.format_quantity, last_place.
  rewrite Hinfo. cbn [mbind outcome_bind DecimalRepr.exponent].
  split.
  - intros tick price formatted -> -> Hrun.
    destruct (quantize_nearest price formatted _ Hrun) as (He & Hnear & Hsame & Hagain).
    repeat split; assumption.
  - intros step quantity formatted -> -> Hrun.
    destruct (quantize_nearest quantity formatted _ Hrun) as (He & Hnear & Hsame & Hagain).
    repeat split; assumption.
Qed.

Lemma format_price_nearest_witness :
  Qabs (DecimalRepr.value (DecimalRepr.mk 10001 (-2))
        - DecimalRepr.value (DecimalRepr.mk 1000149 (-4)))
  <= (1 # 2) * DecimalRepr.value (last_place (DecimalRepr.mk 1 (-2)))
  /\ format_price listed_client "BTCUSDT" (DecimalRepr.mk 10001 (-2))
     = Returns (DecimalRepr.mk 10001 (-2)).
Proof.
  destruct (proj1 (format_price_nearest listed_client "BTCUSDT" _ eq_refl)
              (DecimalRepr.mk 1 (-2)) (DecimalRepr.mk 1000149 (-4))
              (DecimalRepr.mk 10001 (-2)) eq_refl eq_refl eq_refl)
    as (_ & Hnear & _ & Hagain).
  split; [exact Hnear | exact Hagain].
Defined.
